(** * django/db/backends/utils.py: cursor wrappers and type coercion helpers

    A shallow embedding of the module, together with the fragments of the
    Python runtime it calls (text methods, [int], [float], [datetime],
    [decimal], [hashlib.md5]).  Text is a [string] whose characters are
    code points below 256; the runtime is the Python 3 one. *)

From Stdlib Require Import ZArith NArith List String Ascii Bool Lia.
Import ListNotations.

Local Open Scope string_scope.
Local Open Scope Z_scope.

(* ===================================================================== *)
(** ** Exceptions and results *)
(* ===================================================================== *)

(** The exception classes the modelled code can raise by itself. *)
Inductive exn : Type :=
| ValueError
| TypeError
| IndexError
| OverflowError
| InvalidOperation
| DecimalOverflow.

Inductive result (A : Type) : Type :=
| Ok (a : A)
| Raise (e : exn).

Arguments Ok {A} a.
Arguments Raise {A} e.

Definition rbind {A B : Type} (r : result A) (k : A -> result B) : result B :=
  match r with
  | Ok a => k a
  | Raise e => Raise e
  end.

Notation "'let*' x := r 'in' k" := (rbind r (fun x => k))
  (at level 10, x name, r at level 100, k at level 200).

Notation "'let*' ' p := r 'in' k" :=
  (rbind r (fun x => match x with p => k end))
  (at level 10, p pattern, r at level 100, k at level 200).

Fixpoint rmap {A B : Type} (f : A -> result B) (l : list A) : result (list B) :=
  match l with
  | [] => Ok []
  | x :: xs =>
      let* y := f x in
      let* ys := rmap f xs in
      Ok (y :: ys)
  end.

(* ===================================================================== *)
(** ** Python text methods *)
(* ===================================================================== *)

Module PyStr.

Definition code (c : ascii) : Z := Z.of_N (N_of_ascii c).

(** [str.isspace] on code points below 256. *)
Definition is_space (c : ascii) : bool :=
  let n := code c in
  ((9 <=? n) && (n <=? 13)) || ((28 <=? n) && (n <=? 32))
  || (n =? 133) || (n =? 160).

Definition is_digit (c : ascii) : bool :=
  let n := code c in (48 <=? n) && (n <=? 57).

Definition digit_val (c : ascii) : Z := code c - 48.

Definition len (s : string) : Z := Z.of_nat (String.length s).

(** [c in s] for a one-character [c]. *)
Fixpoint contains (c : ascii) (s : string) : bool :=
  match s with
  | EmptyString => false
  | String x r => if Ascii.eqb x c then true else contains c r
  end.

(** [s.split(sep)] for a one-character separator. *)
Fixpoint split (sep : ascii) (s : string) : list string :=
  match s with
  | EmptyString => [EmptyString]
  | String x r =>
      if Ascii.eqb x sep then EmptyString :: split sep r
      else match split sep r with
           | p :: ps => String x p :: ps
           | [] => [String x EmptyString]
           end
  end.

(** [s.split(sep, 1)]: one or two parts. *)
Fixpoint split1 (sep : ascii) (s : string) : list string :=
  match s with
  | EmptyString => [EmptyString]
  | String x r =>
      if Ascii.eqb x sep then [EmptyString; r]
      else match split1 sep r with
           | p :: ps => String x p :: ps
           | [] => [String x EmptyString]
           end
  end.

(** [s.split()]: the maximal runs of non-space characters. *)
Fixpoint split_ws (s : string) : list string :=
  match s with
  | EmptyString => []
  | String x r =>
      if is_space x then split_ws r
      else match r with
           | EmptyString => [String x EmptyString]
           | String y _ =>
               if is_space y then String x EmptyString :: split_ws r
               else match split_ws r with
                    | w :: ws => String x w :: ws
                    | [] => [String x EmptyString]
                    end
           end
  end.

Fixpoint lstrip (s : string) : string :=
  match s with
  | EmptyString => EmptyString
  | String x r => if is_space x then lstrip r else s
  end.

Fixpoint rstrip (s : string) : string :=
  match s with
  | EmptyString => EmptyString
  | String x r =>
      match rstrip r with
      | EmptyString => if is_space x then EmptyString else String x EmptyString
      | r' => String x r'
      end
  end.

Definition strip (s : string) : string := rstrip (lstrip s).

Fixpoint take (n : nat) (s : string) : string :=
  match n, s with
  | O, _ => EmptyString
  | S _, EmptyString => EmptyString
  | S k, String x r => String x (take k r)
  end.

(** [s[:n]]; a negative [n] counts from the end. *)
Definition slice_to (n : Z) (s : string) : string :=
  if 0 <=? n then take (Z.to_nat n) s
  else take (Z.to_nat (len s + n)) s.

Fixpoint all_digits (s : string) : bool :=
  match s with
  | EmptyString => true
  | String x r => is_digit x && all_digits r
  end.

(** Value of a run of decimal digits, most significant first. *)
Fixpoint digits_val (acc : Z) (s : string) : Z :=
  match s with
  | EmptyString => acc
  | String x r => digits_val (10 * acc + digit_val x) r
  end.

(** The leading run of digits and what follows it. *)
Fixpoint span_digits (s : string) : string * string :=
  match s with
  | EmptyString => (EmptyString, EmptyString)
  | String x r =>
      if is_digit x then let (d, t) := span_digits r in (String x d, t)
      else (EmptyString, s)
  end.

Definition lower (c : ascii) : ascii :=
  let n := code c in
  if (65 <=? n) && (n <=? 90) then ascii_of_N (Z.to_N (n + 32)) else c.

Fixpoint lowercase (s : string) : string :=
  match s with
  | EmptyString => EmptyString
  | String x r => String (lower x) (lowercase r)
  end.

(** The optional exponent that ends a number literal: [e] or [E], an
    optional sign and at least one digit, up to the end of the text. *)
Definition exponent_suffix (s : string) : option Z :=
  match s with
  | EmptyString => Some 0
  | String c r =>
      if Ascii.eqb (lower c) "e"%char then
        let digits (d : string) (sgn : Z) :=
          match d with
          | EmptyString => None
          | _ => if all_digits d then Some (sgn * digits_val 0 d)
                 else None
          end in
        match r with
        | String "+" d => digits d 1
        | String "-" d => digits d (-1)
        | _ => digits r 1
        end
      else None
  end.

(** An optional leading sign and the rest of the text. *)
Definition split_sign (s : string) : bool * string :=
  match s with
  | String "+" r => (false, r)
  | String "-" r => (true, r)
  | _ => (false, s)
  end.

Fixpoint no_space (s : string) : bool :=
  match s with
  | EmptyString => true
  | String x r => negb (is_space x) && no_space r
  end.

Fixpoint repeat (c : ascii) (n : nat) : string :=
  match n with
  | O => EmptyString
  | S k => String c (repeat c k)
  end.

Fixpoint drop (n : nat) (s : string) : string :=
  match n, s with
  | O, _ => s
  | S _, EmptyString => EmptyString
  | S k, String _ r => drop k r
  end.

(** The blanks [int] and [float] skip around a number: the ASCII blanks,
    and the other spaces below 256 (which they first map to a space);
    the separators U+001C to U+001F are not among them, although
    [str.isspace] holds of them. *)
Definition is_num_space (c : ascii) : bool :=
  let n := code c in
  ((9 <=? n) && (n <=? 13)) || (n =? 32) || (n =? 133) || (n =? 160).

Fixpoint lstrip_num (s : string) : string :=
  match s with
  | EmptyString => EmptyString
  | String x r => if is_num_space x then lstrip_num r else s
  end.

Fixpoint rstrip_num (s : string) : string :=
  match s with
  | EmptyString => EmptyString
  | String x r =>
      match rstrip_num r with
      | EmptyString =>
          if is_num_space x then EmptyString else String x EmptyString
      | r' => String x r'
      end
  end.

Definition strip_num (s : string) : string := rstrip_num (lstrip_num s).

End PyStr.

(** [int(s)] on text: surrounding blanks, an optional sign, decimal digits.
    Underscores between digits and the limit on the number of digits,
    which only recent versions of the runtime have, are left out, here
    and in [float] and [Decimal]. *)
Definition py_int (s : string) : result Z :=
  let t := PyStr.strip_num s in
  let unsigned (d : string) (sgn : Z) : result Z :=
    match d with
    | EmptyString => Raise ValueError
    | _ => if PyStr.all_digits d then Ok (sgn * PyStr.digits_val 0 d)
           else Raise ValueError
    end in
  match t with
  | String "+" d => unsigned d 1
  | String "-" d => unsigned d (-1)
  | _ => unsigned t 1
  end.

(** [str(n)] of an integer. *)
Module PyRepr.

Definition digit_char (d : Z) : ascii := ascii_of_N (Z.to_N (48 + d)).

Fixpoint pos_digits (fuel : nat) (n : Z) (acc : string) : string :=
  match fuel with
  | O => acc
  | S k =>
      let acc' := String (digit_char (n mod 10)) acc in
      if n <? 10 then acc' else pos_digits k (n / 10) acc'
  end.

(** Decimal digits of [n >= 0]; the fuel bounds the number of digits. *)
Definition nat_str (n : Z) : string :=
  pos_digits (S (Z.to_nat (Z.log2 n))) n EmptyString.

Definition int_str (n : Z) : string :=
  if n <? 0 then String "-" (nat_str (- n)) else nat_str n.

End PyRepr.

(* ===================================================================== *)
(** ** Python floats: IEEE 754 binary64, computed exactly *)
(* ===================================================================== *)

(** A finite float is [(-1)^neg * m * 2^e]; arithmetic computes the exact
    rational result and rounds it once to 53 bits, ties to even, which is
    what the hardware does. *)
Module PyFloat.

Inductive t : Type :=
| Fin (neg : bool) (m : Z) (e : Z)
| Inf (neg : bool)
| NaN.

Definition prec : Z := 53.
Definition emin : Z := -1074.
Definition emax : Z := 971.

(** [n / d] rounded to the nearest integer, ties to even ([n >= 0], [d > 0]). *)
Definition div_half_even (n d : Z) : Z :=
  let q := n / d in
  let r := n mod d in
  if 2 * r <? d then q
  else if d <? 2 * r then q + 1
  else if Z.even q then q else q + 1.

(** [n / (d * 2^e)] as a fraction of integers. *)
Definition scaled (n d e : Z) : Z * Z :=
  if 0 <=? e then (n, d * 2 ^ e) else (n * 2 ^ (- e), d).

(** The binary64 nearest to [(-1)^neg * n / d], for [n >= 0] and [d > 0]. *)
Definition of_ratio (neg : bool) (n d : Z) : t :=
  if n =? 0 then Fin neg 0 0
  else
    let e1 := Z.log2 n - Z.log2 d - (prec - 1) in
    let '(n1, d1) := scaled n d e1 in
    let e2 := if n1 / d1 <? 2 ^ (prec - 1) then e1 - 1 else e1 in
    let e := Z.max emin e2 in
    let '(n2, d2) := scaled n d e in
    let m := div_half_even n2 d2 in
    if (emax <? e) || ((e =? emax) && (2 ^ prec <=? m)) then Inf neg
    else Fin neg m e.

(** A dyadic [m * 2^e] with [m] signed, rounded to binary64. *)
Definition of_dyadic (m e : Z) : t :=
  let '(n, d) := scaled (Z.abs m) 1 (- e) in
  of_ratio (m <? 0) n d.

Definition of_Z (n : Z) : t := of_dyadic n 0.

Definition signed (neg : bool) (m : Z) : Z := if neg then - m else m.

(** [x * y]. *)
Definition mul (x y : t) : t :=
  match x, y with
  | NaN, _ | _, NaN => NaN
  | Fin nx mx ex, Fin ny my ey =>
      let '(n, d) := scaled (mx * my) 1 (- (ex + ey)) in
      of_ratio (xorb nx ny) n d
  | Inf nx, Inf ny => Inf (xorb nx ny)
  | Inf nx, Fin ny my _ => if my =? 0 then NaN else Inf (xorb nx ny)
  | Fin nx mx _, Inf ny => if mx =? 0 then NaN else Inf (xorb nx ny)
  end.

(** [x - y]. *)
Definition sub (x y : t) : t :=
  match x, y with
  | NaN, _ | _, NaN => NaN
  | Fin nx mx ex, Fin ny my ey =>
      let e := Z.min ex ey in
      let s := signed nx mx * 2 ^ (ex - e) - signed ny my * 2 ^ (ey - e) in
      if s =? 0 then Fin (nx && negb ny) 0 0
      else of_dyadic s e
  | Inf nx, Inf ny => if Bool.eqb nx ny then NaN else Inf nx
  | Inf nx, Fin _ _ _ => Inf nx
  | Fin _ _ _, Inf ny => Inf (negb ny)
  end.

(** [int(x)]: truncation towards zero. *)
Definition to_int (x : t) : result Z :=
  match x with
  | Fin neg m e =>
      let '(n, d) := scaled m 1 (- e) in
      Ok (signed neg (n / d))
  | Inf _ => Raise OverflowError
  | NaN => Raise ValueError
  end.

(** Digits, an optional point and further digits, an optional exponent;
    at least one digit around the point. *)
Definition parse_number (neg : bool) (s : string) : result t :=
  let (ip, r1) := PyStr.span_digits s in
  let '(fp, r2) :=
    match r1 with
    | String "." r => PyStr.span_digits r
    | _ => (EmptyString, r1)
    end in
  match (ip ++ fp)%string with
  | EmptyString => Raise ValueError
  | ds =>
      match PyStr.exponent_suffix r2 with
      | None => Raise ValueError
      | Some x =>
          let n := PyStr.digits_val 0 ds in
          let sc := x - PyStr.len fp in
          if 0 <=? sc then Ok (of_ratio neg (n * 10 ^ sc) 1)
          else Ok (of_ratio neg n (10 ^ (- sc)))
      end
  end.

(** [float(s)] on text. *)
Definition of_str (s : string) : result t :=
  let '(neg, body) := PyStr.split_sign (PyStr.strip_num s) in
  let low := PyStr.lowercase body in
  if String.eqb low "inf" || String.eqb low "infinity" then Ok (Inf neg)
  else if String.eqb low "nan" then Ok NaN
  else parse_number neg body.

Definition is_finite (x : t) : bool :=
  match x with
  | Fin _ _ _ => true
  | _ => false
  end.

(** ["%.<p>f" % x] for a precision [p] that fits a C [int]: the exact
    value of [x] rounded to [p] decimal places, ties to even; a negative
    [p] counts as 0. *)
Definition format_f (p : Z) (x : t) : string :=
  match x with
  | NaN => "nan"
  | Inf neg => if neg then "-inf" else "inf"
  | Fin neg m e =>
      let p' := Z.max 0 p in
      let '(n, d) := scaled (m * 10 ^ p') 1 (- e) in
      let q := div_half_even n d in
      let ip := PyRepr.nat_str (q / 10 ^ p') in
      let fp := PyRepr.nat_str (q mod 10 ^ p') in
      let pad := PyStr.repeat "0" (Z.to_nat p' - String.length fp) in
      let body :=
        if p' =? 0 then ip else (ip ++ "." ++ pad ++ fp)%string in
      if neg then String "-" body else body
  end.

(** ["%.*f" % (p, x)]: the precision is converted to a C [int] first,
    which raises [OverflowError] outside its range.  Within some 310 of
    [2^31] the C conversion of a large value miscounts its own digits;
    that corner is not modelled, and no statement below reaches it. *)
Definition format_star_f (p : Z) (x : t) : result string :=
  if (- 2 ^ 31 <=? p) && (p <? 2 ^ 31) then Ok (format_f p x)
  else Raise OverflowError.

End PyFloat.

(* ===================================================================== *)
(** ** The datetime module *)
(* ===================================================================== *)

Module DateTime.

(** The only tzinfo object the module uses: [django.utils.timezone.utc]. *)
Inductive tzinfo : Type := utc.

Record date : Type := mk_date { year : Z; month : Z; day : Z }.

Record time : Type := mk_time {
  t_hour : Z; t_minute : Z; t_second : Z; t_microsecond : Z;
  t_tzinfo : option tzinfo
}.

Record datetime : Type := mk_datetime {
  dt_year : Z; dt_month : Z; dt_day : Z;
  dt_hour : Z; dt_minute : Z; dt_second : Z; dt_microsecond : Z;
  dt_tzinfo : option tzinfo
}.

Definition is_leap (y : Z) : bool :=
  (y mod 4 =? 0) && (negb (y mod 100 =? 0) || (y mod 400 =? 0)).

Definition days_in_month (y m : Z) : Z :=
  if m =? 2 then (if is_leap y then 29 else 28)
  else if (m =? 4) || (m =? 6) || (m =? 9) || (m =? 11) then 30
  else 31.

Definition valid_date (y m d : Z) : bool :=
  (1 <=? y) && (y <=? 9999) && (1 <=? m) && (m <=? 12)
  && (1 <=? d) && (d <=? days_in_month y m).

Definition valid_time (h mi s us : Z) : bool :=
  (0 <=? h) && (h <=? 23) && (0 <=? mi) && (mi <=? 59)
  && (0 <=? s) && (s <=? 59) && (0 <=? us) && (us <=? 999999).

(** The conversion of an integer argument to a C [int], which the
    constructors do for every argument, in order, before they look at
    ranges. *)
Definition c_int (z : Z) : result Z :=
  if (- 2 ^ 31 <=? z) && (z <? 2 ^ 31) then Ok z else Raise OverflowError.

(** [datetime.date(y, m, d)]. *)
Definition new_date (y m d : Z) : result date :=
  let* y := c_int y in
  let* m := c_int m in
  let* d := c_int d in
  if valid_date y m d then Ok (mk_date y m d) else Raise ValueError.

(** [datetime.date(args...)] for any number of integer arguments: more
    than three are refused at once; fewer are converted one by one before
    the missing one is noticed. *)
Definition date_of_args (args : list Z) : result date :=
  match args with
  | [y; m; d] => new_date y m d
  | _ :: _ :: _ :: _ :: _ => Raise TypeError
  | _ => let* _ := rmap c_int args in Raise TypeError
  end.

(** [datetime.time(h, mi, s, us)]: no tzinfo argument, hence naive. *)
Definition new_time (h mi s us : Z) : result time :=
  let* h := c_int h in
  let* mi := c_int mi in
  let* s := c_int s in
  let* us := c_int us in
  if valid_time h mi s us then Ok (mk_time h mi s us None)
  else Raise ValueError.

(** [datetime.datetime(y, m, d, h, mi, s, us, tz)]. *)
Definition new_datetime (y m d h mi s us : Z) (tz : option tzinfo)
  : result datetime :=
  let* y := c_int y in
  let* m := c_int m in
  let* d := c_int d in
  let* h := c_int h in
  let* mi := c_int mi in
  let* s := c_int s in
  let* us := c_int us in
  if valid_date y m d then
    if valid_time h mi s us then Ok (mk_datetime y m d h mi s us tz)
    else Raise ValueError
  else Raise ValueError.

End DateTime.

(* ===================================================================== *)
(** ** Converters from database (string) to Python *)
(* ===================================================================== *)

(** Truth value of [s] where [s] is [None] or text. *)
Definition truthy (s : option string) : bool :=
  match s with
  | None => false
  | Some EmptyString => false
  | Some _ => true
  end.

(** [typecast_date(s)]. *)
Definition typecast_date (s : option string) : result (option DateTime.date) :=
  match s with
  | Some s' =>
      if truthy s then
        let* args := rmap py_int (PyStr.split "-" s') in
        let* r := DateTime.date_of_args args in
        Ok (Some r)
      else Ok None
  | None => Ok None
  end.

(** [a, b = parts]. *)
Definition unpack2 (parts : list string) : result (string * string) :=
  match parts with
  | [a; b] => Ok (a, b)
  | _ => Raise ValueError
  end.

(** [a, b, c = parts]. *)
Definition unpack3 (parts : list string) : result (string * string * string) :=
  match parts with
  | [a; b; c] => Ok (a, b, c)
  | _ => Raise ValueError
  end.

(** [l[i]]. *)
Definition index (l : list string) (i : nat) : result string :=
  match nth_error l i with
  | Some x => Ok x
  | None => Raise IndexError
  end.

(** The seconds fragment split at its point, [('0' when there is none)]. *)
Definition split_fraction (seconds : string) : result (string * string) :=
  if PyStr.contains "." seconds then unpack2 (PyStr.split "." seconds)
  else Ok (seconds, "0").

(** [int(float('.' + microseconds) * 1000000)]. *)
Definition time_microseconds (microseconds : string) : result Z :=
  let* f := PyFloat.of_str (String "." microseconds) in
  PyFloat.to_int (PyFloat.mul f (PyFloat.of_Z 1000000)).

(** [typecast_time(s)]. *)
Definition typecast_time (s : option string) : result (option DateTime.time) :=
  match s with
  | Some s' =>
      if negb (truthy s) then Ok None
      else
        let* '(hour, minutes, seconds) := unpack3 (PyStr.split ":" s') in
        let* '(seconds, microseconds) := split_fraction seconds in
        let* h := py_int hour in
        let* mi := py_int minutes in
        let* sec := py_int seconds in
        let* us := time_microseconds microseconds in
        let* r := DateTime.new_time h mi sec us in
        Ok (Some r)
  | None => Ok None
  end.

(** [int((microseconds + '000000')[:6])]. *)
Definition timestamp_microseconds (microseconds : string) : result Z :=
  py_int (PyStr.slice_to 6 (microseconds ++ "000000")).

(** The time part and the zone suffix split off it. *)
Definition split_tz (t : string) : result (string * string) :=
  if PyStr.contains "-" t then
    let* '(t', tz) := unpack2 (PyStr.split1 "-" t) in
    Ok (t', String "-" tz)
  else if PyStr.contains "+" t then
    let* '(t', tz) := unpack2 (PyStr.split1 "+" t) in
    Ok (t', String "+" tz)
  else Ok (t, "").

(** What [typecast_timestamp] returns: a date when the text has no blank. *)
Inductive timestamp_value : Type :=
| AsDate (d : DateTime.date)
| AsDateTime (d : DateTime.datetime).

(** [typecast_timestamp(s)], with [settings.USE_TZ] as [use_tz]. *)
Definition typecast_timestamp (use_tz : bool) (s : option string)
  : result (option timestamp_value) :=
  match s with
  | Some s' =>
      if negb (truthy s) then Ok None
      else if negb (PyStr.contains " " s') then
        let* r := typecast_date s in
        Ok (option_map AsDate r)
      else
        let* '(d, t) := unpack2 (PyStr.split_ws s') in
        let* '(t, tz) := split_tz t in
        let dates := PyStr.split "-" d in
        let times := PyStr.split ":" t in
        let* seconds := index times 2 in
        let* '(seconds, microseconds) := split_fraction seconds in
        let tzinfo := if use_tz then Some DateTime.utc else None in
        let* y := rbind (index dates 0) py_int in
        let* m := rbind (index dates 1) py_int in
        let* dd := rbind (index dates 2) py_int in
        let* h := rbind (index times 0) py_int in
        let* mi := rbind (index times 1) py_int in
        let* sec := py_int seconds in
        let* us := timestamp_microseconds microseconds in
        let* r := DateTime.new_datetime y m dd h mi sec us tzinfo in
        Ok (Some (AsDateTime r))
  | None => Ok None
  end.

(* ===================================================================== *)
(** ** The decimal module *)
(* ===================================================================== *)

(** Arbitrary-precision decimals: sign, coefficient and exponent, the two
    infinities, quiet and signaling NaNs with their payload digits.
    Contexts keep the default traps and [clamp = 0].  Their status flags
    are recorded for the one operation this module runs under the thread's
    own context, the power in [format_number]. *)
Module PyDecimal.

Inductive t : Type :=
| Finite (sign : bool) (coeff : Z) (exp : Z)
| Infinity (sign : bool)
| NaN (sign : bool) (signaling : bool) (payload : string).

Inductive rounding_mode : Type :=
| ROUND_DOWN | ROUND_HALF_UP | ROUND_HALF_EVEN | ROUND_CEILING
| ROUND_FLOOR | ROUND_UP | ROUND_HALF_DOWN | ROUND_05UP.

(** The conditions a context records in its [flags]. *)
Inductive signal : Type :=
| SigClamped | SigDivisionByZero | SigInexact | SigInvalidOperation
| SigOverflow | SigRounded | SigSubnormal | SigUnderflow
| SigFloatOperation.

Definition rank (s : signal) : Z :=
  match s with
  | SigClamped => 0 | SigDivisionByZero => 1 | SigInexact => 2
  | SigInvalidOperation => 3 | SigOverflow => 4 | SigRounded => 5
  | SigSubnormal => 6 | SigUnderflow => 7 | SigFloatOperation => 8
  end.

(** [flags] is the set of the signals that are raised, kept in the order
    of [rank] and without repeats. *)
Record context : Type := mk_context {
  prec : Z;
  rounding : rounding_mode;
  Emin : Z;
  Emax : Z;
  capitals : bool;
  flags : list signal
}.

(** [decimal.DefaultContext]. *)
Definition default_context : context :=
  mk_context 28 ROUND_HALF_EVEN (-999999) 999999 true [].

Fixpoint add_signal (s : signal) (l : list signal) : list signal :=
  match l with
  | [] => [s]
  | x :: r =>
      if rank s <? rank x then s :: l
      else if rank s =? rank x then l
      else x :: add_signal s r
  end.

(** [context.flags[s] = True] for each [s] of [ss]. *)
Definition raise_signals (ss : list signal) (c : context) : context :=
  mk_context (prec c) (rounding c) (Emin c) (Emax c) (capitals c)
             (fold_right add_signal (flags c) ss).

Definition MAX_PREC : Z := 999999999999999999.

Definition Etiny (c : context) : Z := Emin c - prec c + 1.

(** [context.prec = p] on a context. *)
Definition set_prec (c : context) (p : Z) : result context :=
  if (1 <=? p) && (p <=? MAX_PREC)
  then Ok (mk_context p (rounding c) (Emin c) (Emax c) (capitals c)
                      (flags c))
  else Raise ValueError.

Definition sign_str (s : bool) : string := if s then "-" else "".

Definition coeff_str (c : Z) : string := PyRepr.nat_str c.

Definition ndigits (c : Z) : Z := PyStr.len (coeff_str c).

(** [self.adjusted()] of a finite value. *)
Definition adjusted (c e : Z) : Z := e + ndigits c - 1.

Fixpoint lstrip_zeros (s : string) : string :=
  match s with
  | String "0" r => lstrip_zeros r
  | _ => s
  end.

(** The non-numeric alternatives of the constructor's grammar. *)
Definition parse_special (sign : bool) (body : string) : result t :=
  let low := PyStr.lowercase body in
  if String.eqb low "inf" || String.eqb low "infinity" then Ok (Infinity sign)
  else
    let '(sig, rest) :=
      match low with
      | String "s" r => (true, r)
      | _ => (false, low)
      end in
    if String.eqb (PyStr.take 3 rest) "nan"
       && PyStr.all_digits (PyStr.drop 3 rest)
    then Ok (NaN sign sig (lstrip_zeros (PyStr.drop 3 rest)))
    else Raise InvalidOperation.

(** [decimal.Decimal(s)] on text. *)
Definition of_str (s : string) : result t :=
  let '(sign, body) := PyStr.split_sign (PyStr.strip s) in
  let (ip, r1) := PyStr.span_digits body in
  let '(fp, r2) :=
    match r1 with
    | String "." r => PyStr.span_digits r
    | _ => (EmptyString, r1)
    end in
  match (ip ++ fp)%string with
  | EmptyString => parse_special sign body
  | ds =>
      match PyStr.exponent_suffix r2 with
      | Some x => Ok (Finite sign (PyStr.digits_val 0 ds) (x - PyStr.len fp))
      | None => Raise InvalidOperation
      end
  end.

(** ["%+d" % n]. *)
Definition signed_str (n : Z) : string :=
  if n <? 0 then PyRepr.int_str n else String "+" (PyRepr.nat_str n).

(** [str(d)]: the to-scientific-string conversion. *)
Definition to_str (ctx : context) (d : t) : string :=
  match d with
  | Infinity s => (sign_str s ++ "Infinity")%string
  | NaN s sig payload =>
      (sign_str s ++ (if sig then "sNaN" else "NaN") ++ payload)%string
  | Finite s c e =>
      let ds := coeff_str c in
      let n := PyStr.len ds in
      let leftdigits := e + n in
      let dotplace :=
        if (e <=? 0) && (-6 <? leftdigits) then leftdigits else 1 in
      let '(intpart, fracpart) :=
        if dotplace <=? 0 then
          ("0", "." ++ PyStr.repeat "0" (Z.to_nat (- dotplace)) ++ ds)%string
        else if n <=? dotplace then
          (ds ++ PyStr.repeat "0" (Z.to_nat (dotplace - n)), "")%string
        else
          (PyStr.take (Z.to_nat dotplace) ds,
           String "." (PyStr.drop (Z.to_nat dotplace) ds)) in
      let exp :=
        if leftdigits =? dotplace then ""
        else ((if capitals ctx then "E" else "e")
              ++ signed_str (leftdigits - dotplace))%string in
      (sign_str s ++ intpart ++ fracpart ++ exp)%string
  end.

(** Whether the quotient [q] with remainder [r] out of [d] is rounded
    away from zero. *)
Definition round_up_p (mode : rounding_mode) (sign : bool) (q r d : Z) : bool :=
  match mode with
  | ROUND_DOWN => false
  | ROUND_UP => negb (r =? 0)
  | ROUND_HALF_UP => d <=? 2 * r
  | ROUND_HALF_DOWN => d <? 2 * r
  | ROUND_HALF_EVEN => (d <? 2 * r) || ((d =? 2 * r) && Z.odd q)
  | ROUND_CEILING => negb sign && negb (r =? 0)
  | ROUND_FLOOR => sign && negb (r =? 0)
  | ROUND_05UP =>
      ((q mod 10 =? 0) || (q mod 10 =? 5)) && negb (r =? 0)
  end.

(** [self._rescale(exp, rounding)] of a finite value. *)
Definition rescale (mode : rounding_mode) (s : bool) (c e exp : Z) : t :=
  if c =? 0 then Finite s 0 exp
  else if exp <=? e then Finite s (c * 10 ^ (e - exp)) exp
  else
    let d := 10 ^ (exp - e) in
    let q := c / d in
    let r := c mod d in
    Finite s (if round_up_p mode s q r d then q + 1 else q) exp.

(** [Decimal(".1") ** n] for an integer [n], in context [ctx]: the power
    of ten and the context as the operation leaves it.  The result is
    exact while its exponent is within the context's range; below [Emin]
    it is subnormal, below [Etiny] it is rounded to the smallest
    exponent, and above [Emax] the power overflows.

    Below [Etiny] the library does not always round the exact power.  It
    computes an integer power with [prec + 2] working digits and as many
    more as [n] has, rounding half-even: a power further below [Etiny]
    than these extra digits reach is zero before the rounding mode of the
    context is applied.  Only an exponent with at least four digits more
    than [Etiny] has is seen to underflow beforehand, and then rounded as
    the mode asks. *)
Definition tenth_pow (ctx : context) (n : Z) : result t * context :=
  if n =? 0 then (Ok (Finite false 1 0), ctx)
  else if Emax ctx <? - n then
    (Raise DecimalOverflow,
     raise_signals [SigInexact; SigOverflow; SigRounded] ctx)
  else if - n <? Etiny ctx then
    let near := Etiny ctx - (ndigits n + 2) <=? - n in
    let far := ndigits (Z.abs (Etiny ctx)) + 4 <=? ndigits n in
    let up := (near || far) && round_up_p (rounding ctx) false 0 1 10 in
    (Ok (Finite false (if up then 1 else 0) (Etiny ctx)),
     raise_signals
       ((if up then [] else [SigClamped])
        ++ [SigInexact; SigRounded; SigSubnormal; SigUnderflow]) ctx)
  else if - n <? Emin ctx then
    (Ok (Finite false 1 (- n)), raise_signals [SigSubnormal] ctx)
  else (Ok (Finite false 1 (- n)), ctx).

(** [self._fix_nan(context)]: the payload keeps its last [prec] digits. *)
Definition fix_nan (ctx : context) (payload : string) : string :=
  let n := PyStr.len payload in
  if prec ctx <? n
  then lstrip_zeros (PyStr.drop (Z.to_nat (n - prec ctx)) payload)
  else payload.

(** [self.quantize(exp, context=ctx)]. *)
Definition quantize (ctx : context) (self exp : t) : result t :=
  match self, exp with
  | NaN _ true _, _ => Raise InvalidOperation
  | _, NaN _ true _ => Raise InvalidOperation
  | NaN s false payload, _ => Ok (NaN s false (fix_nan ctx payload))
  | _, NaN s false payload => Ok (NaN s false (fix_nan ctx payload))
  | Infinity s, Infinity _ => Ok (Infinity s)
  | Infinity _, Finite _ _ _ => Raise InvalidOperation
  | Finite _ _ _, Infinity _ => Raise InvalidOperation
  | Finite s c ex, Finite _ _ e =>
      if negb ((Etiny ctx <=? e) && (e <=? Emax ctx)) then
        Raise InvalidOperation
      else if c =? 0 then Ok (Finite s 0 e)
      else if Emax ctx <? adjusted c ex then Raise InvalidOperation
      else if prec ctx <? adjusted c ex - e + 1 then Raise InvalidOperation
      else
        match rescale (rounding ctx) s c ex e with
        | Finite s' c' e' =>
            if Emax ctx <? adjusted c' e' then Raise InvalidOperation
            else if prec ctx <? ndigits c' then Raise InvalidOperation
            else Ok (Finite s' c' e')
        | other => Ok other
        end
  end.

(** ["{0:f}".format(d)]. *)
Definition format_f (ctx : context) (d : t) : string :=
  match d with
  | Infinity s => (sign_str s ++ "Infinity")%string
  | NaN s sig payload =>
      (sign_str s ++ (if sig then "sNaN" else "NaN") ++ payload)%string
  | Finite s c e =>
      let e := if (c =? 0) && (0 <? e) then 0 else e in
      let ds := coeff_str c in
      let n := PyStr.len ds in
      let dotplace := e + n in
      let '(intpart, fracpart) :=
        if dotplace <? 0 then
          ("0", PyStr.repeat "0" (Z.to_nat (- dotplace)) ++ ds)%string
        else if n <? dotplace then
          (ds ++ PyStr.repeat "0" (Z.to_nat (dotplace - n)), "")%string
        else
          (match PyStr.take (Z.to_nat dotplace) ds with
           | EmptyString => "0"
           | ip => ip
           end,
           PyStr.drop (Z.to_nat dotplace) ds) in
      let fracpart :=
        match fracpart with
        | EmptyString => ""
        | _ => String "." fracpart
        end in
      (sign_str s ++ intpart ++ fracpart)%string
  end.

End PyDecimal.

(** [typecast_decimal(s)]. *)
Definition typecast_decimal (s : option string) : result (option PyDecimal.t) :=
  match s with
  | None => Ok None
  | Some EmptyString => Ok None
  | Some s' => let* d := PyDecimal.of_str s' in Ok (Some d)
  end.

(* ===================================================================== *)
(** ** Converters from Python to database (string) *)
(* ===================================================================== *)

(** [rev_typecast_decimal(d)]; [ctx] is the thread's decimal context,
    which [str] consults for the exponent letter. *)
Definition rev_typecast_decimal (ctx : PyDecimal.context)
    (d : option PyDecimal.t) : option string :=
  match d with
  | None => None
  | Some d' => Some (PyDecimal.to_str ctx d')
  end.

(* ===================================================================== *)
(** ** hashlib.md5 and force_bytes *)
(* ===================================================================== *)

(** MD5 (RFC 1321) on byte lists; a byte is a [Z] in [0, 256), a word a
    [Z] in [0, 2^32) with the wrap-around written out. *)
Module MD5.

Definition w32 (x : Z) : Z := x mod 2 ^ 32.

Definition rotl (x n : Z) : Z :=
  Z.lor (w32 (Z.shiftl x n)) (Z.shiftr x (32 - n)).

Definition not32 (x : Z) : Z := Z.lxor x (2 ^ 32 - 1).

Definition shifts : list Z :=
  [7; 12; 17; 22; 7; 12; 17; 22; 7; 12; 17; 22; 7; 12; 17; 22;
   5; 9; 14; 20; 5; 9; 14; 20; 5; 9; 14; 20; 5; 9; 14; 20;
   4; 11; 16; 23; 4; 11; 16; 23; 4; 11; 16; 23; 4; 11; 16; 23;
   6; 10; 15; 21; 6; 10; 15; 21; 6; 10; 15; 21; 6; 10; 15; 21].

(** [floor(2^32 * abs(sin(i + 1)))] for [i] from 0 to 63. *)
Definition sines : list Z :=
  [0xd76aa478; 0xe8c7b756; 0x242070db; 0xc1bdceee;
   0xf57c0faf; 0x4787c62a; 0xa8304613; 0xfd469501;
   0x698098d8; 0x8b44f7af; 0xffff5bb1; 0x895cd7be;
   0x6b901122; 0xfd987193; 0xa679438e; 0x49b40821;
   0xf61e2562; 0xc040b340; 0x265e5a51; 0xe9b6c7aa;
   0xd62f105d; 0x02441453; 0xd8a1e681; 0xe7d3fbc8;
   0x21e1cde6; 0xc33707d6; 0xf4d50d87; 0x455a14ed;
   0xa9e3e905; 0xfcefa3f8; 0x676f02d9; 0x8d2a4c8a;
   0xfffa3942; 0x8771f681; 0x6d9d6122; 0xfde5380c;
   0xa4beea44; 0x4bdecfa9; 0xf6bb4b60; 0xbebfbc70;
   0x289b7ec6; 0xeaa127fa; 0xd4ef3085; 0x04881d05;
   0xd9d4d039; 0xe6db99e5; 0x1fa27cf8; 0xc4ac5665;
   0xf4292244; 0x432aff97; 0xab9423a7; 0xfc93a039;
   0x655b59c3; 0x8f0ccc92; 0xffeff47d; 0x85845dd1;
   0x6fa87e4f; 0xfe2ce6e0; 0xa3014314; 0x4e0811a1;
   0xf7537e82; 0xbd3af235; 0x2ad7d2bb; 0xeb86d391].

Definition state : Type := (Z * Z * Z * Z)%type.

Definition init : state := (0x67452301, 0xefcdab89, 0x98badcfe, 0x10325476).

(** Round [i] of the compression function on the words [M] of a block. *)
Definition step (M : list Z) (st : state) (i : Z) : state :=
  let '(a, b, c, d) := st in
  let '(f, g) :=
    if i <? 16 then (Z.lor (Z.land b c) (Z.land (not32 b) d), i)
    else if i <? 32 then
      (Z.lor (Z.land d b) (Z.land (not32 d) c), (5 * i + 1) mod 16)
    else if i <? 48 then (Z.lxor b (Z.lxor c d), (3 * i + 5) mod 16)
    else (Z.lxor c (Z.lor b (not32 d)), (7 * i) mod 16) in
  let k := nth (Z.to_nat i) sines 0 in
  let s := nth (Z.to_nat i) shifts 0 in
  let x := nth (Z.to_nat g) M 0 in
  let f' := w32 (f + a + k + x) in
  (d, w32 (b + rotl f' s), b, c).

(** Little-endian 32-bit words of a byte list. *)
Fixpoint words (bs : list Z) : list Z :=
  match bs with
  | b0 :: b1 :: b2 :: b3 :: r =>
      (b0 + 2 ^ 8 * b1 + 2 ^ 16 * b2 + 2 ^ 24 * b3) :: words r
  | _ => []
  end.

Definition rounds : list Z := map Z.of_nat (seq 0 64).

Definition compress (st : state) (block : list Z) : state :=
  let M := words block in
  let '(a, b, c, d) := st in
  let '(a', b', c', d') := fold_left (step M) rounds st in
  (w32 (a + a'), w32 (b + b'), w32 (c + c'), w32 (d + d')).

(** The message followed by 0x80, zeros up to 56 modulo 64, and the bit
    length on 8 little-endian bytes. *)
Definition pad (msg : list Z) : list Z :=
  let n := Z.of_nat (List.length msg) in
  let zeros := Z.to_nat ((55 - n) mod 64) in
  let bits := (8 * n) mod 2 ^ 64 in
  msg ++ [128] ++ List.repeat 0 zeros
      ++ map (fun i => (bits / 2 ^ (8 * Z.of_nat i)) mod 256) (seq 0 8).

Fixpoint blocks (fuel : nat) (bs : list Z) : list (list Z) :=
  match fuel with
  | O => []
  | S k =>
      match bs with
      | [] => []
      | _ => firstn 64 bs :: blocks k (skipn 64 bs)
      end
  end.

Definition digest_state (msg : list Z) : state :=
  let p := pad msg in
  fold_left compress (blocks (List.length p) p) init.

Definition word_bytes (w : Z) : list Z :=
  [w mod 256; (w / 2 ^ 8) mod 256; (w / 2 ^ 16) mod 256; (w / 2 ^ 24) mod 256].

Definition hex_digit (d : Z) : ascii :=
  if d <? 10 then ascii_of_N (Z.to_N (48 + d))
  else ascii_of_N (Z.to_N (87 + d)).

Fixpoint hex_bytes (bs : list Z) : string :=
  match bs with
  | [] => EmptyString
  | b :: r => String (hex_digit (b / 16)) (String (hex_digit (b mod 16)) (hex_bytes r))
  end.

(** [hashlib.md5(msg).hexdigest()]. *)
Definition hexdigest (msg : list Z) : string :=
  let '(a, b, c, d) := digest_state msg in
  hex_bytes (word_bytes a ++ word_bytes b ++ word_bytes c ++ word_bytes d).

End MD5.

(** [force_bytes(name)] on text: its UTF-8 encoding. *)
Fixpoint force_bytes (s : string) : list Z :=
  match s with
  | EmptyString => []
  | String c r =>
      let n := PyStr.code c in
      if n <? 128 then n :: force_bytes r
      else (192 + n / 64) :: (128 + n mod 64) :: force_bytes r
  end.

(** [truncate_name(name, length, hash_len)]; [length] defaults to [None]
    and [hash_len] to 4. *)
Definition truncate_name (name : string) (length : option Z) (hash_len : Z)
  : string :=
  match length with
  | None => name
  | Some l =>
      if PyStr.len name <=? l then name
      else
        let hsh := PyStr.slice_to hash_len (MD5.hexdigest (force_bytes name)) in
        (PyStr.slice_to (l - hash_len) name ++ hsh)%string
  end.

(** What [format_number] is given: a [decimal.Decimal] or a float. *)
Inductive number : Type :=
| Dec (d : PyDecimal.t)
| Flt (f : PyFloat.t).

(** [format_number(value, max_digits, decimal_places)].  [gctx] is the
    thread's decimal context ([decimal.getcontext()]); it is returned next
    to the result, as the call leaves it: the precision is set on a copy,
    the power [Decimal(".1") ** decimal_places] runs under the thread's
    context itself, and [quantize] under the copy. *)
Definition format_number (gctx : PyDecimal.context) (value : number)
    (max_digits decimal_places : Z) : result string * PyDecimal.context :=
  match value with
  | Dec d =>
      match PyDecimal.set_prec gctx max_digits with
      | Raise e => (Raise e, gctx)
      | Ok context =>
          let (places, gctx') := PyDecimal.tenth_pow gctx decimal_places in
          (let* places := places in
           let* q := PyDecimal.quantize context d places in
           Ok (PyDecimal.format_f gctx' q),
           gctx')
      end
  | Flt f => (PyFloat.format_star_f decimal_places f, gctx)
  end.

(** The reading of [format_number] on a decimal that the specification
    gives, in its words: the value is first reduced to [max_digits]
    significant digits, then rendered with [decimal_places] digits after
    the point.  It is here to be compared with [format_number]. *)
Definition reduce_digits (mode : PyDecimal.rounding_mode) (p : Z)
    (d : PyDecimal.t) : PyDecimal.t :=
  match d with
  | PyDecimal.Finite s c e =>
      let n := PyDecimal.ndigits c in
      if n <=? p then d
      else
        match PyDecimal.rescale mode s c e (e + (n - p)) with
        | PyDecimal.Finite s' c' e' =>
            if p <? PyDecimal.ndigits c'
            then PyDecimal.Finite s' (c' / 10) (e' + 1)
            else PyDecimal.Finite s' c' e'
        | other => other
        end
  | _ => d
  end.

Definition format_number_as_claimed (gctx : PyDecimal.context)
    (d : PyDecimal.t) (max_digits decimal_places : Z) : string :=
  match reduce_digits (PyDecimal.rounding gctx) max_digits d with
  | PyDecimal.Finite s c e =>
      PyDecimal.format_f gctx
        (PyDecimal.rescale (PyDecimal.rounding gctx) s c e (- decimal_places))
  | other => PyDecimal.format_f gctx other
  end.

(* ===================================================================== *)
(** ** CursorWrapper and CursorDebugWrapper *)
(* ===================================================================== *)

Declare Scope cursor_scope.
Delimit Scope cursor_scope with cursor.

Section Cursor.

(** The exceptions of the database driver, and the framework's
    database-error kinds they are translated to. *)
Variable driver_exc : Type.
Variable db_error : Type.
Variable translate : driver_exc -> db_error.

(** What cursor methods return, and the parameter objects they take:
    [params_str p] is ["%s" % p], [params_len p] is [len(p)], [None]
    when it raises [TypeError]. *)
Variable value : Type.
Variable params : Type.
Variable params_str : params -> string.
Variable params_len : params -> option Z.

(** Everything outside the wrapper: the driver's state and the clock
    read by [time()]. *)
Variable ext : Type.
Variable clock : ext -> PyFloat.t.

(** [db.ops.last_executed_query(cursor, sql, params)]. *)
Variable last_executed_query : ext -> string -> option params -> string.

Inductive pyval : Type :=
| PStr (s : string)
| PObj (p : params).

Definition args : Type := list pyval.

(** An attribute of the raw cursor. *)
Inductive raw_attr : Type :=
| RawMethod (m : args -> ext -> (value + driver_exc) * ext)
| RawField (v : value).

(** [getattr(cursor, name)] on the raw cursor; [None] when it has no
    such attribute. *)
Variable cursor_getattr : string -> ext -> option raw_attr.

Inductive cursor_exn : Type :=
| DriverError (e : driver_exc)
| DatabaseError (k : db_error)
| AttributeError
| NotCallable.

(** An entry of [db.queries]: the dict with keys ['sql'] and ['time']. *)
Record query_entry : Type := mk_query { q_sql : string; q_time : string }.

(** A call of [logger.debug]: the message and the [extra] fields. *)
Record log_record : Type := mk_log {
  lr_msg : string;
  lr_duration : PyFloat.t;
  lr_sql : string;
  lr_params : option params
}.

(** The calls made on the collaborators, in order. *)
Inductive event : Type :=
| EvSetDirty
| EvCall (attr : string) (a : args)
| EvQuery (q : query_entry)
| EvLog (r : log_record).

Record world : Type := mk_world {
  dirty : bool;
  queries : list query_entry;
  logged : list log_record;
  trace : list event;
  outer : ext
}.

(** Computations that run in a world and return or raise. *)
Definition M (A : Type) : Type := world -> (A + cursor_exn) * world.

Definition ret {A : Type} (a : A) : M A := fun w => (inl a, w).

Definition raise {A : Type} (e : cursor_exn) : M A := fun w => (inr e, w).

Definition bind {A B : Type} (c : M A) (k : A -> M B) : M B :=
  fun w =>
    match c w with
    | (inl a, w') => k a w'
    | (inr e, w') => (inr e, w')
    end.

Notation "x <- c ;; k" := (bind c (fun x => k))
  (at level 61, c at next level, right associativity) : cursor_scope.

Local Open Scope cursor_scope.

(** [try: body finally: cleanup]. *)
Definition try_finally {A : Type} (body : M A) (cleanup : M unit) : M A :=
  fun w =>
    let (r, w1) := body w in
    match cleanup w1 with
    | (inl _, w2) => (r, w2)
    | (inr e, w2) => (inr e, w2)
    end.

Definition log_event (e : event) (w : world) : list event := trace w ++ [e].

(** Modelled from the spec: [db.set_dirty()] of the connection, which is
    not in this module; it marks the connection dirty. *)
Definition set_dirty : M unit :=
  fun w => (inl tt, mk_world true (queries w) (logged w)
                             (log_event EvSetDirty w) (outer w)).

(** [db.queries.append(q)]. *)
Definition queries_append (q : query_entry) : M unit :=
  fun w => (inl tt, mk_world (dirty w) (queries w ++ [q]) (logged w)
                             (log_event (EvQuery q) w) (outer w)).

(** [logger.debug(msg, extra=...)]. *)
Definition logger_debug (r : log_record) : M unit :=
  fun w => (inl tt, mk_world (dirty w) (queries w) (logged w ++ [r])
                             (log_event (EvLog r) w) (outer w)).

(** [time()]. *)
Definition time : M PyFloat.t := fun w => (inl (clock (outer w)), w).

Definition db_last_executed_query (sql : string) (p : option params)
  : M string :=
  fun w => (inl (last_executed_query (outer w) sql p), w).

(** What attribute access yields: something to call, or a plain value. *)
Inductive attr_value : Type :=
| Callable (c : args -> M value)
| Plain (v : value).

(** A bound method of the raw cursor: the call runs in the driver and
    raises the driver's own exception. *)
Definition bound_method (attr : string)
    (m : args -> ext -> (value + driver_exc) * ext) : args -> M value :=
  fun a w =>
    let (r, x) := m a (outer w) in
    (match r with
     | inl v => inl v
     | inr e => inr (DriverError e)
     end,
     mk_world (dirty w) (queries w) (logged w)
              (log_event (EvCall attr a) w) x).

(** [getattr(self.cursor, attr)]. *)
Definition cursor_attr (attr : string) : M attr_value :=
  fun w =>
    match cursor_getattr attr (outer w) with
    | None => (inr AttributeError, w)
    | Some (RawField v) => (inl (Plain v), w)
    | Some (RawMethod m) => (inl (Callable (bound_method attr m)), w)
    end.

(** Calling [f] with the arguments [a]. *)
Definition call (f : attr_value) (a : args) : M value :=
  match f with
  | Callable c => c a
  | Plain _ => raise NotCallable
  end.

(** Modelled from the spec: [db.wrap_database_errors] of the connection,
    which is not in this module: a scope in which an exception of the
    driver is re-raised as the framework's database-error kind.  Errors
    of the interpreter itself (a missing or non-callable attribute) are
    not the driver's and leave the scope as they are. *)
Definition wrap_database_errors {A : Type} (body : M A) : M A :=
  fun w =>
    match body w with
    | (inr (DriverError e), w') => (inr (DatabaseError (translate e)), w')
    | r => r
    end.

(** The same facility used as a decorator: [db.wrap_database_errors(f)]. *)
Definition wrap_database_errors_call (f : attr_value) : attr_value :=
  Callable (fun a => wrap_database_errors (call f a)).

Definition SET_DIRTY_ATTRS : list string :=
  ["execute"; "executemany"; "callproc"]%string.

Definition WRAP_ERROR_ATTRS : list string :=
  ["callproc"; "close"; "execute"; "executemany";
   "fetchone"; "fetchmany"; "fetchall"; "nextset"]%string.

Definition member (a : string) (l : list string) : bool :=
  existsb (String.eqb a) l.

(** [CursorWrapper.__getattr__(self, attr)]. *)
Definition CursorWrapper_getattr (attr : string) : M attr_value :=
  _ <- (if member attr SET_DIRTY_ATTRS then set_dirty else ret tt) ;;
  cursor_attr <- cursor_attr attr ;;
  if member attr WRAP_ERROR_ATTRS
  then ret (wrap_database_errors_call cursor_attr)
  else ret cursor_attr.

(** ["%s" % params] where [params] may be [None]. *)
Definition str_params (p : option params) : string :=
  match p with
  | None => "None"
  | Some p' => params_str p'
  end.

(** ['(%.3f) %s; args=%s' % (duration, sql, params)]. *)
Definition debug_message (duration : PyFloat.t) (sql args_str : string)
  : string :=
  ("(" ++ PyFloat.format_f 3 duration ++ ") " ++ sql
       ++ "; args=" ++ args_str)%string.

(** [CursorDebugWrapper.execute(self, sql, params=None)]. *)
Definition CursorDebugWrapper_execute (sql : string) (p : option params)
  : M value :=
  _ <- set_dirty ;;
  start <- time ;;
  try_finally
    (wrap_database_errors
       (match p with
        | None =>
            f <- cursor_attr "execute" ;; call f [PStr sql]
        | Some p' =>
            f <- cursor_attr "execute" ;; call f [PStr sql; PObj p']
        end))
    (stop <- time ;;
     let duration := PyFloat.sub stop start in
     sql <- db_last_executed_query sql p ;;
     _ <- queries_append (mk_query sql (PyFloat.format_f 3 duration)) ;;
     logger_debug (mk_log (debug_message duration sql (str_params p))
                          duration sql p)).

(** [CursorDebugWrapper.executemany(self, sql, param_list)]. *)
Definition CursorDebugWrapper_executemany (sql : string) (param_list : params)
  : M value :=
  _ <- set_dirty ;;
  start <- time ;;
  try_finally
    (wrap_database_errors
       (f <- cursor_attr "executemany" ;;
        call f [PStr sql; PObj param_list]))
    (stop <- time ;;
     let duration := PyFloat.sub stop start in
     let times :=
       match params_len param_list with
       | Some n => PyRepr.int_str n
       | None => "?"
       end in
     _ <- queries_append (mk_query (times ++ " times: " ++ sql)
                                   (PyFloat.format_f 3 duration)) ;;
     logger_debug (mk_log (debug_message duration sql (params_str param_list))
                          duration sql (Some param_list))).

End Cursor.


Arguments PStr {params} s.
Arguments PObj {params} p.
Arguments RawMethod {driver_exc value params ext} m.
Arguments RawField {driver_exc value params ext} v.
Arguments DriverError {driver_exc db_error} e.
Arguments DatabaseError {driver_exc db_error} k.
Arguments AttributeError {driver_exc db_error}.
Arguments NotCallable {driver_exc db_error}.
Arguments mk_log {params} lr_msg lr_duration lr_sql lr_params.
Arguments lr_msg {params} l.
Arguments lr_duration {params} l.
Arguments lr_sql {params} l.
Arguments lr_params {params} l.
Arguments EvSetDirty {params}.
Arguments EvCall {params} attr a.
Arguments EvQuery {params} q.
Arguments EvLog {params} r.
Arguments mk_world {params ext} dirty queries logged trace outer.
Arguments dirty {params ext} w.
Arguments queries {params ext} w.
Arguments logged {params ext} w.
Arguments trace {params ext} w.
Arguments outer {params ext} w.
Arguments Callable {driver_exc db_error value params ext} c.
Arguments Plain {driver_exc db_error value params ext} v.
Arguments ret {driver_exc db_error params ext A} a w.
Arguments raise {driver_exc db_error params ext A} e w.
Arguments bind {driver_exc db_error params ext A B} c k w.
Arguments try_finally {driver_exc db_error params ext A} body cleanup w.
Arguments set_dirty {driver_exc db_error params ext} w.
Arguments queries_append {driver_exc db_error params ext} q w.
Arguments logger_debug {driver_exc db_error params ext} r w.
Arguments time {driver_exc db_error params ext} clock w.
Arguments db_last_executed_query {driver_exc db_error params ext}
  last_executed_query sql p w.
Arguments bound_method {driver_exc db_error value params ext} attr m a w.
Arguments cursor_attr {driver_exc db_error value params ext}
  cursor_getattr attr w.
Arguments call {driver_exc db_error value params ext} f a w.
Arguments wrap_database_errors {driver_exc db_error} translate
  {params ext A} body w.
Arguments wrap_database_errors_call {driver_exc db_error} translate
  {value params ext} f.
Arguments CursorWrapper_getattr {driver_exc db_error} translate
  {value params ext} cursor_getattr attr w.
Arguments str_params {params} params_str p.
Arguments CursorDebugWrapper_execute {driver_exc db_error} translate
  {value params} params_str {ext} clock last_executed_query cursor_getattr
  sql p w.
Arguments CursorDebugWrapper_executemany {driver_exc db_error} translate
  {value params} params_str params_len {ext} clock cursor_getattr
  sql param_list w.

(* ===================================================================== *)
(** ** A small driver to run the wrappers on *)
(* ===================================================================== *)

(** A cursor that knows one statement.  Its outside world is the clock, in
    milliseconds; a statement that succeeds takes 37 ms, one that fails
    5 ms. *)
Module SampleDriver.

Inductive driver_exc : Type := ProgrammingError | IntegrityError.

Inductive db_error : Type := DjangoProgrammingError | DjangoIntegrityError.

Definition translate (e : driver_exc) : db_error :=
  match e with
  | ProgrammingError => DjangoProgrammingError
  | IntegrityError => DjangoIntegrityError
  end.

Definition params : Type := list Z.

Fixpoint join_ints (l : list Z) : string :=
  match l with
  | [] => ""
  | [x] => PyRepr.int_str x
  | x :: r => (PyRepr.int_str x ++ ", " ++ join_ints r)%string
  end.

Definition params_str (p : params) : string :=
  ("[" ++ join_ints p ++ "]")%string.

Definition params_len (p : params) : option Z := Some (Z.of_nat (List.length p)).

Definition clock (ms : Z) : PyFloat.t := PyFloat.of_ratio false ms 1000.

Definition last_executed_query (ms : Z) (sql : string) (p : option params)
  : string :=
  (sql ++ " -- " ++ str_params params_str p)%string.

Definition run (a : args params) (ms : Z) : (Z + driver_exc) * Z :=
  match a with
  | PStr "SELECT 1" :: _ => (inl 1, ms + 37)
  | _ => (inr ProgrammingError, ms + 5)
  end.

Definition cursor_getattr (name : string) (ms : Z)
  : option (raw_attr driver_exc Z params Z) :=
  if String.eqb name "execute" then Some (RawMethod run)
  else if String.eqb name "executemany" then Some (RawMethod run)
  else if String.eqb name "callproc" then Some (RawMethod run)
  else if String.eqb name "rowcount" then Some (RawField 1)
  else None.

(** A clean connection at 1,700,000,000.250 s. *)
Definition w0 : world params Z := mk_world false [] [] [] 1700000000250.

Definition getattr := CursorWrapper_getattr translate cursor_getattr.

Definition execute :=
  CursorDebugWrapper_execute translate params_str clock last_executed_query
                             cursor_getattr.

Definition executemany :=
  CursorDebugWrapper_executemany translate params_str params_len clock
                                 cursor_getattr.

End SampleDriver.

(* ===================================================================== *)
(** ** A second driver: no [callproc], a [scroll] method, unsized parameters *)
(* ===================================================================== *)

(** A cursor with [execute], [executemany] and [scroll] (which always
    fails) and a [rowcount] field, but no [callproc]; parameter
    collections are one-pass iterators, without a length. *)
Module IteratorDriver.

Definition params_len (p : SampleDriver.params) : option Z := None.

Definition scroll (a : args SampleDriver.params) (ms : Z)
  : (Z + SampleDriver.driver_exc) * Z :=
  (inr SampleDriver.IntegrityError, ms + 1).

Definition cursor_getattr (name : string) (ms : Z)
  : option (raw_attr SampleDriver.driver_exc Z SampleDriver.params Z) :=
  if String.eqb name "execute" then Some (RawMethod SampleDriver.run)
  else if String.eqb name "executemany" then Some (RawMethod SampleDriver.run)
  else if String.eqb name "scroll" then Some (RawMethod scroll)
  else if String.eqb name "rowcount" then Some (RawField 1)
  else None.

Definition getattr :=
  CursorWrapper_getattr SampleDriver.translate cursor_getattr.

Definition executemany :=
  CursorDebugWrapper_executemany SampleDriver.translate
    SampleDriver.params_str params_len SampleDriver.clock cursor_getattr.

End IteratorDriver.

(* ===================================================================== *)
(** ** Shapes of text used in the statements *)
(* ===================================================================== *)

(** A positional decimal text [ip.fp]: [ip] a run of digits that starts
    with a non-zero digit, [fp] a non-empty run of digits. *)
Definition plain_decimal (ip fp : string) : bool :=
  match ip with
  | String x r =>
      PyStr.is_digit x && negb (Ascii.eqb x "0") && PyStr.all_digits r
      && PyStr.all_digits fp && negb (String.eqb fp "")
  | EmptyString => false
  end.

(** A run of digits without a superfluous zero in front: "0" itself, or
    digits that start with a non-zero one. *)
Definition canonical_digits (s : string) : bool :=
  match s with
  | String x r =>
      PyStr.is_digit x && PyStr.all_digits r
      && (negb (Ascii.eqb x "0") || String.eqb r "")
  | EmptyString => false
  end.

(** The text [s] comes back unchanged from [typecast_decimal] followed by
    [rev_typecast_decimal]. *)
Definition round_trips (ctx : PyDecimal.context) (s : string) : Prop :=
  exists d,
    typecast_decimal (Some s) = Ok (Some d) /\
    rev_typecast_decimal ctx (Some d) = Some s.

(** A number written with exactly three decimals: an optional minus sign,
    at least one digit, a point and three digits. *)
Definition drop_minus (s : string) : string :=
  match s with
  | String "-" r => r
  | _ => s
  end.

Definition three_decimals (s : string) : bool :=
  match PyStr.split "." s with
  | [ip; fp] =>
      let ip' := drop_minus ip in
      negb (String.eqb ip' "") && PyStr.all_digits ip'
      && Nat.eqb (String.length fp) 3 && PyStr.all_digits fp
  | _ => false
  end.

(** What the caller of a wrapped cursor method gets for the outcome [r] of
    the method: its value, or the translation of its exception. *)
Definition translated {driver_exc db_error value : Type}
    (translate : driver_exc -> db_error) (r : value + driver_exc)
  : value + cursor_exn driver_exc db_error :=
  match r with
  | inl v => inl v
  | inr e => inr (DatabaseError (translate e))
  end.

(** The arguments [CursorDebugWrapper.execute] passes on. *)
Definition execute_args {params : Type} (sql : string) (p : option params)
  : args params :=
  match p with
  | None => [PStr sql]
  | Some p' => [PStr sql; PObj p']
  end.

(* ===================================================================== *)
(** ** Text of dates and datetimes *)
(* ===================================================================== *)

(** [str(d)] for dates and naive datetimes, as a database driver hands
    them over: [date.isoformat()] and [datetime.isoformat(sep=' ')]. *)
Module DateTimeText.

(** ["%0*d" % (width, n)] for [n >= 0]. *)
Definition zfill (width : nat) (n : Z) : string :=
  let s := PyRepr.nat_str n in
  (PyStr.repeat "0" (width - String.length s) ++ s)%string.

Definition date_str (y m d : Z) : string :=
  (zfill 4 y ++ "-" ++ zfill 2 m ++ "-" ++ zfill 2 d)%string.

(** The seconds of a time text, with the six microsecond digits behind a
    point when there are any. *)
Definition seconds_str (s us : Z) : string :=
  (zfill 2 s ++ (if Z.eqb us 0 then "" else String "." (zfill 6 us)))%string.

Definition time_str (h mi s us : Z) : string :=
  (zfill 2 h ++ ":" ++ zfill 2 mi ++ ":" ++ seconds_str s us)%string.

Definition datetime_str (d : DateTime.datetime) : string :=
  (date_str (DateTime.dt_year d) (DateTime.dt_month d) (DateTime.dt_day d)
   ++ " "
   ++ time_str (DateTime.dt_hour d) (DateTime.dt_minute d)
               (DateTime.dt_second d) (DateTime.dt_microsecond d))%string.

End DateTimeText.

(** The last part of [typecast_timestamp]: the datetime built from the date
    text [d] and the time text [t] once the zone suffix is off. *)
Definition timestamp_of_parts (use_tz : bool) (d t : string)
  : result (option timestamp_value) :=
  let dates := PyStr.split "-" d in
  let times := PyStr.split ":" t in
  let* seconds := index times 2 in
  let* '(seconds, microseconds) := split_fraction seconds in
  let tzinfo := if use_tz then Some DateTime.utc else None in
  let* y := rbind (index dates 0) py_int in
  let* m := rbind (index dates 1) py_int in
  let* dd := rbind (index dates 2) py_int in
  let* h := rbind (index times 0) py_int in
  let* mi := rbind (index times 1) py_int in
  let* sec := py_int seconds in
  let* us := timestamp_microseconds microseconds in
  let* r := DateTime.new_datetime y m dd h mi sec us tzinfo in
  Ok (Some (AsDateTime r)).

(** A number written with exactly [p] decimals ([p >= 1]): an optional
    minus sign, at least one digit, a point and [p] digits. *)
Definition fixed_decimals (p : nat) (s : string) : bool :=
  match PyStr.split "." s with
  | [ip; fp] =>
      negb (String.eqb (drop_minus ip) "")
      && PyStr.all_digits (drop_minus ip)
      && Nat.eqb (String.length fp) p && PyStr.all_digits fp
  | _ => false
  end.

(** [sep.join(parts)] for a one-character separator. *)
Fixpoint join (sep : ascii) (parts : list string) : string :=
  match parts with
  | [] => ""
  | [p] => p
  | p :: ps => (p ++ String sep (join sep ps))%string
  end.

(** A non-empty run of digits. *)
Definition digit_run (s : string) : bool :=
  PyStr.all_digits s && negb (String.eqb s "").

(** A non-empty run of at most nine digits: its value fits a C [int]. *)
Definition short_digit_run (s : string) : bool :=
  digit_run s && (String.length s <=? 9)%nat.

(** A raw cursor without any attribute, run with the sample driver's
    clock and renderer. *)
Module BareDriver.

Definition cursor_getattr (name : string) (ms : Z)
  : option (raw_attr SampleDriver.driver_exc Z SampleDriver.params Z) :=
  None.

Definition execute :=
  CursorDebugWrapper_execute SampleDriver.translate SampleDriver.params_str
    SampleDriver.clock SampleDriver.last_executed_query cursor_getattr.

End BareDriver.

(** A cursor after its rows are used up: [fetchone] fails in the driver,
    [close] succeeds; there is a [rowcount] field and nothing else. *)
Module ReadingDriver.

Definition fetchone (a : args SampleDriver.params) (ms : Z)
  : (Z + SampleDriver.driver_exc) * Z :=
  (inr SampleDriver.ProgrammingError, ms + 2).

Definition close (a : args SampleDriver.params) (ms : Z)
  : (Z + SampleDriver.driver_exc) * Z :=
  (inl 0, ms + 1).

Definition cursor_getattr (name : string) (ms : Z)
  : option (raw_attr SampleDriver.driver_exc Z SampleDriver.params Z) :=
  if String.eqb name "fetchone" then Some (RawMethod fetchone)
  else if String.eqb name "close" then Some (RawMethod close)
  else if String.eqb name "rowcount" then Some (RawField 0)
  else None.

Definition getattr :=
  CursorWrapper_getattr SampleDriver.translate cursor_getattr.

End ReadingDriver.

(* ===================================================================== *)
(** * Properties *)
(* ===================================================================== *)

(** ** Facts about text and digits *)

Arguments PyStr.is_digit : simpl never.
Arguments PyStr.is_space : simpl never.

Lemma append_assoc (a b c : string) :
  ((a ++ b) ++ c = a ++ (b ++ c))%string.
Proof.
  induction a as [| x a IH]; simpl; [reflexivity | now rewrite IH].
Qed.

Lemma append_nil_r (a : string) : (a ++ "")%string = a.
Proof.
  induction a as [| x a IH]; simpl; [reflexivity | now rewrite IH].
Qed.

Lemma length_append (a b : string) :
  String.length (a ++ b) = (String.length a + String.length b)%nat.
Proof.
  induction a as [| x a IH]; simpl; [reflexivity | now rewrite IH].
Qed.

Lemma is_digit_spec (x : ascii) :
  PyStr.is_digit x = true ->
  0 <= PyStr.digit_val x < 10 /\ PyRepr.digit_char (PyStr.digit_val x) = x.
Proof.
  destruct x as [[] [] [] [] [] [] [] []]; intros H; vm_compute in H;
    try discriminate H; clear H; vm_compute; intuition discriminate.
Qed.

Lemma digit_char_is_digit (d : Z) :
  0 <= d < 10 -> PyStr.is_digit (PyRepr.digit_char d) = true.
Proof.
  intros H.
  assert (d = 0 \/ d = 1 \/ d = 2 \/ d = 3 \/ d = 4 \/ d = 5 \/ d = 6
          \/ d = 7 \/ d = 8 \/ d = 9) as D by lia.
  repeat (destruct D as [-> | D]; [reflexivity |]). subst. reflexivity.
Qed.

Lemma pos_digits_acc (fuel : nat) : forall n acc,
  PyRepr.pos_digits fuel n acc = (PyRepr.pos_digits fuel n "" ++ acc)%string.
Proof.
  induction fuel as [| k IH]; intros n acc; simpl.
  - reflexivity.
  - destruct (n <? 10).
    + reflexivity.
    + rewrite IH. rewrite (IH _ (String _ "")).
      rewrite append_assoc. reflexivity.
Qed.

Lemma pos_digits_fuel (f1 : nat) : forall f2 n acc,
  0 <= n < 2 ^ Z.of_nat f1 -> 0 <= n < 2 ^ Z.of_nat f2 ->
  (0 < f1)%nat -> (0 < f2)%nat ->
  PyRepr.pos_digits f1 n acc = PyRepr.pos_digits f2 n acc.
Proof.
  induction f1 as [| k IH]; intros f2 n acc H1 H2 P1 P2; [lia |].
  destruct f2 as [| k2]; [lia |].
  cbn [PyRepr.pos_digits]. destruct (n <? 10) eqn:E; [reflexivity |].
  apply Z.ltb_ge in E.
  rewrite Nat2Z.inj_succ, Z.pow_succ_r in H1 by lia.
  rewrite Nat2Z.inj_succ, Z.pow_succ_r in H2 by lia.
  assert (0 <= n / 10 < 2 ^ Z.of_nat k).
  { split; [apply Z.div_pos; lia | apply Z.div_lt_upper_bound; lia]. }
  assert (0 <= n / 10 < 2 ^ Z.of_nat k2).
  { split; [apply Z.div_pos; lia | apply Z.div_lt_upper_bound; lia]. }
  assert (1 <= n / 10) by (apply Z.div_le_lower_bound; lia).
  apply IH; try assumption.
  - destruct k; [simpl in *; lia | lia].
  - destruct k2; [simpl in *; lia | lia].
Qed.

Lemma nat_str_fuel (n : Z) (f : nat) :
  0 <= n < 2 ^ Z.of_nat f -> (0 < f)%nat ->
  PyRepr.nat_str n = PyRepr.pos_digits f n "".
Proof.
  intros H P. unfold PyRepr.nat_str. apply pos_digits_fuel; try lia.
  rewrite Nat2Z.inj_succ, Z2Nat.id by apply Z.log2_nonneg.
  destruct (Z.eq_dec n 0) as [-> | N]; [simpl; lia |].
  split; [lia |]. apply Z.log2_spec. lia.
Qed.

Lemma nat_str_snoc (n d : Z) :
  0 < n -> 0 <= d < 10 ->
  PyRepr.nat_str (10 * n + d)
  = (PyRepr.nat_str n ++ String (PyRepr.digit_char d) "")%string.
Proof.
  intros N D.
  set (f := S (Z.to_nat (Z.log2 n))).
  assert (0 <= n < 2 ^ Z.of_nat f) as B.
  { unfold f. rewrite Nat2Z.inj_succ, Z2Nat.id by apply Z.log2_nonneg.
    split; [lia |]. apply Z.log2_spec. lia. }
  rewrite (nat_str_fuel n f) by (unfold f; lia || assumption).
  remember (4 + f)%nat as g eqn:G.
  assert (0 <= 10 * n + d < 2 ^ Z.of_nat (S g)) as B'.
  { subst g. rewrite Nat2Z.inj_succ, Nat2Z.inj_add, Z.pow_succ_r,
      Z.pow_add_r by lia. change (2 ^ Z.of_nat 4) with 16. lia. }
  rewrite (nat_str_fuel _ _ B') by lia.
  cbn [PyRepr.pos_digits].
  replace (10 * n + d <? 10) with false by (symmetry; apply Z.ltb_ge; lia).
  replace ((10 * n + d) mod 10) with d
    by (rewrite Z.add_comm, Z.mul_comm, Z.mod_add by lia;
        symmetry; apply Z.mod_small; lia).
  replace ((10 * n + d) / 10) with n
    by (rewrite Z.add_comm, Z.mul_comm, Z.div_add by lia;
        rewrite Z.div_small by lia; lia).
  rewrite pos_digits_acc.
  f_equal. apply pos_digits_fuel; try lia.
  subst g. rewrite Nat2Z.inj_add, Z.pow_add_r by lia.
  change (2 ^ Z.of_nat 4) with 16. lia.
Qed.

Lemma all_digits_cons (x : ascii) (r : string) :
  PyStr.all_digits (String x r) = true ->
  PyStr.is_digit x = true /\ PyStr.all_digits r = true.
Proof.
  simpl. intros H. apply andb_true_iff in H. exact H.
Qed.

Lemma nat_str_digits_val (s : string) : forall acc,
  PyStr.all_digits s = true -> 0 < acc ->
  PyRepr.nat_str (PyStr.digits_val acc s) = (PyRepr.nat_str acc ++ s)%string.
Proof.
  induction s as [| x r IH]; intros acc D A.
  - simpl. now rewrite append_nil_r.
  - apply all_digits_cons in D. destruct D as [Dx Dr].
    destruct (is_digit_spec x Dx) as [Bx Cx].
    cbn [PyStr.digits_val]. rewrite IH by (assumption || lia).
    rewrite nat_str_snoc by (assumption || lia).
    rewrite Cx, append_assoc. reflexivity.
Qed.

(** ** Empty input *)

(** C7: on [None] and on the empty text each converter returns [None]:
    [typecast_date], [typecast_time], [typecast_timestamp] (whatever
    [USE_TZ] is) and [typecast_decimal]; [rev_typecast_decimal] returns
    [None] on [None]. *)
Theorem coercions_of_nothing :
  typecast_date None = Ok None /\
  typecast_date (Some "") = Ok None /\
  typecast_time None = Ok None /\
  typecast_time (Some "") = Ok None /\
  (forall use_tz, typecast_timestamp use_tz None = Ok None) /\
  (forall use_tz, typecast_timestamp use_tz (Some "") = Ok None) /\
  typecast_decimal None = Ok None /\
  typecast_decimal (Some "") = Ok None /\
  (forall ctx, rev_typecast_decimal ctx None = None).
Proof.
  repeat split; intros; reflexivity.
Qed.

(** ** Timestamps and times *)

Definition sample_timestamp : string := "2005-07-29 15:48:00.590358-05".

(** The text of the example is cut at the blank, and the zone suffix is
    cut off the time part. *)
Lemma sample_timestamp_parts :
  PyStr.split_ws sample_timestamp = ["2005-07-29"; "15:48:00.590358-05"] /\
  split_tz "15:48:00.590358-05" = Ok ("15:48:00.590358", "-05").
Proof.
  split; reflexivity.
Qed.


(** On the fraction "3" the two derivations agree: both give 300000, in
    the helpers and in the converters. *)
Lemma microseconds_agree_on_3 :
  time_microseconds "3" = Ok 300000 /\
  timestamp_microseconds "3" = Ok 300000 /\
  typecast_time (Some "00:00:00.3")
  = Ok (Some (DateTime.mk_time 0 0 0 300000 None)) /\
  typecast_timestamp false (Some "2005-07-29 00:00:00.3")
  = Ok (Some (AsDateTime (DateTime.mk_datetime 2005 7 29 0 0 0 300000 None))).
Proof.
  repeat split; reflexivity.
Qed.

(** C6, as stated, fails at its example: on "3" (seconds fragment "00.3")
    the microsecond counts of the two derivations do not differ. *)
Lemma microseconds_example_3_refuted :
  ~ (time_microseconds "3" <> timestamp_microseconds "3").
Proof.
  intros H. apply H. reflexivity.
Qed.

(** C6, amended: the two derivations are not the same function.  On the
    digits "000249" the float product falls just below 249 and truncates
    to 248, while padding and cutting gives 249; the converters differ
    accordingly on "00:00:00.000249". *)
Theorem microseconds_derivations_differ :
  PyStr.all_digits "000249" = true /\
  time_microseconds "000249" = Ok 248 /\
  timestamp_microseconds "000249" = Ok 249 /\
  typecast_time (Some "00:00:00.000249")
  = Ok (Some (DateTime.mk_time 0 0 0 248 None)) /\
  typecast_timestamp false (Some "2005-07-29 00:00:00.000249")
  = Ok (Some (AsDateTime (DateTime.mk_datetime 2005 7 29 0 0 0 249 None))) /\
  (exists ds, PyStr.all_digits ds = true /\
              time_microseconds ds <> timestamp_microseconds ds).
Proof.
  repeat split; try reflexivity.
  exists "000249". split; [reflexivity |].
  intros H. vm_compute in H. discriminate H.
Qed.
Lemma is_digit_not_space (x : ascii) :
  PyStr.is_digit x = true -> PyStr.is_space x = false.
Proof.
  destruct x as [[] [] [] [] [] [] [] []]; intros H; vm_compute in H;
    try discriminate H; reflexivity.
Qed.

Lemma all_digits_no_space (s : string) :
  PyStr.all_digits s = true -> PyStr.no_space s = true.
Proof.
  induction s as [| x r IH]; [reflexivity |].
  intros D. apply all_digits_cons in D. destruct D as [Dx Dr].
  simpl. rewrite (is_digit_not_space x Dx). simpl. auto.
Qed.

Lemma no_space_append (a b : string) :
  PyStr.no_space a = true -> PyStr.no_space b = true ->
  PyStr.no_space (a ++ b) = true.
Proof.
  induction a as [| x a IH]; simpl; [auto |].
  intros H Hb. apply andb_true_iff in H. destruct H as [Hx Ha].
  rewrite Hx. simpl. auto.
Qed.

Lemma rstrip_no_space (s : string) :
  PyStr.no_space s = true -> PyStr.rstrip s = s.
Proof.
  induction s as [| x r IH]; [reflexivity |].
  simpl. intros H. apply andb_true_iff in H. destruct H as [Hx Hr].
  rewrite (IH Hr). apply negb_true_iff in Hx. rewrite Hx.
  destruct r; reflexivity.
Qed.

Lemma strip_no_space (s : string) :
  PyStr.no_space s = true -> PyStr.strip s = s.
Proof.
  intros H. unfold PyStr.strip.
  assert (PyStr.lstrip s = s) as ->.
  { destruct s as [| x r]; [reflexivity |]. simpl in *.
    apply andb_true_iff in H. destruct H as [Hx _].
    apply negb_true_iff in Hx. now rewrite Hx. }
  now apply rstrip_no_space.
Qed.

Lemma not_space_not_num_space (x : ascii) :
  PyStr.is_space x = false -> PyStr.is_num_space x = false.
Proof.
  destruct x as [[] [] [] [] [] [] [] []]; intros H; vm_compute in H;
    try discriminate H; reflexivity.
Qed.

Lemma rstrip_num_no_space (s : string) :
  PyStr.no_space s = true -> PyStr.rstrip_num s = s.
Proof.
  induction s as [| x r IH]; [reflexivity |].
  simpl. intros H. apply andb_true_iff in H. destruct H as [Hx Hr].
  rewrite (IH Hr). apply negb_true_iff in Hx.
  rewrite (not_space_not_num_space x Hx).
  destruct r; reflexivity.
Qed.

Lemma strip_num_no_space (s : string) :
  PyStr.no_space s = true -> PyStr.strip_num s = s.
Proof.
  intros H. unfold PyStr.strip_num.
  assert (PyStr.lstrip_num s = s) as ->.
  { destruct s as [| x r]; [reflexivity |]. simpl in *.
    apply andb_true_iff in H. destruct H as [Hx _].
    apply negb_true_iff in Hx.
    now rewrite (not_space_not_num_space x Hx). }
  now apply rstrip_num_no_space.
Qed.

Lemma split_sign_digit (x : ascii) (r : string) :
  PyStr.is_digit x = true ->
  PyStr.split_sign (String x r) = (false, String x r).
Proof.
  destruct x as [[] [] [] [] [] [] [] []]; intros H; vm_compute in H;
    try discriminate H; reflexivity.
Qed.

(** [span_digits] stops at the first character that is no digit. *)
Lemma span_digits_append (a : string) (y : ascii) (b : string) :
  PyStr.all_digits a = true -> PyStr.is_digit y = false ->
  PyStr.span_digits (a ++ String y b) = (a, String y b).
Proof.
  intros D N. induction a as [| x a IH]; simpl.
  - now rewrite N.
  - apply all_digits_cons in D. destruct D as [Dx Da].
    rewrite Dx, (IH Da). reflexivity.
Qed.

Lemma span_digits_all (a : string) :
  PyStr.all_digits a = true -> PyStr.span_digits a = (a, "").
Proof.
  induction a as [| x a IH]; simpl; [reflexivity |].
  intros D. apply andb_true_iff in D. destruct D as [Dx Da].
  rewrite Dx, (IH Da). reflexivity.
Qed.

Lemma all_digits_append (a b : string) :
  PyStr.all_digits a = true -> PyStr.all_digits b = true ->
  PyStr.all_digits (a ++ b) = true.
Proof.
  induction a as [| x a IH]; simpl; [auto |].
  intros H Hb. apply andb_true_iff in H. destruct H as [Hx Ha].
  rewrite Hx. simpl. auto.
Qed.

Lemma take_append (a b : string) :
  PyStr.take (String.length a) (a ++ b) = a.
Proof.
  induction a as [| x a IH]; simpl; [destruct b; reflexivity | now rewrite IH].
Qed.

Lemma drop_append (a b : string) :
  PyStr.drop (String.length a) (a ++ b) = b.
Proof.
  induction a as [| x a IH]; simpl; [reflexivity | exact IH].
Qed.

Lemma length_take (n : nat) : forall s,
  String.length (PyStr.take n s) = Nat.min n (String.length s).
Proof.
  induction n as [| k IH]; intros s; [reflexivity |].
  destruct s as [| x r]; simpl; [reflexivity | now rewrite IH].
Qed.

(** Printing the value of a digit run that starts with a non-zero digit
    gives the run back. *)
Lemma nat_str_canonical (x : ascii) (r : string) :
  PyStr.is_digit x = true -> x <> "0"%char -> PyStr.all_digits r = true ->
  PyRepr.nat_str (PyStr.digits_val 0 (String x r)) = String x r.
Proof.
  intros Dx Nx Dr.
  destruct (is_digit_spec x Dx) as [Bx Cx].
  assert (0 < PyStr.digit_val x) as P.
  { destruct (Z.eq_dec (PyStr.digit_val x) 0) as [E | E]; [| lia].
    exfalso. apply Nx. rewrite <- Cx, E. reflexivity. }
  cbn [PyStr.digits_val]. rewrite nat_str_digits_val by (assumption || lia).
  replace (10 * 0 + PyStr.digit_val x) with (PyStr.digit_val x) by lia.
  assert (PyRepr.nat_str (PyStr.digit_val x) = String x "") as ->; [| reflexivity].
  rewrite <- Cx at 2.
  assert (PyStr.digit_val x = 1 \/ PyStr.digit_val x = 2 \/ PyStr.digit_val x = 3
          \/ PyStr.digit_val x = 4 \/ PyStr.digit_val x = 5
          \/ PyStr.digit_val x = 6 \/ PyStr.digit_val x = 7
          \/ PyStr.digit_val x = 8 \/ PyStr.digit_val x = 9) as C by lia.
  repeat (destruct C as [-> | C]; [reflexivity |]). rewrite C. reflexivity.
Qed.

(** ** Decimals *)

(** C10, as stated, fails: "0.0000001" has no trailing zero and comes back
    as "1E-7". *)
Lemma decimal_round_trip_refuted :
  ~ (forall s d,
        typecast_decimal (Some s) = Ok (Some d) ->
        rev_typecast_decimal PyDecimal.default_context (Some d) = Some s).
Proof.
  intros H.
  specialize (H "0.0000001" (PyDecimal.Finite false 1 (-7)) eq_refl).
  vm_compute in H. discriminate H.
Qed.

(** [set_prec] changes the precision and nothing else. *)
Lemma set_prec_fields (c c' : PyDecimal.context) (p : Z) :
  PyDecimal.set_prec c p = Ok c' ->
  1 <= p /\ PyDecimal.prec c' = p /\
  PyDecimal.rounding c' = PyDecimal.rounding c /\
  PyDecimal.Emin c' = PyDecimal.Emin c /\
  PyDecimal.Emax c' = PyDecimal.Emax c.
Proof.
  unfold PyDecimal.set_prec.
  destruct ((1 <=? p) && (p <=? PyDecimal.MAX_PREC)) eqn:E; [| discriminate].
  intros H. injection H as <-. cbn.
  apply andb_true_iff in E. destruct E as [E _]. apply Z.leb_le in E.
  repeat split; assumption.
Qed.

Lemma set_prec_valid (c : PyDecimal.context) (p : Z) :
  1 <= p <= PyDecimal.MAX_PREC ->
  exists c', PyDecimal.set_prec c p = Ok c'.
Proof.
  intros [H1 H2]. unfold PyDecimal.set_prec.
  destruct (Z.leb_spec 1 p); [| lia].
  destruct (Z.leb_spec p PyDecimal.MAX_PREC); [| lia].
  eexists. reflexivity.
Qed.

(** The power changes the flags of the context at most. *)
Lemma tenth_pow_context (ctx : PyDecimal.context) (n : Z) :
  PyDecimal.prec (snd (PyDecimal.tenth_pow ctx n)) = PyDecimal.prec ctx /\
  PyDecimal.rounding (snd (PyDecimal.tenth_pow ctx n))
  = PyDecimal.rounding ctx /\
  PyDecimal.Emin (snd (PyDecimal.tenth_pow ctx n)) = PyDecimal.Emin ctx /\
  PyDecimal.Emax (snd (PyDecimal.tenth_pow ctx n)) = PyDecimal.Emax ctx /\
  PyDecimal.capitals (snd (PyDecimal.tenth_pow ctx n))
  = PyDecimal.capitals ctx.
Proof.
  unfold PyDecimal.tenth_pow.
  destruct (n =? 0); [repeat split |].
  destruct (PyDecimal.Emax ctx <? - n); [repeat split |].
  destruct (- n <? PyDecimal.Etiny ctx); [repeat split |].
  destruct (- n <? PyDecimal.Emin ctx); repeat split.
Qed.

(** While the exponent is neither below [Etiny] nor above [Emax], the
    power is exactly [1E-n]. *)
Lemma tenth_pow_exact (ctx : PyDecimal.context) (n : Z) :
  PyDecimal.Etiny ctx <= - n <= PyDecimal.Emax ctx ->
  fst (PyDecimal.tenth_pow ctx n) = Ok (PyDecimal.Finite false 1 (- n)).
Proof.
  intros [H1 H2]. unfold PyDecimal.tenth_pow.
  destruct (Z.eqb_spec n 0) as [-> | N0]; [reflexivity |].
  destruct (Z.ltb_spec (PyDecimal.Emax ctx) (- n)); [lia |].
  destruct (Z.ltb_spec (- n) (PyDecimal.Etiny ctx)); [lia |].
  destruct (- n <? PyDecimal.Emin ctx); reflexivity.
Qed.

(** Within the exponent range of the context the power leaves the
    context as it was. *)
Lemma tenth_pow_normal (ctx : PyDecimal.context) (n : Z) :
  1 <= PyDecimal.prec ctx ->
  PyDecimal.Emin ctx <= - n <= PyDecimal.Emax ctx ->
  PyDecimal.tenth_pow ctx n = (Ok (PyDecimal.Finite false 1 (- n)), ctx).
Proof.
  intros Hp [H1 H2]. unfold PyDecimal.tenth_pow, PyDecimal.Etiny.
  destruct (Z.eqb_spec n 0) as [-> | N0]; [reflexivity |].
  destruct (Z.ltb_spec (PyDecimal.Emax ctx) (- n)); [lia |].
  destruct (Z.ltb_spec (- n) (PyDecimal.Emin ctx - PyDecimal.prec ctx + 1));
    [lia |].
  destruct (Z.ltb_spec (- n) (PyDecimal.Emin ctx)); [lia | reflexivity].
Qed.

(** [quantize] of a finite value to the exponent of a finite value either
    raises [InvalidOperation] or gives the value rescaled once, with no
    more digits than the precision. *)
Lemma quantize_finite (ctx : PyDecimal.context) (s s0 : bool)
    (c e c0 e0 : Z) :
  1 <= PyDecimal.prec ctx ->
  PyDecimal.quantize ctx (PyDecimal.Finite s c e) (PyDecimal.Finite s0 c0 e0)
  = Raise InvalidOperation \/
  exists c',
    PyDecimal.rescale (PyDecimal.rounding ctx) s c e e0
    = PyDecimal.Finite s c' e0 /\
    PyDecimal.ndigits c' <= PyDecimal.prec ctx /\
    PyDecimal.quantize ctx (PyDecimal.Finite s c e)
                       (PyDecimal.Finite s0 c0 e0)
    = Ok (PyDecimal.Finite s c' e0).
Proof.
  intros Hp. cbn [PyDecimal.quantize].
  destruct (negb ((PyDecimal.Etiny ctx <=? e0)
                  && (e0 <=? PyDecimal.Emax ctx))); [now left |].
  destruct (Z.eqb_spec c 0) as [-> | N0].
  - right. exists 0. split; [reflexivity |]. split; [| reflexivity].
    change (PyDecimal.ndigits 0) with 1. exact Hp.
  - destruct (PyDecimal.Emax ctx <? PyDecimal.adjusted c e); [now left |].
    destruct (PyDecimal.prec ctx <? PyDecimal.adjusted c e - e0 + 1);
      [now left |].
    assert (exists c', PyDecimal.rescale (PyDecimal.rounding ctx) s c e e0
                       = PyDecimal.Finite s c' e0) as [c' R].
    { unfold PyDecimal.rescale.
      destruct (c =? 0); [eexists; reflexivity |].
      destruct (e0 <=? e); eexists; reflexivity. }
    rewrite R.
    destruct (PyDecimal.Emax ctx <? PyDecimal.adjusted c' e0); [now left |].
    destruct (Z.ltb_spec (PyDecimal.prec ctx) (PyDecimal.ndigits c'));
      [now left |].
    right. exists c'. split; [reflexivity |]. split; [lia | reflexivity].
Qed.

(** C9, as stated, fails: [format_number] does not reduce the value to
    [max_digits] significant digits before it rounds to the decimal
    places.  On 3.149 with [max_digits = 3] and [decimal_places = 1] it
    returns "3.1"; reducing to 3 digits first (3.15) and rendering with one
    decimal afterwards gives "3.2". *)
Lemma format_number_reduction_refuted :
  ~ (forall d max_digits decimal_places,
        fst (format_number PyDecimal.default_context (Dec d)
                           max_digits decimal_places)
        = Ok (format_number_as_claimed PyDecimal.default_context d
                                       max_digits decimal_places)).
Proof.
  intros H.
  specialize (H (PyDecimal.Finite false 3149 (-3)) 3 1).
  vm_compute in H. discriminate H.
Qed.

(** C9, amended: [format_number] on the decimal 3.14159 with
    [max_digits = 3] and [decimal_places = 1] returns "3.1".  The value is
    rounded once, directly to [decimal_places] digits after the point,
    with the rounding mode of the thread's context, and rendered with those
    digits; the precision [max_digits], set on a copy of the context, does
    not reduce the value: the call raises [InvalidOperation] when the
    rounded value does not fit it.  So 3.149 gives "3.1", 9.96 gives
    "10.0", and 99.96 and 314.159 raise.  The thread's context keeps its
    precision, rounding and exponent limits, and is unchanged altogether
    when [decimal_places] is within its exponent range. *)
Theorem format_number_rounds_once :
  PyDecimal.of_str "3.14159" = Ok (PyDecimal.Finite false 314159 (-5)) /\
  format_number PyDecimal.default_context
    (Dec (PyDecimal.Finite false 314159 (-5))) 3 1
  = (Ok "3.1", PyDecimal.default_context) /\
  format_number PyDecimal.default_context
    (Dec (PyDecimal.Finite false 3149 (-3))) 3 1
  = (Ok "3.1", PyDecimal.default_context) /\
  format_number PyDecimal.default_context
    (Dec (PyDecimal.Finite false 996 (-2))) 3 1
  = (Ok "10.0", PyDecimal.default_context) /\
  format_number PyDecimal.default_context
    (Dec (PyDecimal.Finite false 9996 (-2))) 3 1
  = (Raise InvalidOperation, PyDecimal.default_context) /\
  format_number PyDecimal.default_context
    (Dec (PyDecimal.Finite false 314159 (-3))) 3 1
  = (Raise InvalidOperation, PyDecimal.default_context) /\
  (forall gctx s c e max_digits decimal_places,
      1 <= max_digits <= PyDecimal.MAX_PREC ->
      PyDecimal.Etiny gctx <= - decimal_places <= PyDecimal.Emax gctx ->
      fst (format_number gctx (Dec (PyDecimal.Finite s c e))
                         max_digits decimal_places)
      = Raise InvalidOperation \/
      exists c',
        PyDecimal.rescale (PyDecimal.rounding gctx) s c e (- decimal_places)
        = PyDecimal.Finite s c' (- decimal_places) /\
        PyDecimal.ndigits c' <= max_digits /\
        fst (format_number gctx (Dec (PyDecimal.Finite s c e))
                           max_digits decimal_places)
        = Ok (PyDecimal.format_f gctx
                (PyDecimal.Finite s c' (- decimal_places)))) /\
  (forall gctx value max_digits decimal_places,
      PyDecimal.prec
        (snd (format_number gctx value max_digits decimal_places))
      = PyDecimal.prec gctx /\
      PyDecimal.rounding
        (snd (format_number gctx value max_digits decimal_places))
      = PyDecimal.rounding gctx /\
      PyDecimal.Emin
        (snd (format_number gctx value max_digits decimal_places))
      = PyDecimal.Emin gctx /\
      PyDecimal.Emax
        (snd (format_number gctx value max_digits decimal_places))
      = PyDecimal.Emax gctx) /\
  (forall gctx value max_digits decimal_places,
      1 <= PyDecimal.prec gctx ->
      PyDecimal.Emin gctx <= - decimal_places <= PyDecimal.Emax gctx ->
      snd (format_number gctx value max_digits decimal_places) = gctx).
Proof.
  do 6 (split; [reflexivity |]).
  split; [| split].
  - intros gctx s c e md dp Hmd Hdp.
    destruct (set_prec_valid gctx md Hmd) as [copy Hc].
    destruct (set_prec_fields gctx copy md Hc) as (_ & Hprec & Hr & _ & _).
    pose proof (tenth_pow_exact gctx dp Hdp) as Hpow.
    unfold format_number. rewrite Hc.
    destruct (PyDecimal.tenth_pow gctx dp) as [places g'].
    cbn [fst] in Hpow. subst places. cbn [fst rbind].
    destruct (quantize_finite copy s false c e 1 (- dp)) as [Q | (c' & R & N & Q)];
      [lia | |].
    + left. rewrite Q. reflexivity.
    + right. exists c'. rewrite <- Hr. split; [exact R |].
      split; [lia |]. rewrite Q. reflexivity.
  - intros gctx [d | f] md dp; [| repeat split; cbn;
      unfold PyFloat.format_star_f; reflexivity].
    unfold format_number.
    destruct (PyDecimal.set_prec gctx md); [| repeat split].
    pose proof (tenth_pow_context gctx dp) as H.
    destruct (PyDecimal.tenth_pow gctx dp) as [places g'].
    cbn [snd] in *. destruct H as (H1 & H2 & H3 & H4 & _).
    repeat split; assumption.
  - intros gctx [d | f] md dp Hp Hdp; [| reflexivity].
    unfold format_number.
    destruct (PyDecimal.set_prec gctx md); [| reflexivity].
    rewrite (tenth_pow_normal gctx dp Hp Hdp). reflexivity.
Qed.

(** The general parts of the amended C9 at 2.675 with four digits and two
    decimal places, and at a float. *)
Lemma format_number_rounds_once_witness :
  fst (format_number PyDecimal.default_context
         (Dec (PyDecimal.Finite false 2675 (-3))) 4 2) = Ok "2.68" /\
  PyDecimal.rescale PyDecimal.ROUND_HALF_EVEN false 2675 (-3) (-2)
  = PyDecimal.Finite false 268 (-2) /\
  snd (format_number PyDecimal.default_context
         (Dec (PyDecimal.Finite false 2675 (-3))) 4 2)
  = PyDecimal.default_context.
Proof.
  destruct format_number_rounds_once as (_ & _ & _ & _ & _ & _ & G & _ & U).
  split; [| split].
  - destruct (G PyDecimal.default_context false 2675 (-3) 4 2)
      as [R | (c' & R & N & Q)].
    + vm_compute. split; discriminate.
    + vm_compute. split; discriminate.
    + vm_compute in R. discriminate R.
    + vm_compute in R. injection R as <-. rewrite Q. reflexivity.
  - reflexivity.
  - apply U.
    + vm_compute. discriminate.
    + vm_compute. split; discriminate.
Defined.

(** ** Identifier truncation *)

(** A digest is always 32 hexadecimal characters long. *)
Lemma hexdigest_length (msg : list Z) :
  String.length (MD5.hexdigest msg) = 32%nat.
Proof.
  unfold MD5.hexdigest. destruct (MD5.digest_state msg) as [[[a b] c] d].
  reflexivity.
Qed.

(** C8, as stated, fails: with [hash_len = 36 <= length = 40] a name of 50
    characters is cut to 4 characters and gets the whole digest, 36
    characters in all and not 40. *)
Lemma truncate_name_length_refuted :
  ~ (forall name l h,
        l < PyStr.len name -> h <= l ->
        PyStr.len (truncate_name name (Some l) h) = l).
Proof.
  intros H.
  specialize (H (PyStr.repeat "x" 50) 40 36).
  vm_compute in H.
  assert (36%Z = 40%Z) as E by (apply H; [reflexivity | discriminate]).
  discriminate E.
Qed.

(** C8, amended: [truncate_name] returns the name itself when [length] is
    [None] or the name fits.  Otherwise, when [0 <= hash_len <= 32] (the
    digest has 32 characters) and [hash_len <= length], the result is the
    first [length - hash_len] characters of the name followed by the first
    [hash_len] characters of the hexadecimal MD5 digest of its bytes, and
    has exactly [length] characters. *)
Theorem truncate_name_spec (name : string) (l h : Z) :
  truncate_name name None h = name /\
  (PyStr.len name <= l -> truncate_name name (Some l) h = name) /\
  (l < PyStr.len name -> 0 <= h <= 32 -> h <= l ->
   truncate_name name (Some l) h
   = (PyStr.take (Z.to_nat (l - h)) name
      ++ PyStr.take (Z.to_nat h) (MD5.hexdigest (force_bytes name)))%string /\
   PyStr.len (truncate_name name (Some l) h) = l).
Proof.
  split; [reflexivity |]. split.
  - intros H. unfold truncate_name.
    apply Z.leb_le in H. now rewrite H.
  - intros Hl Hh Hhl. unfold truncate_name.
    replace (PyStr.len name <=? l) with false
      by (symmetry; apply Z.leb_gt; lia).
    unfold PyStr.slice_to.
    replace (0 <=? h) with true by (symmetry; apply Z.leb_le; lia).
    replace (0 <=? l - h) with true by (symmetry; apply Z.leb_le; lia).
    split; [reflexivity |].
    unfold PyStr.len in *.
    rewrite length_append, !length_take, hexdigest_length. lia.
Qed.

Lemma truncate_name_spec_witness :
  truncate_name (PyStr.repeat "x" 50) (Some 20) 4 = "xxxxxxxxxxxxxxxx62f0" /\
  PyStr.len (truncate_name (PyStr.repeat "x" 50) (Some 20) 4) = 20.
Proof.
  destruct (truncate_name_spec (PyStr.repeat "x" 50) 20 4) as (_ & _ & H).
  destruct H as [E L]; [reflexivity | lia | lia |].
  split; [| exact L].
  rewrite E. vm_compute. reflexivity.
Defined.

(** ** Floats and their fixed-point rendering *)

Lemma div_half_even_nonneg (n d : Z) :
  0 <= n -> 0 < d -> 0 <= PyFloat.div_half_even n d.
Proof.
  intros N D. unfold PyFloat.div_half_even.
  assert (0 <= n / d) by (apply Z.div_pos; lia).
  destruct (2 * (n mod d) <? d); [lia |].
  destruct (d <? 2 * (n mod d)); [lia |].
  destruct (Z.even (n / d)); lia.
Qed.

Lemma scaled_sign (n d e : Z) :
  0 <= n -> 0 < d ->
  0 <= fst (PyFloat.scaled n d e) /\ 0 < snd (PyFloat.scaled n d e).
Proof.
  intros N D. unfold PyFloat.scaled.
  destruct (0 <=? e) eqn:E; simpl.
  - apply Z.leb_le in E. split; [lia |].
    apply Z.mul_pos_pos; [lia | apply Z.pow_pos_nonneg; lia].
  - apply Z.leb_gt in E. split; [| lia].
    apply Z.mul_nonneg_nonneg; [lia | apply Z.pow_nonneg; lia].
Qed.

(** A finite float built by rounding has a non-negative mantissa. *)
Lemma of_ratio_mantissa (neg : bool) (n d : Z) (s : bool) (m e : Z) :
  0 <= n -> 0 < d -> PyFloat.of_ratio neg n d = PyFloat.Fin s m e -> 0 <= m.
Proof.
  intros N D. unfold PyFloat.of_ratio.
  destruct (n =? 0); [intros H; inversion H; lia |].
  destruct (PyFloat.scaled n d _) as [n1 d1].
  match goal with
  | |- context [PyFloat.scaled n d ?e] =>
      pose proof (scaled_sign n d e N D) as S;
      destruct (PyFloat.scaled n d e) as [n2 d2]
  end.
  simpl in S. destruct S as [S1 S2].
  match goal with |- context [if ?c then _ else _] => destruct c end;
    [discriminate |].
  intros H. inversion H. subst m. now apply div_half_even_nonneg.
Qed.

Lemma sub_mantissa (x y : PyFloat.t) (s : bool) (m e : Z) :
  PyFloat.sub x y = PyFloat.Fin s m e -> 0 <= m.
Proof.
  destruct x as [nx mx ex | nx |], y as [ny my ey | ny |]; simpl;
    try discriminate.
  - match goal with |- context [if ?c then _ else _] => destruct c end.
    + intros H. inversion H. lia.
    + unfold PyFloat.of_dyadic.
      match goal with
      | |- context [PyFloat.scaled ?a 1 ?b] =>
          pose proof (scaled_sign a 1 b (Z.abs_nonneg _) Z.lt_0_1) as S;
          destruct (PyFloat.scaled a 1 b) as [n d]
      end.
      simpl in S. destruct S as [S1 S2]. intros E. eapply of_ratio_mantissa; eauto.
  - destruct (Bool.eqb nx ny); discriminate.
Qed.

Lemma pos_digits_all_digits (fuel : nat) : forall n acc,
  PyStr.all_digits acc = true ->
  PyStr.all_digits (PyRepr.pos_digits fuel n acc) = true.
Proof.
  induction fuel as [| k IH]; intros n acc A; [exact A |].
  cbn [PyRepr.pos_digits].
  assert (PyStr.all_digits (String (PyRepr.digit_char (n mod 10)) acc) = true).
  { cbn [PyStr.all_digits]. rewrite digit_char_is_digit, A; [reflexivity |].
    apply Z.mod_pos_bound. lia. }
  destruct (n <? 10); [assumption | now apply IH].
Qed.

Lemma nat_str_all_digits (n : Z) : PyStr.all_digits (PyRepr.nat_str n) = true.
Proof.
  apply pos_digits_all_digits. reflexivity.
Qed.

Lemma nat_str_not_empty (n : Z) : PyRepr.nat_str n <> "".
Proof.
  unfold PyRepr.nat_str. cbn [PyRepr.pos_digits].
  destruct (n <? 10); [discriminate |].
  rewrite pos_digits_acc. destruct (PyRepr.pos_digits _ _ ""); discriminate.
Qed.

Lemma nat_str_below_1000 (k : Z) :
  0 <= k < 1000 -> (String.length (PyRepr.nat_str k) <= 3)%nat.
Proof.
  intros K. rewrite (nat_str_fuel k 10) by (simpl; lia).
  cbn [PyRepr.pos_digits].
  destruct (k <? 10) eqn:E1; [simpl; lia |].
  destruct (k / 10 <? 10) eqn:E2; [simpl; lia |].
  replace (k / 10 / 10 <? 10) with true; [simpl; lia |].
  symmetry. apply Z.ltb_lt. rewrite Z.div_div by lia.
  apply Z.div_lt_upper_bound; lia.
Qed.

Lemma all_digits_no_point (s : string) :
  PyStr.all_digits s = true -> PyStr.contains "." s = false.
Proof.
  induction s as [| x r IH]; [reflexivity |].
  intros D. apply all_digits_cons in D. destruct D as [Dx Dr].
  cbn [PyStr.contains]. rewrite (IH Dr).
  destruct (Ascii.eqb_spec x "."); [| reflexivity].
  subst x. discriminate Dx.
Qed.

Lemma split_without_sep (c : ascii) (s : string) :
  PyStr.contains c s = false -> PyStr.split c s = [s].
Proof.
  induction s as [| x r IH]; [reflexivity |].
  cbn [PyStr.contains PyStr.split].
  destruct (Ascii.eqb x c); [discriminate |].
  intros H. now rewrite (IH H).
Qed.

Lemma split_at_sep (c : ascii) (a b : string) :
  PyStr.contains c a = false ->
  PyStr.split c (a ++ String c b) = a :: PyStr.split c b.
Proof.
  induction a as [| x r IH].
  - intros _. simpl. now rewrite Ascii.eqb_refl.
  - cbn [PyStr.contains]. destruct (Ascii.eqb x c) eqn:E; [discriminate |].
    intros H. simpl. rewrite E, (IH H). reflexivity.
Qed.

Lemma repeat_zero_digits (n : nat) :
  PyStr.all_digits (PyStr.repeat "0" n) = true.
Proof.
  induction n as [| k IH]; [reflexivity |]. simpl. now rewrite IH.
Qed.

Lemma length_repeat (c : ascii) (n : nat) :
  String.length (PyStr.repeat c n) = n.
Proof.
  induction n as [| k IH]; simpl; [reflexivity | now rewrite IH].
Qed.

(** ["%.3f"] of a finite float is a number with exactly three decimals. *)
Lemma format_f_three_decimals (neg : bool) (m e : Z) :
  0 <= m -> three_decimals (PyFloat.format_f 3 (PyFloat.Fin neg m e)) = true.
Proof.
  intros M. unfold PyFloat.format_f.
  change (Z.max 0 3) with 3. change (10 ^ 3) with 1000.
  pose proof (scaled_sign (m * 1000) 1 (- e) ltac:(lia) Z.lt_0_1) as S.
  destruct (PyFloat.scaled (m * 1000) 1 (- e)) as [n d].
  simpl in S. destruct S as [S1 S2].
  pose proof (div_half_even_nonneg n d S1 S2) as Q.
  set (q := PyFloat.div_half_even n d) in *.
  change (3 =? 0) with false. cbv iota.
  set (ip := PyRepr.nat_str (q / 1000)).
  set (fp := PyRepr.nat_str (q mod 1000)).
  assert (PyStr.all_digits ip = true) as Di by apply nat_str_all_digits.
  assert (ip <> "") as Ni by apply nat_str_not_empty.
  assert (PyStr.all_digits fp = true) as Df by apply nat_str_all_digits.
  assert (String.length fp <= 3)%nat as Lf
    by (apply nat_str_below_1000, Z.mod_pos_bound; lia).
  set (pad := PyStr.repeat "0" (Z.to_nat 3 - String.length fp)).
  assert (PyStr.all_digits (pad ++ fp) = true) as Dp
    by (apply all_digits_append; [apply repeat_zero_digits | assumption]).
  assert (String.length (pad ++ fp) = 3%nat) as Lp.
  { rewrite length_append. unfold pad. rewrite length_repeat.
    change (Z.to_nat 3) with 3%nat. lia. }
  assert (forall s, PyStr.all_digits s = true -> s <> "" ->
            three_decimals (s ++ "." ++ pad ++ fp) = true
            /\ three_decimals (String "-" (s ++ "." ++ pad ++ fp)) = true) as T.
  { intros s Ds Ns.
    assert (drop_minus s = s) as E.
    { destruct s as [| x r]; [reflexivity |].
      apply all_digits_cons in Ds. destruct Ds as [Dx _].
      destruct x as [[] [] [] [] [] [] [] []]; vm_compute in Dx;
        try discriminate Dx; reflexivity. }
    assert (String.eqb s "" = false) as Es by now apply String.eqb_neq.
    assert (PyStr.contains "." (pad ++ fp) = false) as Cp
      by now apply all_digits_no_point.
    assert (PyStr.contains "." s = false) as Cs
      by now apply all_digits_no_point.
    split; unfold three_decimals.
    - change (s ++ "." ++ pad ++ fp)%string
        with (s ++ String "." (pad ++ fp))%string.
      rewrite (split_at_sep "." s _ Cs), (split_without_sep _ _ Cp).
      cbv zeta. rewrite E, Dp, Lp, Ds, Es. reflexivity.
    - change (String "-" (s ++ "." ++ pad ++ fp))%string
        with (String "-" s ++ String "." (pad ++ fp))%string.
      rewrite (split_at_sep "." (String "-" s)), (split_without_sep _ _ Cp)
        by exact Cs.
      cbv zeta. change (drop_minus (String "-" s)) with s.
      rewrite Dp, Lp, Ds, Es. reflexivity. }
  destruct (T ip Di Ni) as [T1 T2].
  destruct neg; assumption.
Qed.

(** ** The cursor wrappers *)

Section CursorFacts.

Variables driver_exc db_error : Type.
Variable translate : driver_exc -> db_error.
Variables value params : Type.
Variable params_str : params -> string.
Variable params_len : params -> option Z.
Variable ext : Type.
Variable clock : ext -> PyFloat.t.
Variable last_executed_query : ext -> string -> option params -> string.
Variable cursor_getattr :
  string -> ext -> option (raw_attr driver_exc value params ext).

Local Abbreviation getattr := (CursorWrapper_getattr translate cursor_getattr).
Local Abbreviation debug_execute :=
  (CursorDebugWrapper_execute translate params_str clock last_executed_query
                              cursor_getattr).
Local Abbreviation debug_executemany :=
  (CursorDebugWrapper_executemany translate params_str params_len clock
                                  cursor_getattr).

Lemma member_In (a : string) (l : list string) :
  In a l -> member a l = true.
Proof.
  intros H. unfold member. apply existsb_exists.
  exists a. split; [assumption | apply String.eqb_refl].
Qed.

Lemma set_dirty_attrs_wrapped (attr : string) :
  In attr SET_DIRTY_ATTRS -> member attr WRAP_ERROR_ATTRS = true.
Proof.
  intros [<- | [<- | [<- | []]]]; reflexivity.
Qed.

(** The wrapped call of a raw method: the method runs in the driver, the
    connection is left as it is, and a driver exception comes out
    translated. *)
Lemma wrapped_method_call (attr : string)
    (m : args params -> ext -> (value + driver_exc) * ext)
    (a : args params) (w : world params ext) :
  call (wrap_database_errors_call translate (Callable (bound_method attr m)))
       a w
  = (translated translate (fst (m a (outer w))),
     mk_world (dirty w) (queries w) (logged w)
              (trace w ++ [EvCall attr a]) (snd (m a (outer w)))).
Proof.
  cbv beta iota delta [call wrap_database_errors_call wrap_database_errors
                         bound_method log_event].
  destruct (m a (outer w)) as [[v | e] x]; reflexivity.
Qed.

(** What the body of [CursorDebugWrapper.execute] (and of [executemany])
    does inside the error-wrapping scope, by what the raw cursor has under
    the method's name. *)
Lemma wrapped_body (attr : string) (a : args params) (w : world params ext) :
  wrap_database_errors translate
    (bind (cursor_attr cursor_getattr attr) (fun f => call f a)) w
  = match cursor_getattr attr (outer w) with
    | Some (RawMethod m) =>
        (translated translate (fst (m a (outer w))),
         mk_world (dirty w) (queries w) (logged w)
                  (trace w ++ [EvCall attr a]) (snd (m a (outer w))))
    | Some (RawField _) => (inr NotCallable, w)
    | None => (inr AttributeError, w)
    end.
Proof.
  unfold wrap_database_errors, bind, cursor_attr.
  destruct (cursor_getattr attr (outer w)) as [[m | v] |]; try reflexivity.
  cbv beta iota delta [call bound_method log_event].
  destruct (m a (outer w)) as [[v | e] x]; reflexivity.
Qed.

Lemma wrapped_body_frame (attr : string) (a : args params)
    (w : world params ext) :
  let w' := snd (wrap_database_errors translate
                   (bind (cursor_attr cursor_getattr attr)
                         (fun f => call f a)) w) in
  dirty w' = dirty w /\ queries w' = queries w /\ logged w' = logged w.
Proof.
  rewrite wrapped_body.
  destruct (cursor_getattr attr (outer w)) as [[m | v] |]; simpl; auto.
Qed.

(** [CursorDebugWrapper.execute] step by step: the marking, the wrapped
    call, and the cleanup that runs whatever the call did. *)
Lemma debug_execute_steps (sql : string) (p : option params)
    (w : world params ext) :
  debug_execute sql p w
  = let w1 := mk_world true (queries w) (logged w) (trace w ++ [EvSetDirty])
                       (outer w) in
    let rw := wrap_database_errors translate
                (bind (cursor_attr cursor_getattr "execute")
                      (fun f => call f (execute_args sql p))) w1 in
    let w2 := snd rw in
    let duration := PyFloat.sub (clock (outer w2)) (clock (outer w)) in
    let sql' := last_executed_query (outer w2) sql p in
    let q := mk_query sql' (PyFloat.format_f 3 duration) in
    let lr := mk_log (debug_message duration sql' (str_params params_str p))
                     duration sql' p in
    (fst rw,
     mk_world (dirty w2) (queries w2 ++ [q]) (logged w2 ++ [lr])
              (trace w2 ++ [EvQuery q; EvLog lr]) (outer w2)).
Proof.
  unfold CursorDebugWrapper_execute.
  destruct p as [p' |]; cbn [execute_args];
    match goal with
    | |- context [try_finally ?b _] => set (body := b)
    end;
    cbv beta iota zeta delta [bind set_dirty time try_finally log_event
                               db_last_executed_query queries_append
                               logger_debug outer dirty queries logged trace
                               fst snd];
    destruct (body _) as [r [d q l t x]];
    rewrite <- app_assoc; reflexivity.
Qed.

(** [CursorDebugWrapper.executemany] step by step. *)
Lemma debug_executemany_steps (sql : string) (pl : params)
    (w : world params ext) :
  debug_executemany sql pl w
  = let w1 := mk_world true (queries w) (logged w) (trace w ++ [EvSetDirty])
                       (outer w) in
    let rw := wrap_database_errors translate
                (bind (cursor_attr cursor_getattr "executemany")
                      (fun f => call f [PStr sql; PObj pl])) w1 in
    let w2 := snd rw in
    let duration := PyFloat.sub (clock (outer w2)) (clock (outer w)) in
    let times := match params_len pl with
                 | Some n => PyRepr.int_str n
                 | None => "?"%string
                 end in
    let q := mk_query (times ++ " times: " ++ sql)
                      (PyFloat.format_f 3 duration) in
    let lr := mk_log (debug_message duration sql (params_str pl))
                     duration sql (Some pl) in
    (fst rw,
     mk_world (dirty w2) (queries w2 ++ [q]) (logged w2 ++ [lr])
              (trace w2 ++ [EvQuery q; EvLog lr]) (outer w2)).
Proof.
  unfold CursorDebugWrapper_executemany.
  match goal with
  | |- context [try_finally ?b _] => set (body := b)
  end.
  cbv beta iota zeta delta [bind set_dirty time try_finally log_event
                             queries_append logger_debug outer dirty queries
                             logged trace fst snd].
  destruct (body _) as [r [d q l t x]].
  rewrite <- app_assoc. reflexivity.
Qed.

(** C1: for each of the names "execute", "executemany" and "callproc",
    getting the attribute from the wrapper marks the connection dirty and
    hands out a capability; calling it runs the raw cursor's method after the marking
    ([EvSetDirty] precedes [EvCall] in the trace), the connection is dirty
    whether the method returns or raises, and an exception of the driver
    reaches the caller as the translated database error.  The debug
    wrapper's own [execute] behaves the same way. *)
Theorem mutating_call_marks_dirty_first (attr : string)
    (m : args params -> ext -> (value + driver_exc) * ext)
    (a : args params) (w : world params ext) :
  attr = "execute"%string \/ attr = "executemany"%string
  \/ attr = "callproc"%string ->
  cursor_getattr attr (outer w) = Some (RawMethod m) ->
  (exists c,
      getattr attr w
      = (inl (Callable c),
         mk_world true (queries w) (logged w) (trace w ++ [EvSetDirty])
                  (outer w)) /\
      (forall w1,
          c a w1
          = (translated translate (fst (m a (outer w1))),
             mk_world (dirty w1) (queries w1) (logged w1)
                      (trace w1 ++ [EvCall attr a])
                      (snd (m a (outer w1)))))) /\
  bind (getattr attr) (fun f => call f a) w
  = (translated translate (fst (m a (outer w))),
     mk_world true (queries w) (logged w)
              (trace w ++ [EvSetDirty; EvCall attr a])
              (snd (m a (outer w)))) /\
  (forall e x,
      m a (outer w) = (inr e, x) ->
      fst (bind (getattr attr) (fun f => call f a) w)
      = inr (DatabaseError (translate e)) /\
      dirty (snd (bind (getattr attr) (fun f => call f a) w)) = true) /\
  (forall sql p,
      attr = "execute"%string -> a = execute_args sql p ->
      fst (debug_execute sql p w) = translated translate (fst (m a (outer w)))
      /\ dirty (snd (debug_execute sql p w)) = true
      /\ exists rest,
           trace (snd (debug_execute sql p w))
           = (trace w ++ EvSetDirty :: EvCall "execute" a :: rest)%list).
Proof.
  intros Hn Hm.
  assert (In attr SET_DIRTY_ATTRS) as HI
    by (destruct Hn as [-> | [-> | ->]]; simpl; tauto).
  assert (getattr attr w
          = (inl (wrap_database_errors_call translate
                    (Callable (bound_method attr m))),
             mk_world true (queries w) (logged w) (trace w ++ [EvSetDirty])
                      (outer w))) as G.
  { unfold CursorWrapper_getattr, bind.
    rewrite (member_In _ _ HI), (set_dirty_attrs_wrapped _ HI).
    cbv beta iota delta [set_dirty log_event cursor_attr outer ret].
    cbv beta iota delta [outer] in Hm. rewrite Hm. reflexivity. }
  assert (bind (getattr attr) (fun f => call f a) w
          = (translated translate (fst (m a (outer w))),
             mk_world true (queries w) (logged w)
                      (trace w ++ [EvSetDirty; EvCall attr a])
                      (snd (m a (outer w))))) as B.
  { unfold bind at 1. rewrite G, wrapped_method_call. cbn [dirty queries logged trace outer].
    rewrite <- app_assoc. reflexivity. }
  split; [| split; [exact B | split]].
  - eexists. split; [exact G |].
    intros w1. apply (wrapped_method_call attr m a w1).
  - intros e x E. rewrite B, E. split; reflexivity.
  - intros sql p -> ->.
    rewrite debug_execute_steps. cbv zeta.
    rewrite wrapped_body. cbn [outer]. rewrite Hm.
    cbn [fst snd dirty trace].
    split; [reflexivity |]. split; [reflexivity |].
    eexists. rewrite <- !app_assoc. reflexivity.
Qed.

(** C2: in debug mode, when the raw cursor's [execute] raises, the wrapper
    still appends one entry to the query log, whose time is the duration
    written with three decimals, and logs one record; the caller gets the
    translated error, after the marking, the call, the entry and the
    record, in that order.  The entry and the record are added on every
    exit path, whatever the raw cursor does. *)
Theorem debug_execute_failure_is_logged (sql : string) (p : option params)
    (w : world params ext)
    (m : args params -> ext -> (value + driver_exc) * ext)
    (e : driver_exc) (x : ext) :
  cursor_getattr "execute" (outer w) = Some (RawMethod m) ->
  m (execute_args sql p) (outer w) = (inr e, x) ->
  let duration := PyFloat.sub (clock x) (clock (outer w)) in
  let sql' := last_executed_query x sql p in
  let q := mk_query sql' (PyFloat.format_f 3 duration) in
  let lr := mk_log (debug_message duration sql' (str_params params_str p))
                   duration sql' p in
  debug_execute sql p w
  = (inr (DatabaseError (translate e)),
     mk_world true (queries w ++ [q]) (logged w ++ [lr])
              (trace w ++ [EvSetDirty; EvCall "execute" (execute_args sql p);
                           EvQuery q; EvLog lr])
              x) /\
  (PyFloat.is_finite duration = true -> three_decimals (q_time q) = true) /\
  (forall sql0 p0 w0,
      exists (q0 : query_entry) (lr0 : log_record params),
        queries (snd (debug_execute sql0 p0 w0)) = (queries w0 ++ [q0])%list /\
        logged (snd (debug_execute sql0 p0 w0)) = (logged w0 ++ [lr0])%list).
Proof.
  intros Hm He duration sql' q lr.
  split; [| split].
  - rewrite debug_execute_steps. cbv zeta.
    rewrite wrapped_body. cbn [outer]. rewrite Hm, He.
    cbn [fst snd dirty queries logged trace outer translated].
    rewrite <- !app_assoc. reflexivity.
  - intros F. cbn [q_time q].
    destruct duration as [s mm ee | |] eqn:D; try discriminate F.
    apply format_f_three_decimals. exact (sub_mantissa _ _ _ _ _ D).
  - intros sql0 p0 w0. rewrite debug_execute_steps. cbv zeta.
    cbn [snd queries logged].
    destruct (wrapped_body_frame "execute" (execute_args sql0 p0)
                (mk_world true (queries w0) (logged w0)
                          (trace w0 ++ [EvSetDirty]) (outer w0)))
      as (_ & Q & L).
    cbv zeta in Q, L. rewrite Q, L. cbn [queries logged].
    eexists. eexists. split; reflexivity.
Qed.

(** C3, amended: the entry that [execute] appends has as its sql the text
    [last_executed_query] gives for the statement and its parameters; the
    entry that [executemany] appends has the raw statement behind the
    number of parameter sets (["?"] when it has no length) and " times: ",
    without [last_executed_query]. *)
Theorem debug_query_log_sql (sql : string) (p : option params) (pl : params)
    (w : world params ext) :
  (exists t,
      queries (snd (debug_execute sql p w))
      = (queries w
         ++ [mk_query (last_executed_query
                         (outer (snd (debug_execute sql p w))) sql p) t])%list)
  /\
  (exists t,
      queries (snd (debug_executemany sql pl w))
      = (queries w
         ++ [mk_query ((match params_len pl with
                        | Some n => PyRepr.int_str n
                        | None => "?"
                        end) ++ " times: " ++ sql)%string t])%list).
Proof.
  split.
  - rewrite debug_execute_steps. cbv zeta. cbn [snd queries outer].
    destruct (wrapped_body_frame "execute" (execute_args sql p)
                (mk_world true (queries w) (logged w)
                          (trace w ++ [EvSetDirty]) (outer w)))
      as (_ & Q & _).
    cbv zeta in Q. rewrite Q. cbn [queries]. eexists. reflexivity.
  - rewrite debug_executemany_steps. cbv zeta. cbn [snd queries].
    destruct (wrapped_body_frame "executemany" [PStr sql; PObj pl]
                (mk_world true (queries w) (logged w)
                          (trace w ++ [EvSetDirty]) (outer w)))
      as (_ & Q & _).
    cbv zeta in Q. rewrite Q. cbn [queries]. eexists. reflexivity.
Qed.

End CursorFacts.

(** C3, as stated, fails for [executemany]: on the sample driver the entry
    for two parameter sets reads "2 times: INSERT", not what
    [last_executed_query] gives. *)
Lemma executemany_sql_refuted :
  ~ (forall sql pl w,
        exists t,
          queries (snd (SampleDriver.executemany sql pl w))
          = (queries w
             ++ [mk_query
                   (SampleDriver.last_executed_query
                      (outer (snd (SampleDriver.executemany sql pl w)))
                      sql (Some pl)) t])%list).
Proof.
  intros H.
  destruct (H "INSERT"%string [1; 2] SampleDriver.w0) as [t E].
  vm_compute in E. discriminate E.
Qed.

Lemma mutating_call_marks_dirty_first_witness :
  bind (SampleDriver.getattr "execute") (fun f => call f [PStr "SELEKT"])
       SampleDriver.w0
  = (inr (DatabaseError SampleDriver.DjangoProgrammingError),
     mk_world true [] [] [EvSetDirty; EvCall "execute" [PStr "SELEKT"]]
              1700000000255) /\
  bind (SampleDriver.getattr "executemany")
       (fun f => call f [PStr "SELEKT"; PObj [1; 2]]) SampleDriver.w0
  = (inr (DatabaseError SampleDriver.DjangoProgrammingError),
     mk_world true [] []
              [EvSetDirty; EvCall "executemany" [PStr "SELEKT"; PObj [1; 2]]]
              1700000000255) /\
  bind (SampleDriver.getattr "callproc") (fun f => call f [PStr "no_such"])
       SampleDriver.w0
  = (inr (DatabaseError SampleDriver.DjangoProgrammingError),
     mk_world true [] [] [EvSetDirty; EvCall "callproc" [PStr "no_such"]]
              1700000000255) /\
  fst (SampleDriver.execute "SELEKT" None SampleDriver.w0)
  = inr (DatabaseError SampleDriver.DjangoProgrammingError) /\
  dirty (snd (SampleDriver.execute "SELEKT" None SampleDriver.w0)) = true.
Proof.
  pose proof (fun attr a H =>
                mutating_call_marks_dirty_first
                  _ _ SampleDriver.translate _ _ SampleDriver.params_str
                  _ SampleDriver.clock SampleDriver.last_executed_query
                  SampleDriver.cursor_getattr
                  attr SampleDriver.run a SampleDriver.w0 H) as T.
  split; [| split; [| split]].
  - destruct (T "execute"%string [PStr "SELEKT"]
                (or_introl eq_refl) eq_refl) as (_ & B & _).
    exact B.
  - destruct (T "executemany"%string [PStr "SELEKT"; PObj [1; 2]]
                (or_intror (or_introl eq_refl)) eq_refl) as (_ & B & _).
    exact B.
  - destruct (T "callproc"%string [PStr "no_such"]
                (or_intror (or_intror eq_refl)) eq_refl) as (_ & B & _).
    exact B.
  - destruct (T "execute"%string [PStr "SELEKT"]
                (or_introl eq_refl) eq_refl) as (_ & _ & _ & D).
    destruct (D "SELEKT"%string None eq_refl eq_refl) as (R & Dy & _).
    split; [exact R | exact Dy].
Defined.

Lemma debug_execute_failure_is_logged_witness :
  SampleDriver.cursor_getattr "execute" (outer SampleDriver.w0)
  = Some (RawMethod SampleDriver.run) /\
  SampleDriver.run (execute_args "SELEKT" None) (outer SampleDriver.w0)
  = (inr SampleDriver.ProgrammingError, 1700000000255) /\
  fst (SampleDriver.execute "SELEKT" None SampleDriver.w0)
  = inr (DatabaseError SampleDriver.DjangoProgrammingError) /\
  map q_time (queries (snd (SampleDriver.execute "SELEKT" None SampleDriver.w0)))
  = ["0.005"%string].
Proof.
  split; [reflexivity |]. split; [reflexivity |].
  destruct (debug_execute_failure_is_logged
              _ _ SampleDriver.translate _ _ SampleDriver.params_str
              _ SampleDriver.clock SampleDriver.last_executed_query
              SampleDriver.cursor_getattr
              "SELEKT" None SampleDriver.w0 SampleDriver.run
              SampleDriver.ProgrammingError 1700000000255
              eq_refl eq_refl) as (E & _ & _).
  unfold SampleDriver.execute. rewrite E. split; [reflexivity |].
  vm_compute. reflexivity.
Defined.

(** ** More on the cursor wrappers *)

Section CursorForwarding.

Variables driver_exc db_error : Type.
Variable translate : driver_exc -> db_error.
Variables value params : Type.
Variable params_str : params -> string.
Variable params_len : params -> option Z.
Variable ext : Type.
Variable clock : ext -> PyFloat.t.
Variable cursor_getattr :
  string -> ext -> option (raw_attr driver_exc value params ext).

Local Abbreviation getattr := (CursorWrapper_getattr translate cursor_getattr).
Local Abbreviation debug_executemany :=
  (CursorDebugWrapper_executemany translate params_str params_len clock
                                  cursor_getattr).

Lemma member_not_In (a : string) (l : list string) :
  ~ In a l -> member a l = false.
Proof.
  intros H. unfold member.
  destruct (existsb (String.eqb a) l) eqn:E; [| reflexivity].
  apply existsb_exists in E. destruct E as (b & Hb & Eb).
  apply String.eqb_eq in Eb. subst b. contradiction.
Qed.

Lemma not_wrapped_not_dirtying (attr : string) :
  ~ In attr WRAP_ERROR_ATTRS -> ~ In attr SET_DIRTY_ATTRS.
Proof.
  intros H [<- | [<- | [<- | []]]]; apply H; simpl; tauto.
Qed.

(** What [__getattr__] returns and does, in terms of the two tables. *)
Lemma getattr_steps (attr : string) (w : world params ext) :
  getattr attr w
  = let w1 := if member attr SET_DIRTY_ATTRS
              then mk_world true (queries w) (logged w)
                            (trace w ++ [EvSetDirty]) (outer w)
              else w in
    match cursor_getattr attr (outer w) with
    | None => (inr AttributeError, w1)
    | Some r =>
        let f := match r with
                 | RawMethod m => Callable (bound_method attr m)
                 | RawField v => Plain v
                 end in
        (inl (if member attr WRAP_ERROR_ATTRS
              then wrap_database_errors_call translate f else f), w1)
    end.
Proof.
  unfold CursorWrapper_getattr.
  destruct (member attr SET_DIRTY_ATTRS);
    cbv beta iota zeta delta [bind set_dirty ret cursor_attr log_event outer];
    destruct (cursor_getattr attr _) as [[m | v] |];
    destruct (member attr WRAP_ERROR_ATTRS); reflexivity.
Qed.

(** X1: Getting any attribute other than "execute", "executemany" and
    "callproc" leaves the connection and everything else as it is: no
    dirty mark, no log entry, no call on the raw cursor.  For the reading
    methods "close", "fetchone", "fetchmany", "fetchall" and "nextset",
    what is handed out runs the raw method when called, returns its value
    or raises its exception translated, and leaves the dirty flag and the
    logs as they were. *)
Theorem getattr_other_is_silent (attr : string) (w : world params ext) :
  attr <> "execute"%string -> attr <> "executemany"%string ->
  attr <> "callproc"%string ->
  snd (getattr attr w) = w /\
  (forall m a w1,
      attr = "close"%string \/ attr = "fetchone"%string
      \/ attr = "fetchmany"%string \/ attr = "fetchall"%string
      \/ attr = "nextset"%string ->
      cursor_getattr attr (outer w) = Some (RawMethod m) ->
      exists f,
        fst (getattr attr w) = inl f /\
        call f a w1
        = (translated translate (fst (m a (outer w1))),
           mk_world (dirty w1) (queries w1) (logged w1)
                    (trace w1 ++ [EvCall attr a]) (snd (m a (outer w1))))).
Proof.
  intros N1 N2 N3.
  assert (~ In attr SET_DIRTY_ATTRS) as N
    by (intros [<- | [<- | [<- | []]]]; congruence).
  rewrite getattr_steps, (member_not_In _ _ N). cbv zeta.
  split.
  - destruct (cursor_getattr attr (outer w)) as [r |]; reflexivity.
  - intros m a w1 HI Hm.
    assert (member attr WRAP_ERROR_ATTRS = true) as ->
      by (destruct HI as [-> | [-> | [-> | [-> | ->]]]]; reflexivity).
    rewrite Hm. eexists. split; [reflexivity |].
    apply wrapped_method_call.
Qed.


(** X2: An attribute outside [WRAP_ERROR_ATTRS] is handed out as the raw
    cursor has it: a field as its value, a method unwrapped, so that an
    exception of the driver raised by it reaches the caller as it is, not
    translated; the connection is not marked dirty. *)
Theorem getattr_unlisted_is_raw (attr : string) (w : world params ext) :
  ~ In attr WRAP_ERROR_ATTRS ->
  (forall v,
      cursor_getattr attr (outer w) = Some (RawField v) ->
      getattr attr w = (inl (Plain v), w)) /\
  (forall m,
      cursor_getattr attr (outer w) = Some (RawMethod m) ->
      getattr attr w = (inl (Callable (bound_method attr m)), w) /\
      forall a e x,
        m a (outer w) = (inr e, x) ->
        bind (getattr attr) (fun f => call f a) w
        = (inr (DriverError e),
           mk_world (dirty w) (queries w) (logged w)
                    (trace w ++ [EvCall attr a]) x)).
Proof.
  intros N.
  pose proof (member_not_In _ _ N) as Ew.
  pose proof (member_not_In _ _ (not_wrapped_not_dirtying _ N)) as Ed.
  split.
  - intros v Hv. rewrite getattr_steps, Ew, Ed, Hv. reflexivity.
  - intros m Hm.
    assert (getattr attr w = (inl (Callable (bound_method attr m)), w)) as G
      by (rewrite getattr_steps, Ew, Ed, Hm; reflexivity).
    split; [exact G |].
    intros a e x E. unfold bind at 1. rewrite G.
    cbv beta iota delta [call bound_method log_event]. rewrite E.
    reflexivity.
Qed.


(** X3: When the raw cursor lacks the attribute, [__getattr__] raises
    [AttributeError]; for [execute], [executemany] and [callproc] the
    connection has been marked dirty all the same, since the marking comes
    before the lookup.  The last two parts say so for the three names
    themselves. *)
Theorem getattr_missing_attribute (attr : string) (w : world params ext) :
  cursor_getattr attr (outer w) = None ->
  fst (getattr attr w) = inr AttributeError /\
  queries (snd (getattr attr w)) = queries w /\
  logged (snd (getattr attr w)) = logged w /\
  outer (snd (getattr attr w)) = outer w /\
  (In attr SET_DIRTY_ATTRS -> dirty (snd (getattr attr w)) = true) /\
  (~ In attr SET_DIRTY_ATTRS -> dirty (snd (getattr attr w)) = dirty w) /\
  (attr = "execute"%string \/ attr = "executemany"%string
   \/ attr = "callproc"%string ->
   dirty (snd (getattr attr w)) = true) /\
  (attr <> "execute"%string -> attr <> "executemany"%string ->
   attr <> "callproc"%string ->
   dirty (snd (getattr attr w)) = dirty w).
Proof.
  intros H.
  assert (attr = "execute"%string \/ attr = "executemany"%string
          \/ attr = "callproc"%string -> In attr SET_DIRTY_ATTRS) as A
    by (intros [-> | [-> | ->]]; simpl; tauto).
  assert (attr <> "execute"%string -> attr <> "executemany"%string ->
          attr <> "callproc"%string -> ~ In attr SET_DIRTY_ATTRS) as B
    by (intros N1 N2 N3 [<- | [<- | [<- | []]]]; congruence).
  rewrite getattr_steps, H. cbv zeta.
  split; [reflexivity |].
  destruct (member attr SET_DIRTY_ATTRS) eqn:E; cbn [fst snd queries logged
                                                     outer dirty];
    repeat split; try reflexivity.
  - intros N. rewrite (member_not_In _ _ N) in E. discriminate E.
  - intros N1 N2 N3. rewrite (member_not_In _ _ (B N1 N2 N3)) in E.
    discriminate E.
  - intros HI. rewrite (member_In _ _ HI) in E. discriminate E.
  - intros Hn. rewrite (member_In _ _ (A Hn)) in E. discriminate E.
Qed.


(** X4: [CursorDebugWrapper.executemany] with a raw [executemany] method: the
    connection is marked dirty, the method is called once with the
    statement and the parameter collection, and whether it returns or
    raises, one query-log entry and one log record are added before the
    value or the translated error comes out.  The entry reads
    "<count> times: <sql>", with "?" for the count when the collection has
    no length, and its time has three decimals. *)
Theorem debug_executemany_logged (sql : string) (pl : params)
    (w : world params ext)
    (m : args params -> ext -> (value + driver_exc) * ext) :
  cursor_getattr "executemany" (outer w) = Some (RawMethod m) ->
  let a := [PStr sql; PObj pl] in
  let x := snd (m a (outer w)) in
  let duration := PyFloat.sub (clock x) (clock (outer w)) in
  let times := match params_len pl with
               | Some n => PyRepr.int_str n
               | None => "?"%string
               end in
  let q := mk_query (times ++ " times: " ++ sql)
                    (PyFloat.format_f 3 duration) in
  let lr := mk_log (debug_message duration sql (params_str pl))
                   duration sql (Some pl) in
  debug_executemany sql pl w
  = (translated translate (fst (m a (outer w))),
     mk_world true (queries w ++ [q]) (logged w ++ [lr])
              (trace w ++ [EvSetDirty; EvCall "executemany" a;
                           EvQuery q; EvLog lr])
              x) /\
  (params_len pl = None -> q_sql q = ("? times: " ++ sql)%string) /\
  (PyFloat.is_finite duration = true -> three_decimals (q_time q) = true).
Proof.
  intros Hm a x duration times q lr.
  split; [| split].
  - rewrite debug_executemany_steps. cbv zeta.
    rewrite wrapped_body. cbn [outer]. rewrite Hm.
    cbn [fst snd dirty queries logged trace outer].
    rewrite <- !app_assoc. reflexivity.
  - intros E. unfold q, times. rewrite E. reflexivity.
  - intros F. cbn [q_time q].
    destruct duration as [s mm ee | |] eqn:D; try discriminate F.
    apply format_f_three_decimals. exact (sub_mantissa _ _ _ _ _ D).
Qed.

End CursorForwarding.

Lemma getattr_other_is_silent_witness :
  snd (ReadingDriver.getattr "fetchone" SampleDriver.w0) = SampleDriver.w0 /\
  (exists f,
      fst (ReadingDriver.getattr "fetchone" SampleDriver.w0) = inl f /\
      call f [] SampleDriver.w0
      = (inr (DatabaseError SampleDriver.DjangoProgrammingError),
         mk_world false [] [] [EvCall "fetchone" []] 1700000000252)) /\
  snd (SampleDriver.getattr "rowcount" SampleDriver.w0) = SampleDriver.w0.
Proof.
  destruct (getattr_other_is_silent _ _ SampleDriver.translate _ _ _
              ReadingDriver.cursor_getattr "fetchone" SampleDriver.w0)
    as [S C]; try discriminate.
  split; [exact S |]. split.
  - destruct (C ReadingDriver.fetchone [] SampleDriver.w0
                (or_intror (or_introl eq_refl)) eq_refl) as (f & F & E).
    exists f. split; [exact F | exact E].
  - apply (getattr_other_is_silent _ _ SampleDriver.translate _ _ _
             SampleDriver.cursor_getattr "rowcount" SampleDriver.w0);
      discriminate.
Defined.

Lemma getattr_unlisted_is_raw_witness :
  ~ In "scroll"%string WRAP_ERROR_ATTRS /\
  bind (IteratorDriver.getattr "scroll") (fun f => call f []) SampleDriver.w0
  = (inr (DriverError SampleDriver.IntegrityError),
     mk_world false [] [] [EvCall "scroll" []] 1700000000251).
Proof.
  assert (~ In "scroll"%string WRAP_ERROR_ATTRS) as N.
  { intros H. repeat (destruct H as [H | H]; [discriminate H |]).
    destruct H. }
  split; [exact N |].
  destruct (getattr_unlisted_is_raw _ _ SampleDriver.translate _ _ _
              IteratorDriver.cursor_getattr "scroll" SampleDriver.w0 N)
    as [_ H].
  destruct (H IteratorDriver.scroll eq_refl) as [_ B].
  exact (B [] SampleDriver.IntegrityError 1700000000251 eq_refl).
Defined.

Lemma getattr_missing_attribute_witness :
  IteratorDriver.cursor_getattr "callproc" (outer SampleDriver.w0) = None /\
  fst (IteratorDriver.getattr "callproc" SampleDriver.w0) = inr AttributeError /\
  dirty (snd (IteratorDriver.getattr "callproc" SampleDriver.w0)) = true /\
  dirty (snd (CursorWrapper_getattr SampleDriver.translate
                BareDriver.cursor_getattr "executemany" SampleDriver.w0))
  = true /\
  dirty (snd (CursorWrapper_getattr SampleDriver.translate
                BareDriver.cursor_getattr "execute" SampleDriver.w0))
  = true /\
  dirty (snd (IteratorDriver.getattr "fetchone" SampleDriver.w0)) = false.
Proof.
  split; [reflexivity |].
  destruct (getattr_missing_attribute _ _ SampleDriver.translate _ _ _
              IteratorDriver.cursor_getattr "callproc" SampleDriver.w0
              eq_refl) as (E & _ & _ & _ & D & _).
  split; [exact E |].
  split; [apply D; right; right; left; reflexivity |].
  split; [| split].
  - destruct (getattr_missing_attribute _ _ SampleDriver.translate _ _ _
                BareDriver.cursor_getattr "executemany" SampleDriver.w0
                eq_refl) as (_ & _ & _ & _ & _ & _ & D' & _).
    apply D'. right. left. reflexivity.
  - destruct (getattr_missing_attribute _ _ SampleDriver.translate _ _ _
                BareDriver.cursor_getattr "execute" SampleDriver.w0
                eq_refl) as (_ & _ & _ & _ & _ & _ & D' & _).
    apply D'. left. reflexivity.
  - destruct (getattr_missing_attribute _ _ SampleDriver.translate _ _ _
                IteratorDriver.cursor_getattr "fetchone" SampleDriver.w0
                eq_refl) as (_ & _ & _ & _ & _ & _ & _ & D').
    apply D'; discriminate.
Defined.

Lemma debug_executemany_logged_witness :
  IteratorDriver.cursor_getattr "executemany" (outer SampleDriver.w0)
  = Some (RawMethod SampleDriver.run) /\
  IteratorDriver.executemany "INSERT" [1; 2] SampleDriver.w0
  = (inr (DatabaseError SampleDriver.DjangoProgrammingError),
     mk_world true
       [mk_query "? times: INSERT" "0.005"]
       [mk_log "(0.005) INSERT; args=[1, 2]"
               (PyFloat.Fin false 5764739464429568 (-60)) "INSERT"
               (Some [1; 2])]
       [EvSetDirty; EvCall "executemany" [PStr "INSERT"; PObj [1; 2]];
        EvQuery (mk_query "? times: INSERT" "0.005");
        EvLog (mk_log "(0.005) INSERT; args=[1, 2]"
                      (PyFloat.Fin false 5764739464429568 (-60)) "INSERT"
                      (Some [1; 2]))]
       1700000000255).
Proof.
  split; [reflexivity |].
  destruct (debug_executemany_logged _ _ SampleDriver.translate _ _
              SampleDriver.params_str IteratorDriver.params_len _
              SampleDriver.clock IteratorDriver.cursor_getattr
              "INSERT" [1; 2] SampleDriver.w0 SampleDriver.run eq_refl)
    as (E & _ & _).
  unfold IteratorDriver.executemany. rewrite E. vm_compute. reflexivity.
Defined.

(** ** More on the converters *)

Lemma digits_val_append (a : string) : forall b acc,
  PyStr.digits_val acc (a ++ b) = PyStr.digits_val (PyStr.digits_val acc a) b.
Proof.
  induction a as [| x a IH]; intros b acc; simpl; [reflexivity | apply IH].
Qed.

Lemma digits_val_zeros (n : nat) : forall acc,
  PyStr.digits_val acc (PyStr.repeat "0" n) = acc * 10 ^ Z.of_nat n.
Proof.
  induction n as [| k IH]; intros acc.
  - simpl. lia.
  - cbn [PyStr.repeat PyStr.digits_val]. rewrite IH.
    change (PyStr.digit_val "0") with 0.
    rewrite Nat2Z.inj_succ, Z.pow_succ_r by lia. lia.
Qed.

Lemma nat_str_small (d : Z) :
  0 <= d < 10 -> PyRepr.nat_str d = String (PyRepr.digit_char d) "".
Proof.
  intros D. rewrite (nat_str_fuel d 4) by (simpl; lia).
  cbn [PyRepr.pos_digits].
  replace (d <? 10) with true by (symmetry; apply Z.ltb_lt; lia).
  rewrite Z.mod_small by lia. reflexivity.
Qed.

Lemma digit_val_char (d : Z) :
  0 <= d < 10 -> PyStr.digit_val (PyRepr.digit_char d) = d.
Proof.
  intros H.
  assert (d = 0 \/ d = 1 \/ d = 2 \/ d = 3 \/ d = 4 \/ d = 5 \/ d = 6
          \/ d = 7 \/ d = 8 \/ d = 9) as D by lia.
  repeat (destruct D as [-> | D]; [reflexivity |]). subst. reflexivity.
Qed.

(** Printing a natural number and reading the digits gives it back. *)
Lemma digits_val_nat_str (n : Z) :
  0 <= n -> PyStr.digits_val 0 (PyRepr.nat_str n) = n.
Proof.
  intros N. generalize N. pattern n. apply Z_lt_induction; [| exact N].
  clear n N. intros n IH N.
  destruct (Z_lt_le_dec n 10) as [S | L].
  - rewrite nat_str_small by lia. cbn [PyStr.digits_val].
    rewrite digit_val_char by lia. lia.
  - pose proof (Z.div_mod n 10 ltac:(lia)) as E.
    pose proof (Z.mod_pos_bound n 10 ltac:(lia)) as B.
    assert (0 < n / 10) by (apply Z.div_str_pos; lia).
    rewrite E at 1. rewrite nat_str_snoc by lia.
    rewrite digits_val_append, IH by lia.
    cbn [PyStr.digits_val]. rewrite digit_val_char by lia. lia.
Qed.

(** A number below [10^w] has at most [w] digits. *)
Lemma nat_str_length (w : nat) : forall n,
  0 <= n < 10 ^ Z.of_nat w -> (0 < w)%nat ->
  (String.length (PyRepr.nat_str n) <= w)%nat.
Proof.
  induction w as [| k IH]; intros n N W; [lia |].
  destruct (Z_lt_le_dec n 10) as [S | L].
  - rewrite nat_str_small by lia. simpl. lia.
  - pose proof (Z.div_mod n 10 ltac:(lia)) as E.
    pose proof (Z.mod_pos_bound n 10 ltac:(lia)) as B.
    assert (0 < n / 10) by (apply Z.div_str_pos; lia).
    rewrite Nat2Z.inj_succ, Z.pow_succ_r in N by lia.
    assert (n / 10 < 10 ^ Z.of_nat k)
      by (apply Z.div_lt_upper_bound; lia).
    destruct k as [| k'].
    + simpl in *. lia.
    + rewrite E. rewrite nat_str_snoc by lia.
      rewrite length_append. simpl String.length.
      specialize (IH (n / 10) ltac:(lia) ltac:(lia)). lia.
Qed.

Lemma zfill_digits (w : nat) (n : Z) :
  PyStr.all_digits (DateTimeText.zfill w n) = true.
Proof.
  unfold DateTimeText.zfill.
  apply all_digits_append; [apply repeat_zero_digits | apply nat_str_all_digits].
Qed.

Lemma zfill_not_empty (w : nat) (n : Z) : DateTimeText.zfill w n <> "".
Proof.
  unfold DateTimeText.zfill. intros E.
  pose proof (nat_str_not_empty n) as N.
  destruct (PyStr.repeat "0" _); [simpl in E; contradiction | discriminate E].
Qed.

Lemma zfill_value (w : nat) (n : Z) :
  0 <= n -> PyStr.digits_val 0 (DateTimeText.zfill w n) = n.
Proof.
  intros N. unfold DateTimeText.zfill.
  rewrite digits_val_append, digits_val_zeros, Z.mul_0_l.
  now apply digits_val_nat_str.
Qed.

Lemma zfill_length (w : nat) (n : Z) :
  0 <= n < 10 ^ Z.of_nat w -> (0 < w)%nat ->
  String.length (DateTimeText.zfill w n) = w.
Proof.
  intros N W. unfold DateTimeText.zfill.
  rewrite length_append, length_repeat.
  pose proof (nat_str_length w n N W). lia.
Qed.

(** [int] of a non-empty run of digits is its value. *)
Lemma py_int_digits (t : string) :
  PyStr.all_digits t = true -> t <> "" ->
  py_int t = Ok (PyStr.digits_val 0 t).
Proof.
  intros D N. unfold py_int.
  rewrite (strip_num_no_space t (all_digits_no_space t D)).
  destruct t as [| x r]; [congruence |].
  pose proof D as D'. apply all_digits_cons in D'. destruct D' as [Dx Dr].
  assert (x <> "+"%char /\ x <> "-"%char) as [Np Nm]
    by (split; intros ->; discriminate Dx).
  destruct x as [[] [] [] [] [] [] [] []];
    try (rewrite D; f_equal; lia); congruence.
Qed.

Lemma all_digits_take (n : nat) : forall s,
  PyStr.all_digits s = true -> PyStr.all_digits (PyStr.take n s) = true.
Proof.
  induction n as [| k IH]; intros s D; [reflexivity |].
  destruct s as [| x r]; [reflexivity |].
  apply all_digits_cons in D. destruct D as [Dx Dr].
  cbn [PyStr.take PyStr.all_digits]. now rewrite Dx, IH.
Qed.

Lemma take_append_short (a : string) : forall n b,
  (String.length a <= n)%nat ->
  PyStr.take n (a ++ b) = (a ++ PyStr.take (n - String.length a) b)%string.
Proof.
  induction a as [| x a IH]; intros n b L.
  - simpl. now rewrite Nat.sub_0_r.
  - destruct n as [| k]; [simpl in L; lia |].
    simpl. rewrite IH by (simpl in L; lia). reflexivity.
Qed.

Lemma take_append_long (a : string) : forall n b,
  (n <= String.length a)%nat -> PyStr.take n (a ++ b) = PyStr.take n a.
Proof.
  induction a as [| x a IH]; intros n b L.
  - simpl in L. assert (n = 0%nat) by lia. subst. reflexivity.
  - destruct n as [| k]; [reflexivity |].
    simpl. rewrite IH by (simpl in L; lia). reflexivity.
Qed.

Lemma digits_val_bound (t : string) : forall acc,
  PyStr.all_digits t = true -> 0 <= acc ->
  0 <= PyStr.digits_val acc t < (acc + 1) * 10 ^ PyStr.len t.
Proof.
  induction t as [| x r IH]; intros acc D A.
  - simpl. lia.
  - apply all_digits_cons in D. destruct D as [Dx Dr].
    destruct (is_digit_spec x Dx) as [Bx _].
    cbn [PyStr.digits_val].
    specialize (IH (10 * acc + PyStr.digit_val x) Dr ltac:(lia)).
    unfold PyStr.len in *. cbn [String.length].
    rewrite Nat2Z.inj_succ, Z.pow_succ_r by lia.
    assert (0 < 10 ^ Z.of_nat (String.length r))
      by (apply Z.pow_pos_nonneg; lia).
    nia.
Qed.

(** X7: The microseconds of [typecast_timestamp]: a run of fraction digits is
    never an error and never out of range; up to six digits are padded
    with zeros on the right, and digits after the sixth are cut, not
    rounded. *)
Theorem timestamp_microseconds_truncates (ds : string) :
  PyStr.all_digits ds = true ->
  exists n,
    timestamp_microseconds ds = Ok n /\
    0 <= n < 1000000 /\
    ((String.length ds <= 6)%nat ->
     n = PyStr.digits_val 0 ds * 10 ^ Z.of_nat (6 - String.length ds)) /\
    ((6 <= String.length ds)%nat ->
     n = PyStr.digits_val 0 (PyStr.take 6 ds)).
Proof.
  intros D.
  set (t := PyStr.take 6 (ds ++ "000000")).
  assert (PyStr.all_digits t = true) as Dt
    by (apply all_digits_take, all_digits_append; [assumption | reflexivity]).
  assert (String.length t = 6%nat) as Lt.
  { unfold t. rewrite length_take, length_append. simpl String.length. lia. }
  assert (t <> "") as Nt by (intros E; rewrite E in Lt; discriminate Lt).
  exists (PyStr.digits_val 0 t).
  split; [| split; [| split]].
  - unfold timestamp_microseconds, PyStr.slice_to.
    change (0 <=? 6) with true. cbv iota. change (Z.to_nat 6) with 6%nat.
    fold t. now apply py_int_digits.
  - pose proof (digits_val_bound t 0 Dt ltac:(lia)) as B.
    unfold PyStr.len in B. rewrite Lt in B.
    change ((0 + 1) * 10 ^ Z.of_nat 6) with 1000000 in B. exact B.
  - intros L. unfold t. rewrite take_append_short by assumption.
    rewrite digits_val_append.
    assert (forall k, (k <= 6)%nat ->
              PyStr.take k "000000" = PyStr.repeat "0" k) as R.
    { intros k Hk.
      do 7 (destruct k as [| k]; [reflexivity |]). lia. }
    rewrite R by lia. apply digits_val_zeros.
  - intros L. unfold t. now rewrite take_append_long.
Qed.

Lemma timestamp_microseconds_truncates_witness :
  PyStr.all_digits "5903589" = true /\
  exists n,
    timestamp_microseconds "5903589" = Ok n /\
    0 <= n < 1000000 /\
    ((String.length "5903589" <= 6)%nat ->
     n = PyStr.digits_val 0 "5903589"
         * 10 ^ Z.of_nat (6 - String.length "5903589")) /\
    ((6 <= String.length "5903589")%nat ->
     n = PyStr.digits_val 0 (PyStr.take 6 "5903589")).
Proof.
  split; [reflexivity |].
  apply (timestamp_microseconds_truncates "5903589"). reflexivity.
Defined.

Ltac open_binds H :=
  repeat match type of H with
         | rbind ?r _ = Ok _ =>
             let E := fresh "E" in
             destruct r eqn:E; cbn [rbind] in H; [| discriminate H]
         | (let (_, _) := ?p in _) = Ok _ => destruct p
         | (let '(_, _) := ?p in _) = Ok _ => destruct p
         | match ?p with (_, _) => _ end = Ok _ => destruct p
         end.

Lemma valid_time_bounds (h mi s us : Z) :
  DateTime.valid_time h mi s us = true ->
  0 <= h <= 23 /\ 0 <= mi <= 59 /\ 0 <= s <= 59 /\ 0 <= us <= 999999.
Proof.
  unfold DateTime.valid_time. intros H.
  repeat (apply andb_true_iff in H; destruct H as [H ?]).
  repeat match goal with
         | H : (_ <=? _) = true |- _ => apply Z.leb_le in H
         end.
  lia.
Qed.

Lemma valid_date_bounds (y m d : Z) :
  DateTime.valid_date y m d = true ->
  1 <= y <= 9999 /\ 1 <= m <= 12 /\ 1 <= d <= 31.
Proof.
  unfold DateTime.valid_date. intros H.
  repeat (apply andb_true_iff in H; destruct H as [H ?]).
  repeat match goal with
         | H : (_ <=? _) = true |- _ => apply Z.leb_le in H
         end.
  assert (DateTime.days_in_month y m <= 31).
  { unfold DateTime.days_in_month.
    repeat match goal with |- context [if ?c then _ else _] => destruct c end;
      lia. }
  lia.
Qed.

Lemma c_int_ok (z z' : Z) : DateTime.c_int z = Ok z' -> z' = z.
Proof.
  unfold DateTime.c_int.
  destruct ((- 2 ^ 31 <=? z) && (z <? 2 ^ 31)); [| discriminate].
  intros H. injection H as <-. reflexivity.
Qed.

Lemma c_int_fits (z : Z) :
  - 2 ^ 31 <= z < 2 ^ 31 -> DateTime.c_int z = Ok z.
Proof.
  intros [H1 H2]. unfold DateTime.c_int.
  destruct (Z.leb_spec (- 2 ^ 31) z); [| lia].
  destruct (Z.ltb_spec z (2 ^ 31)); [reflexivity | lia].
Qed.

Ltac open_c_ints H :=
  repeat match type of H with
         | rbind (DateTime.c_int ?z) _ = Ok _ =>
             let E := fresh "E" in
             let z' := fresh "z" in
             destruct (DateTime.c_int z) as [z' |] eqn:E;
             cbn [rbind] in H; [| discriminate H];
             apply c_int_ok in E; subst z'
         end.

Lemma new_time_ok (h mi s us : Z) (t : DateTime.time) :
  DateTime.new_time h mi s us = Ok t ->
  DateTime.valid_time h mi s us = true /\
  t = DateTime.mk_time h mi s us None.
Proof.
  unfold DateTime.new_time. intros H. open_c_ints H.
  destruct (DateTime.valid_time h mi s us); [| discriminate H].
  injection H as <-. split; reflexivity.
Qed.

Lemma new_time_valid (h mi s us : Z) :
  DateTime.valid_time h mi s us = true ->
  DateTime.new_time h mi s us = Ok (DateTime.mk_time h mi s us None).
Proof.
  intros V. pose proof (valid_time_bounds _ _ _ _ V) as B.
  unfold DateTime.new_time.
  rewrite !c_int_fits by lia. cbn [rbind]. now rewrite V.
Qed.

Lemma new_date_ok (y m d : Z) (r : DateTime.date) :
  DateTime.new_date y m d = Ok r ->
  DateTime.valid_date y m d = true /\ r = DateTime.mk_date y m d.
Proof.
  unfold DateTime.new_date. intros H. open_c_ints H.
  destruct (DateTime.valid_date y m d); [| discriminate H].
  injection H as <-. split; reflexivity.
Qed.

Lemma new_date_valid (y m d : Z) :
  DateTime.valid_date y m d = true ->
  DateTime.new_date y m d = Ok (DateTime.mk_date y m d).
Proof.
  intros V. pose proof (valid_date_bounds _ _ _ V) as B.
  unfold DateTime.new_date.
  rewrite !c_int_fits by lia. cbn [rbind]. now rewrite V.
Qed.

Lemma new_datetime_ok (y m d h mi s us : Z) (tz : option DateTime.tzinfo)
    (r : DateTime.datetime) :
  DateTime.new_datetime y m d h mi s us tz = Ok r ->
  DateTime.valid_date y m d = true /\
  DateTime.valid_time h mi s us = true /\
  r = DateTime.mk_datetime y m d h mi s us tz.
Proof.
  unfold DateTime.new_datetime. intros H. open_c_ints H.
  destruct (DateTime.valid_date y m d); [| discriminate H].
  destruct (DateTime.valid_time h mi s us); [| discriminate H].
  injection H as <-. repeat split; reflexivity.
Qed.

Lemma new_datetime_valid (y m d h mi s us : Z) (tz : option DateTime.tzinfo) :
  DateTime.valid_date y m d = true ->
  DateTime.valid_time h mi s us = true ->
  DateTime.new_datetime y m d h mi s us tz
  = Ok (DateTime.mk_datetime y m d h mi s us tz).
Proof.
  intros Vd Vt. pose proof (valid_date_bounds _ _ _ Vd) as Bd.
  pose proof (valid_time_bounds _ _ _ _ Vt) as Bt.
  unfold DateTime.new_datetime.
  rewrite !c_int_fits by lia. cbn [rbind]. now rewrite Vd, Vt.
Qed.

(** X8: Whatever text [typecast_time] accepts, the time it returns carries no
    zone information and has its fields within the clock's ranges. *)
Theorem typecast_time_is_naive (s : option string) (t : DateTime.time) :
  typecast_time s = Ok (Some t) ->
  DateTime.t_tzinfo t = None /\
  0 <= DateTime.t_hour t <= 23 /\
  0 <= DateTime.t_minute t <= 59 /\
  0 <= DateTime.t_second t <= 59 /\
  0 <= DateTime.t_microsecond t <= 999999.
Proof.
  unfold typecast_time. intros H.
  destruct s as [s' |]; [| discriminate H].
  destruct (negb (truthy (Some s'))); [discriminate H |].
  open_binds H.
  match goal with
  | E : DateTime.new_time _ _ _ _ = Ok _ |- _ =>
      apply new_time_ok in E; destruct E as [V ->]; injection H as <-;
      apply valid_time_bounds in V
  end.
  cbn [DateTime.t_tzinfo DateTime.t_hour DateTime.t_minute DateTime.t_second
       DateTime.t_microsecond].
  repeat split; lia.
Qed.

Lemma typecast_time_is_naive_witness :
  typecast_time (Some "09:56:07.25")
  = Ok (Some (DateTime.mk_time 9 56 7 250000 None)) /\
  DateTime.t_tzinfo (DateTime.mk_time 9 56 7 250000 None) = None.
Proof.
  assert (typecast_time (Some "09:56:07.25")
          = Ok (Some (DateTime.mk_time 9 56 7 250000 None))) as E
    by (vm_compute; reflexivity).
  split; [exact E |].
  exact (proj1 (typecast_time_is_naive _ _ E)).
Defined.

(** X9: Whatever text [typecast_timestamp] accepts, the zone tag of the
    datetime it returns is decided by [USE_TZ] alone: [utc] when it is
    set, none otherwise; a zone suffix in the text never shows in the
    result, whose fields are within the calendar's and the clock's
    ranges. *)
Theorem typecast_timestamp_zone_from_setting (use_tz : bool)
    (s : option string) (d : DateTime.datetime) :
  typecast_timestamp use_tz s = Ok (Some (AsDateTime d)) ->
  DateTime.dt_tzinfo d = (if use_tz then Some DateTime.utc else None) /\
  1 <= DateTime.dt_year d <= 9999 /\
  1 <= DateTime.dt_month d <= 12 /\
  1 <= DateTime.dt_day d <= 31 /\
  0 <= DateTime.dt_hour d <= 23 /\
  0 <= DateTime.dt_minute d <= 59 /\
  0 <= DateTime.dt_second d <= 59 /\
  0 <= DateTime.dt_microsecond d <= 999999.
Proof.
  unfold typecast_timestamp. intros H.
  destruct s as [s' |]; [| discriminate H].
  destruct (negb (truthy (Some s'))); [discriminate H |].
  destruct (negb (PyStr.contains " " s')).
  - open_binds H.
    match type of H with
    | context [option_map _ ?o] => destruct o; discriminate H
    end.
  - open_binds H.
    match goal with
    | E : DateTime.new_datetime _ _ _ _ _ _ _ _ = Ok _ |- _ =>
        apply new_datetime_ok in E; destruct E as (Vd & Vt & ->);
        injection H as <-;
        apply valid_date_bounds in Vd; apply valid_time_bounds in Vt
    end.
    cbn [DateTime.dt_tzinfo DateTime.dt_year DateTime.dt_month DateTime.dt_day
         DateTime.dt_hour DateTime.dt_minute DateTime.dt_second
         DateTime.dt_microsecond].
    repeat split; lia.
Qed.

Lemma typecast_timestamp_zone_from_setting_witness :
  typecast_timestamp true (Some "2005-07-29 09:56:00+09")
  = Ok (Some (AsDateTime
          (DateTime.mk_datetime 2005 7 29 9 56 0 0 (Some DateTime.utc)))) /\
  DateTime.dt_tzinfo
    (DateTime.mk_datetime 2005 7 29 9 56 0 0 (Some DateTime.utc))
  = Some DateTime.utc.
Proof.
  assert (typecast_timestamp true (Some "2005-07-29 09:56:00+09")
          = Ok (Some (AsDateTime
                  (DateTime.mk_datetime 2005 7 29 9 56 0 0
                                        (Some DateTime.utc))))) as E
    by (vm_compute; reflexivity).
  split; [exact E |].
  exact (proj1 (typecast_timestamp_zone_from_setting _ _ _ E)).
Defined.

Lemma contains_append (c : ascii) (a b : string) :
  PyStr.contains c (a ++ b) = PyStr.contains c a || PyStr.contains c b.
Proof.
  induction a as [| x a IH]; [reflexivity |].
  simpl. destruct (Ascii.eqb x c); [reflexivity | exact IH].
Qed.

Lemma all_digits_no_char (c : ascii) (s : string) :
  PyStr.is_digit c = false -> PyStr.all_digits s = true ->
  PyStr.contains c s = false.
Proof.
  intros N. induction s as [| x r IH]; [reflexivity |].
  intros D. apply all_digits_cons in D. destruct D as [Dx Dr].
  cbn [PyStr.contains]. rewrite (IH Dr).
  destruct (Ascii.eqb_spec x c); [| reflexivity].
  subst x. congruence.
Qed.

Lemma split1_at_sep (c : ascii) (a b : string) :
  PyStr.contains c a = false ->
  PyStr.split1 c (a ++ String c b) = [a; b].
Proof.
  induction a as [| x r IH].
  - intros _. simpl. now rewrite Ascii.eqb_refl.
  - cbn [PyStr.contains]. destruct (Ascii.eqb x c) eqn:E; [discriminate |].
    intros H. simpl. rewrite E, (IH H). reflexivity.
Qed.

Lemma split_ws_word (a : string) :
  PyStr.no_space a = true -> a <> "" -> PyStr.split_ws a = [a].
Proof.
  induction a as [| x r IH]; [congruence |].
  cbn [PyStr.no_space]. intros H _.
  apply andb_true_iff in H. destruct H as [Hx Hr].
  apply negb_true_iff in Hx.
  cbn [PyStr.split_ws]. rewrite Hx.
  destruct r as [| y r']; [reflexivity |].
  pose proof Hr as Hr'. cbn [PyStr.no_space] in Hr'.
  apply andb_true_iff in Hr'. destruct Hr' as [Hy _].
  apply negb_true_iff in Hy. rewrite Hy.
  rewrite IH by (assumption || discriminate). reflexivity.
Qed.

(** [split()] on two words with one blank between them. *)
Lemma split_ws_two (a b : string) :
  PyStr.no_space a = true -> a <> "" ->
  PyStr.no_space b = true -> b <> "" ->
  PyStr.split_ws (a ++ String " " b) = [a; b].
Proof.
  intros Ha Na Hb Nb.
  induction a as [| x r IH]; [congruence |].
  cbn [PyStr.no_space] in Ha.
  apply andb_true_iff in Ha. destruct Ha as [Hx Hr].
  apply negb_true_iff in Hx.
  cbn [append PyStr.split_ws]. rewrite Hx.
  destruct r as [| y r'].
  - cbn [append]. change (PyStr.is_space " ") with true. cbv iota.
    cbn [PyStr.split_ws]. change (PyStr.is_space " ") with true. cbv iota.
    now rewrite split_ws_word.
  - pose proof Hr as Hr'. cbn [PyStr.no_space] in Hr'.
    apply andb_true_iff in Hr'. destruct Hr' as [Hy _].
    apply negb_true_iff in Hy.
    cbn [append]. rewrite Hy.
    change (String y (r' ++ String " " b)) with (String y r' ++ String " " b)%string.
    rewrite IH by (assumption || discriminate). reflexivity.
Qed.

Lemma contains_sep (c : ascii) (a b : string) :
  PyStr.contains c (a ++ String c b) = true.
Proof.
  rewrite contains_append. cbn [PyStr.contains]. rewrite Ascii.eqb_refl.
  apply orb_true_r.
Qed.

Lemma truthy_not_empty (s : string) : s <> "" -> truthy (Some s) = true.
Proof.
  destruct s; [congruence | reflexivity].
Qed.

(** [typecast_timestamp] on a date text, a blank and a time text: the zone
    suffix is split off the time text and the rest is built from the
    parts. *)
Lemma typecast_timestamp_parts (use_tz : bool) (d t : string) :
  PyStr.no_space d = true -> d <> "" ->
  PyStr.no_space t = true -> t <> "" ->
  typecast_timestamp use_tz (Some (d ++ String " " t))
  = let* p := split_tz t in timestamp_of_parts use_tz d (fst p).
Proof.
  intros Hd Nd Ht Nt. unfold typecast_timestamp.
  rewrite truthy_not_empty by (destruct d; [congruence | discriminate]).
  rewrite contains_sep, split_ws_two by assumption.
  cbn [negb unpack2 rbind].
  destruct (split_tz t) as [[t' tz] |]; reflexivity.
Qed.

Lemma append_not_empty (a b : string) : a <> "" -> (a ++ b)%string <> "".
Proof.
  destruct a; [congruence | discriminate].
Qed.

(** X10: A zone suffix is thrown away: a timestamp text whose time part is
    followed by "-" or "+" and any offset text gives exactly what the text
    without the suffix gives, be it a value or an error.  (The time part
    has no sign of its own, and a "+" offset contains no "-".) *)
Theorem typecast_timestamp_offset_discarded (use_tz : bool) (d t z : string) :
  PyStr.no_space d = true -> d <> "" ->
  PyStr.no_space t = true -> t <> "" ->
  PyStr.contains "-" t = false -> PyStr.contains "+" t = false ->
  PyStr.no_space z = true ->
  typecast_timestamp use_tz (Some (d ++ " " ++ t ++ "-" ++ z))
  = typecast_timestamp use_tz (Some (d ++ " " ++ t)) /\
  (PyStr.contains "-" z = false ->
   typecast_timestamp use_tz (Some (d ++ " " ++ t ++ "+" ++ z))
   = typecast_timestamp use_tz (Some (d ++ " " ++ t))).
Proof.
  intros Hd Nd Ht Nt Cm Cp Hz.
  assert (typecast_timestamp use_tz (Some (d ++ " " ++ t))
          = timestamp_of_parts use_tz d t) as R.
  { change (d ++ " " ++ t)%string with (d ++ String " " t)%string.
    rewrite typecast_timestamp_parts by assumption.
    unfold split_tz. rewrite Cm, Cp. reflexivity. }
  rewrite R. split.
  - change (d ++ " " ++ t ++ "-" ++ z)%string
      with (d ++ String " " (t ++ String "-" z))%string.
    rewrite typecast_timestamp_parts;
      try assumption; try (now apply append_not_empty).
    + unfold split_tz. rewrite contains_sep, split1_at_sep by assumption.
      reflexivity.
    + apply no_space_append; [assumption |]. cbn [PyStr.no_space].
      now rewrite Hz.
  - intros Cz.
    change (d ++ " " ++ t ++ "+" ++ z)%string
      with (d ++ String " " (t ++ String "+" z))%string.
    rewrite typecast_timestamp_parts;
      try assumption; try (now apply append_not_empty).
    + unfold split_tz.
      assert (PyStr.contains "-" (t ++ String "+" z) = false) as ->.
      { rewrite contains_append, Cm. cbn [PyStr.contains orb].
        change (Ascii.eqb "+" "-") with false. cbv iota. exact Cz. }
      rewrite contains_sep, split1_at_sep by assumption. reflexivity.
    + apply no_space_append; [assumption |]. cbn [PyStr.no_space].
      now rewrite Hz.
Qed.

Lemma typecast_timestamp_offset_discarded_witness :
  typecast_timestamp false (Some "2005-07-29 09:56:00-05:30")
  = typecast_timestamp false (Some "2005-07-29 09:56:00").
Proof.
  apply (typecast_timestamp_offset_discarded false "2005-07-29" "09:56:00"
           "05:30"); (reflexivity || discriminate).
Defined.

Lemma py_int_zfill (w : nat) (n : Z) :
  0 <= n -> py_int (DateTimeText.zfill w n) = Ok n.
Proof.
  intros N.
  rewrite py_int_digits by (apply zfill_digits || apply zfill_not_empty).
  now rewrite zfill_value.
Qed.

Lemma zfill_no_char (c : ascii) (w : nat) (n : Z) :
  PyStr.is_digit c = false -> PyStr.contains c (DateTimeText.zfill w n) = false.
Proof.
  intros H. apply all_digits_no_char; [assumption | apply zfill_digits].
Qed.

Lemma date_str_split (y m d : Z) :
  PyStr.split "-" (DateTimeText.date_str y m d)
  = [DateTimeText.zfill 4 y; DateTimeText.zfill 2 m; DateTimeText.zfill 2 d].
Proof.
  unfold DateTimeText.date_str.
  change (DateTimeText.zfill 4 y ++ "-" ++ DateTimeText.zfill 2 m ++ "-"
          ++ DateTimeText.zfill 2 d)%string
    with (DateTimeText.zfill 4 y
          ++ String "-" (DateTimeText.zfill 2 m
                         ++ String "-" (DateTimeText.zfill 2 d)))%string.
  rewrite !split_at_sep, split_without_sep
    by (apply zfill_no_char; reflexivity).
  reflexivity.
Qed.

(** X11: Round trip for dates: the ISO text of every valid date reads back as
    that date. *)
Theorem typecast_date_round_trip (y m d : Z) :
  DateTime.valid_date y m d = true ->
  typecast_date (Some (DateTimeText.date_str y m d))
  = Ok (Some (DateTime.mk_date y m d)).
Proof.
  intros V. pose proof (valid_date_bounds y m d V) as B.
  unfold typecast_date.
  rewrite truthy_not_empty
    by (unfold DateTimeText.date_str; apply append_not_empty, zfill_not_empty).
  rewrite date_str_split. cbn [rmap].
  rewrite !py_int_zfill by lia. cbn [rbind DateTime.date_of_args].
  rewrite (new_date_valid y m d V). reflexivity.
Qed.

Lemma typecast_date_round_trip_witness :
  DateTime.valid_date 2004 2 29 = true /\
  typecast_date (Some "2004-02-29") = Ok (Some (DateTime.mk_date 2004 2 29)).
Proof.
  split; [reflexivity |].
  exact (typecast_date_round_trip 2004 2 29 eq_refl).
Defined.

Lemma zfill_no_space (w : nat) (n : Z) :
  PyStr.no_space (DateTimeText.zfill w n) = true.
Proof.
  apply all_digits_no_space, zfill_digits.
Qed.

Lemma no_space_sep (c : ascii) (a b : string) :
  PyStr.is_space c = false ->
  PyStr.no_space a = true -> PyStr.no_space b = true ->
  PyStr.no_space (a ++ String c b) = true.
Proof.
  intros Hc Ha Hb. apply no_space_append; [assumption |].
  cbn [PyStr.no_space]. now rewrite Hc, Hb.
Qed.

Lemma date_str_no_space (y m d : Z) :
  PyStr.no_space (DateTimeText.date_str y m d) = true.
Proof.
  unfold DateTimeText.date_str.
  repeat (apply no_space_sep; [reflexivity | apply zfill_no_space |]).
  apply zfill_no_space.
Qed.

Lemma time_str_eq (h mi s us : Z) :
  DateTimeText.time_str h mi s us
  = (DateTimeText.zfill 2 h
     ++ String ":" (DateTimeText.zfill 2 mi
                    ++ String ":" (DateTimeText.seconds_str s us)))%string.
Proof.
  reflexivity.
Qed.

Lemma seconds_str_props (s us : Z) :
  PyStr.no_space (DateTimeText.seconds_str s us) = true /\
  PyStr.contains ":" (DateTimeText.seconds_str s us) = false /\
  PyStr.contains "-" (DateTimeText.seconds_str s us) = false /\
  PyStr.contains "+" (DateTimeText.seconds_str s us) = false.
Proof.
  unfold DateTimeText.seconds_str. destruct (us =? 0).
  - rewrite append_nil_r. split; [apply zfill_no_space |].
    repeat split; apply zfill_no_char; reflexivity.
  - split; [apply no_space_sep; (reflexivity || apply zfill_no_space) |].
    repeat split; rewrite contains_append; cbn [PyStr.contains];
      rewrite !zfill_no_char by reflexivity; reflexivity.
Qed.

Lemma seconds_str_fraction (s us : Z) :
  0 <= us < 1000000 ->
  exists frac,
    split_fraction (DateTimeText.seconds_str s us)
    = Ok (DateTimeText.zfill 2 s, frac) /\
    timestamp_microseconds frac = Ok us.
Proof.
  intros U. unfold DateTimeText.seconds_str, split_fraction.
  destruct (us =? 0) eqn:E.
  - apply Z.eqb_eq in E. subst us. exists "0"%string.
    rewrite append_nil_r, zfill_no_char by reflexivity.
    split; reflexivity.
  - exists (DateTimeText.zfill 6 us).
    rewrite contains_sep, split_at_sep, split_without_sep
      by (apply zfill_no_char; reflexivity).
    split; [reflexivity |].
    unfold timestamp_microseconds, PyStr.slice_to.
    change (0 <=? 6) with true. cbv iota. change (Z.to_nat 6) with 6%nat.
    assert (String.length (DateTimeText.zfill 6 us) = 6%nat) as L
      by (apply zfill_length; [change (10 ^ Z.of_nat 6) with 1000000 |]; lia).
    rewrite take_append_short by lia.
    rewrite L. change (PyStr.take (6 - 6) "000000") with "".
    rewrite append_nil_r. apply py_int_zfill. lia.
Qed.

(** X12: Round trip for datetimes: the text of every valid naive datetime,
    with or without microseconds, reads back as that datetime, all six
    microsecond digits kept, tagged by [USE_TZ]. *)
Theorem typecast_timestamp_round_trip (use_tz : bool) (y m d h mi s us : Z) :
  DateTime.valid_date y m d = true ->
  DateTime.valid_time h mi s us = true ->
  typecast_timestamp use_tz
    (Some (DateTimeText.datetime_str
             (DateTime.mk_datetime y m d h mi s us None)))
  = Ok (Some (AsDateTime
          (DateTime.mk_datetime y m d h mi s us
             (if use_tz then Some DateTime.utc else None)))).
Proof.
  intros Vd Vt.
  pose proof (valid_date_bounds y m d Vd) as Bd.
  pose proof (valid_time_bounds h mi s us Vt) as Bt.
  destruct (seconds_str_props s us) as (Ss & Sc & Sm & Sp).
  unfold DateTimeText.datetime_str.
  cbn [DateTime.dt_year DateTime.dt_month DateTime.dt_day DateTime.dt_hour
       DateTime.dt_minute DateTime.dt_second DateTime.dt_microsecond].
  set (T := DateTimeText.time_str h mi s us).
  assert (PyStr.no_space T = true) as NT.
  { unfold T. rewrite time_str_eq.
    repeat (apply no_space_sep; [reflexivity | apply zfill_no_space |]).
    exact Ss. }
  assert (T <> "") as ET
    by (unfold T; rewrite time_str_eq; apply append_not_empty, zfill_not_empty).
  change (DateTimeText.date_str y m d ++ " " ++ T)%string
    with (DateTimeText.date_str y m d ++ String " " T)%string.
  rewrite typecast_timestamp_parts;
    [| apply date_str_no_space
     | unfold DateTimeText.date_str; apply append_not_empty, zfill_not_empty
     | exact NT | exact ET].
  assert (split_tz T = Ok (T, "")) as ->.
  { unfold split_tz, T. rewrite time_str_eq.
    rewrite !contains_append. cbn [PyStr.contains].
    rewrite !contains_append. cbn [PyStr.contains].
    rewrite !zfill_no_char, Sm, Sp by reflexivity. reflexivity. }
  cbn [rbind fst]. unfold timestamp_of_parts.
  rewrite date_str_split.
  unfold T. rewrite time_str_eq.
  rewrite !split_at_sep by (apply zfill_no_char; reflexivity).
  rewrite (split_without_sep ":" _ Sc).
  cbn [index nth_error rbind].
  destruct (seconds_str_fraction s us ltac:(lia)) as (frac & F1 & F2).
  rewrite F1. cbn [rbind].
  rewrite !py_int_zfill by lia. cbn [rbind].
  rewrite F2. cbn [rbind].
  rewrite new_datetime_valid by assumption. reflexivity.
Qed.

Lemma typecast_timestamp_round_trip_witness :
  DateTime.valid_date 2005 7 29 = true /\
  DateTime.valid_time 15 48 0 249 = true /\
  typecast_timestamp false (Some "2005-07-29 15:48:00.000249")
  = Ok (Some (AsDateTime (DateTime.mk_datetime 2005 7 29 15 48 0 249 None))).
Proof.
  split; [reflexivity |]. split; [reflexivity |].
  exact (typecast_timestamp_round_trip false 2005 7 29 15 48 0 249
           eq_refl eq_refl).
Defined.

(** X13: Round trip for whole-second times: the text "HH:MM:SS" of every valid
    time without microseconds reads back as that time. *)
Theorem typecast_time_round_trip_seconds (h mi s : Z) :
  DateTime.valid_time h mi s 0 = true ->
  typecast_time (Some (DateTimeText.time_str h mi s 0))
  = Ok (Some (DateTime.mk_time h mi s 0 None)).
Proof.
  intros V. pose proof (valid_time_bounds h mi s 0 V) as B.
  unfold typecast_time.
  rewrite truthy_not_empty
    by (rewrite time_str_eq; apply append_not_empty, zfill_not_empty).
  cbn [negb]. rewrite time_str_eq.
  rewrite !split_at_sep by (apply zfill_no_char; reflexivity).
  destruct (seconds_str_props s 0) as (_ & Sc & _ & _).
  rewrite (split_without_sep ":" _ Sc).
  cbn [unpack3 rbind].
  unfold DateTimeText.seconds_str. change (0 =? 0) with true. cbv iota.
  rewrite append_nil_r.
  unfold split_fraction. rewrite zfill_no_char by reflexivity.
  cbn [rbind]. rewrite !py_int_zfill by lia. cbn [rbind].
  change (time_microseconds "0") with (Ok 0). cbn [rbind].
  rewrite (new_time_valid h mi s 0 V). reflexivity.
Qed.

Lemma typecast_time_round_trip_seconds_witness :
  DateTime.valid_time 23 59 59 0 = true /\
  typecast_time (Some "23:59:59") = Ok (Some (DateTime.mk_time 23 59 59 0 None)).
Proof.
  split; [reflexivity |].
  exact (typecast_time_round_trip_seconds 23 59 59 eq_refl).
Defined.

(** [float] reads a point followed by a run of digits as the binary64
    nearest to that decimal fraction. *)
Lemma float_of_fraction (frac : string) :
  digit_run frac = true ->
  PyFloat.of_str (String "." frac)
  = Ok (PyFloat.of_ratio false (PyStr.digits_val 0 frac)
                         (10 ^ PyStr.len frac)).
Proof.
  unfold digit_run. intros H. apply andb_true_iff in H. destruct H as [D N].
  apply negb_true_iff, String.eqb_neq in N.
  unfold PyFloat.of_str.
  rewrite strip_num_no_space
    by (cbn [PyStr.no_space]; now rewrite (all_digits_no_space frac D)).
  change (PyStr.split_sign (String "." frac)) with (false, String "." frac).
  cbv iota beta.
  assert (String.eqb (PyStr.lowercase (String "." frac)) "inf" = false)
    as -> by reflexivity.
  assert (String.eqb (PyStr.lowercase (String "." frac)) "infinity" = false)
    as -> by reflexivity.
  assert (String.eqb (PyStr.lowercase (String "." frac)) "nan" = false)
    as -> by reflexivity.
  cbn [orb]. unfold PyFloat.parse_number.
  change (PyStr.span_digits (String "." frac)) with ("", String "." frac).
  cbv iota beta. rewrite (span_digits_all frac D). cbn [append].
  destruct frac as [| x r] eqn:E; [congruence |]. rewrite <- E.
  cbn [PyStr.exponent_suffix].
  assert (1 <= PyStr.len frac)
    by (rewrite E; unfold PyStr.len; cbn [String.length]; lia).
  destruct (Z.leb_spec 0 (0 - PyStr.len frac)); [lia |].
  replace (- (0 - PyStr.len frac)) with (PyStr.len frac) by lia.
  reflexivity.
Qed.

(** C5: [typecast_time] on "15:48:00.590358" returns 15:48:00 with 590358
    microseconds and no tzinfo.  The microseconds of any time text with a
    fraction are [int] of the product of 1000000 and the float nearest to
    the decimal fraction that the digits after the point spell: on
    "590358" that float is 5317472137630383 / 2^53, the product is exactly
    590358.0, and [int] gives 590358.  [int] truncates: on "000249" the
    product is 248.99999999999997 and the microseconds are 248. *)
Theorem typecast_time_sample :
  typecast_time (Some "15:48:00.590358")
  = Ok (Some (DateTime.mk_time 15 48 0 590358 None)) /\
  (forall h mi s frac,
      0 <= h -> 0 <= mi -> 0 <= s -> digit_run frac = true ->
      typecast_time
        (Some (DateTimeText.zfill 2 h ++ ":" ++ DateTimeText.zfill 2 mi ++ ":"
               ++ DateTimeText.zfill 2 s ++ "." ++ frac))
      = (let* us :=
           PyFloat.to_int
             (PyFloat.mul
                (PyFloat.of_ratio false (PyStr.digits_val 0 frac)
                                  (10 ^ PyStr.len frac))
                (PyFloat.of_Z 1000000)) in
         let* r := DateTime.new_time h mi s us in
         Ok (Some r))) /\
  PyFloat.of_ratio false 590358 (10 ^ 6)
  = PyFloat.Fin false 5317472137630383 (-53) /\
  2 * Z.abs (5317472137630383 * 10 ^ 6 - 590358 * 2 ^ 53) <= 10 ^ 6 /\
  PyFloat.mul (PyFloat.Fin false 5317472137630383 (-53))
              (PyFloat.of_Z 1000000)
  = PyFloat.Fin false (590358 * 2 ^ 33) (-33) /\
  PyFloat.to_int (PyFloat.Fin false (590358 * 2 ^ 33) (-33)) = Ok 590358 /\
  PyFloat.mul (PyFloat.of_ratio false 249 (10 ^ 6)) (PyFloat.of_Z 1000000)
  = PyFloat.Fin false 8760908650119167 (-45) /\
  248 * 2 ^ 45 < 8760908650119167 < 249 * 2 ^ 45 /\
  typecast_time (Some "00:00:00.000249")
  = Ok (Some (DateTime.mk_time 0 0 0 248 None)).
Proof.
  split; [reflexivity |].
  split; [| repeat split; vm_compute; (reflexivity || discriminate)].
  intros h mi s frac Hh Hmi Hs R.
  pose proof R as R'. unfold digit_run in R'.
  apply andb_true_iff in R'. destruct R' as [D _].
  unfold typecast_time.
  rewrite truthy_not_empty by (apply append_not_empty, zfill_not_empty).
  cbn [negb].
  change (DateTimeText.zfill 2 h ++ ":" ++ DateTimeText.zfill 2 mi ++ ":"
          ++ DateTimeText.zfill 2 s ++ "." ++ frac)%string
    with (DateTimeText.zfill 2 h
          ++ String ":" (DateTimeText.zfill 2 mi
                         ++ String ":" (DateTimeText.zfill 2 s
                                        ++ String "." frac)))%string.
  rewrite !split_at_sep by (apply zfill_no_char; reflexivity).
  assert (PyStr.contains ":" (DateTimeText.zfill 2 s ++ String "." frac)
          = false) as Sc.
  { rewrite contains_append. cbn [PyStr.contains].
    rewrite zfill_no_char by reflexivity.
    change (Ascii.eqb "." ":") with false. cbv iota.
    now rewrite (all_digits_no_char ":" frac). }
  rewrite (split_without_sep ":" _ Sc).
  cbn [unpack3 rbind].
  unfold split_fraction. rewrite contains_sep.
  rewrite split_at_sep by (apply zfill_no_char; reflexivity).
  rewrite split_without_sep by now apply all_digits_no_char.
  cbn [unpack2 rbind]. rewrite !py_int_zfill by lia. cbn [rbind].
  unfold time_microseconds. rewrite (float_of_fraction frac R).
  cbn [rbind]. reflexivity.
Qed.

(** The general part of C5 at the sample and at "09:05:07.25". *)
Lemma typecast_time_sample_witness :
  typecast_time (Some "15:48:00.590358")
  = Ok (Some (DateTime.mk_time 15 48 0 590358 None)) /\
  typecast_time (Some "09:05:07.25")
  = Ok (Some (DateTime.mk_time 9 5 7 250000 None)).
Proof.
  destruct typecast_time_sample as (_ & G & _).
  split.
  - exact (G 15 48 0 "590358"%string ltac:(lia) ltac:(lia) ltac:(lia)
              eq_refl).
  - exact (G 9 5 7 "25"%string ltac:(lia) ltac:(lia) ltac:(lia) eq_refl).
Defined.

(** ** More on decimals and identifiers *)

(** Under the default context the power is exact down to [Etiny]; from
    1000000 places on its result is subnormal, which the context
    records. *)
Lemma tenth_pow_default (dp : Z) :
  0 <= dp <= 1000026 ->
  PyDecimal.tenth_pow PyDecimal.default_context dp
  = (Ok (PyDecimal.Finite false 1 (- dp)),
     if dp <=? 999999 then PyDecimal.default_context
     else PyDecimal.raise_signals [PyDecimal.SigSubnormal]
                                  PyDecimal.default_context).
Proof.
  intros D. unfold PyDecimal.tenth_pow.
  change (PyDecimal.Emax PyDecimal.default_context) with 999999.
  change (PyDecimal.Emin PyDecimal.default_context) with (-999999).
  change (PyDecimal.Etiny PyDecimal.default_context) with (-1000026).
  destruct (Z.eqb_spec dp 0) as [-> | N0]; [reflexivity |].
  destruct (Z.ltb_spec 999999 (- dp)); [lia |].
  destruct (Z.ltb_spec (- dp) (-1000026)); [lia |].
  destruct (Z.ltb_spec (- dp) (-999999));
    destruct (Z.leb_spec dp 999999); try lia; reflexivity.
Qed.

(** X16: A decimal that needs more than [max_digits] digits at the requested
    number of decimal places is refused, not shortened: when a non-zero
    value has more than [max_digits - decimal_places] digits before the
    point, [format_number] raises [InvalidOperation] (default context,
    [1 <= max_digits], up to 1000026 decimal places).  The thread's
    context is as it was for up to 999999 decimal places; from 1000000 on
    the power [Decimal(".1") ** decimal_places] has raised its [Subnormal]
    flag. *)
Theorem format_number_too_many_digits (s : bool) (c e max_digits dp : Z) :
  0 < c ->
  1 <= max_digits <= PyDecimal.MAX_PREC ->
  0 <= dp <= 1000026 ->
  max_digits - dp < PyDecimal.adjusted c e + 1 ->
  format_number PyDecimal.default_context (Dec (PyDecimal.Finite s c e))
                max_digits dp
  = (Raise InvalidOperation,
     if dp <=? 999999 then PyDecimal.default_context
     else PyDecimal.raise_signals [PyDecimal.SigSubnormal]
                                  PyDecimal.default_context).
Proof.
  intros C M D T. unfold format_number.
  unfold PyDecimal.set_prec.
  replace ((1 <=? max_digits) && (max_digits <=? PyDecimal.MAX_PREC))
    with true by (symmetry; apply andb_true_iff; split; apply Z.leb_le; lia).
  rewrite (tenth_pow_default dp D). f_equal.
  cbn [rbind]. unfold PyDecimal.quantize.
  cbn [PyDecimal.Etiny PyDecimal.Emin PyDecimal.Emax PyDecimal.prec
       PyDecimal.default_context PyDecimal.rounding].
  destruct (negb _); [reflexivity |].
  replace (c =? 0) with false by (symmetry; apply Z.eqb_neq; lia).
  destruct (999999 <? PyDecimal.adjusted c e); [reflexivity |].
  replace (max_digits <? PyDecimal.adjusted c e - - dp + 1) with true
    by (symmetry; apply Z.ltb_lt; lia).
  reflexivity.
Qed.

Lemma format_number_too_many_digits_witness :
  format_number PyDecimal.default_context
    (Dec (PyDecimal.Finite false 314159 (-3))) 3 1
  = (Raise InvalidOperation, PyDecimal.default_context) /\
  format_number PyDecimal.default_context
    (Dec (PyDecimal.Finite false 1 0)) 3 1000000
  = (Raise InvalidOperation,
     PyDecimal.mk_context 28 PyDecimal.ROUND_HALF_EVEN (-999999) 999999 true
                          [PyDecimal.SigSubnormal]).
Proof.
  split.
  - apply (format_number_too_many_digits false 314159 (-3) 3 1).
    + lia.
    + unfold PyDecimal.MAX_PREC. lia.
    + lia.
    + vm_compute. reflexivity.
  - apply (format_number_too_many_digits false 1 0 3 1000000).
    + lia.
    + unfold PyDecimal.MAX_PREC. lia.
    + lia.
    + vm_compute. reflexivity.
Defined.

(** X18: The result of [truncate_name] never exceeds [length] when
    [0 <= hash_len <= 32] and [hash_len <= length]: it has
    [min(len(name), length)] characters.  Truncating a second time with
    the same arguments changes nothing. *)
Theorem truncate_name_fits (name : string) (l h : Z) :
  0 <= h <= 32 -> h <= l ->
  PyStr.len (truncate_name name (Some l) h) = Z.min (PyStr.len name) l /\
  truncate_name (truncate_name name (Some l) h) (Some l) h
  = truncate_name name (Some l) h.
Proof.
  intros Hh Hl.
  assert (PyStr.len (truncate_name name (Some l) h)
          = Z.min (PyStr.len name) l) as L.
  { unfold truncate_name.
    destruct (PyStr.len name <=? l) eqn:E.
    - apply Z.leb_le in E. lia.
    - apply Z.leb_gt in E. unfold PyStr.slice_to.
      replace (0 <=? h) with true by (symmetry; apply Z.leb_le; lia).
      replace (0 <=? l - h) with true by (symmetry; apply Z.leb_le; lia).
      unfold PyStr.len in *.
      rewrite length_append, !length_take, hexdigest_length. lia. }
  split; [exact L |].
  unfold truncate_name at 1.
  replace (PyStr.len (truncate_name name (Some l) h) <=? l) with true
    by (symmetry; apply Z.leb_le; lia).
  reflexivity.
Qed.

Lemma truncate_name_fits_witness :
  PyStr.len (truncate_name (PyStr.repeat "y" 40) (Some 30) 4) = 30 /\
  truncate_name (truncate_name (PyStr.repeat "y" 40) (Some 30) 4) (Some 30) 4
  = truncate_name (PyStr.repeat "y" 40) (Some 30) 4.
Proof.
  destruct (truncate_name_fits (PyStr.repeat "y" 40) 30 4) as [L I];
    [lia | lia |].
  split; [| exact I]. rewrite L. reflexivity.
Defined.

(** X19: Round trip for values below one: a text "0.F" whose fraction has at
    most five zeros before its first non-zero digit comes back unchanged
    from [typecast_decimal] and [rev_typecast_decimal], trailing zeros
    included. *)
Theorem decimal_round_trip_fraction (ctx : PyDecimal.context) (z : nat)
    (x : ascii) (r : string) :
  (z <= 5)%nat ->
  PyStr.is_digit x = true -> x <> "0"%char -> PyStr.all_digits r = true ->
  let text := ("0." ++ PyStr.repeat "0" z ++ String x r)%string in
  exists d,
    typecast_decimal (Some text) = Ok (Some d) /\
    rev_typecast_decimal ctx (Some d) = Some text.
Proof.
  intros Hz Dx Nx Dr text.
  set (fp := (PyStr.repeat "0" z ++ String x r)%string).
  assert (PyStr.all_digits (String x r) = true) as Dxr
    by (cbn [PyStr.all_digits]; now rewrite Dx, Dr).
  assert (PyStr.all_digits fp = true) as Df
    by (apply all_digits_append; [apply repeat_zero_digits | assumption]).
  set (c := PyStr.digits_val 0 (String x r)).
  assert (PyStr.digits_val 0 ("0" ++ fp) = c) as Ec.
  { unfold fp. change ("0" ++ PyStr.repeat "0" z ++ String x r)%string
      with (PyStr.repeat "0" (S z) ++ String x r)%string.
    rewrite digits_val_append, digits_val_zeros. reflexivity. }
  assert (PyStr.len fp = Z.of_nat z + PyStr.len (String x r)) as Lf.
  { unfold fp, PyStr.len. rewrite length_append, length_repeat. lia. }
  exists (PyDecimal.Finite false c (- PyStr.len fp)).
  split.
  - unfold typecast_decimal, text. fold fp.
    change ("0." ++ fp)%string with (String "0" (String "." fp)).
    cbv iota. unfold PyDecimal.of_str.
    rewrite strip_no_space
      by (cbn [PyStr.no_space]; now rewrite (all_digits_no_space fp Df)).
    rewrite split_sign_digit by reflexivity.
    change (String "0" (String "." fp)) with ("0" ++ String "." fp)%string.
    rewrite span_digits_append by reflexivity.
    rewrite (span_digits_all fp Df).
    cbn [PyStr.exponent_suffix append].
    change (String "0" fp) with ("0" ++ fp)%string. rewrite Ec.
    reflexivity.
  - unfold rev_typecast_decimal, PyDecimal.to_str, PyDecimal.coeff_str.
    assert (PyRepr.nat_str c = String x r) as Ecs
      by (now apply nat_str_canonical).
    rewrite !Ecs, Lf.
    set (n := PyStr.len (String x r)).
    assert (1 <= n)
      by (unfold n, PyStr.len; cbn [String.length]; lia).
    replace (- (Z.of_nat z + n) + n) with (- Z.of_nat z) by lia.
    replace (- (Z.of_nat z + n) <=? 0) with true
      by (symmetry; apply Z.leb_le; lia).
    replace (-6 <? - Z.of_nat z) with true
      by (symmetry; apply Z.ltb_lt; lia).
    cbn [andb].
    replace (- Z.of_nat z <=? 0) with true by (symmetry; apply Z.leb_le; lia).
    rewrite Z.eqb_refl, Z.opp_involutive, Nat2Z.id.
    cbn [PyDecimal.sign_str]. unfold text.
    simpl. now rewrite append_nil_r.
Qed.

Lemma decimal_round_trip_fraction_witness :
  exists d,
    typecast_decimal (Some "0.00140") = Ok (Some d) /\
    rev_typecast_decimal PyDecimal.default_context (Some d) = Some "0.00140".
Proof.
  apply (decimal_round_trip_fraction PyDecimal.default_context 2 "1" "40");
    (reflexivity || discriminate || lia).
Defined.

(** Printing the value of a run of digits without a superfluous zero
    gives the run back. *)
Lemma nat_str_canonical_digits (r : string) :
  canonical_digits r = true ->
  PyRepr.nat_str (PyStr.digits_val 0 r) = r /\ digit_run r = true.
Proof.
  unfold canonical_digits, digit_run. destruct r as [| x r]; [discriminate |].
  intros H. apply andb_true_iff in H. destruct H as [H C].
  apply andb_true_iff in H. destruct H as [Dx Dr].
  split; [| cbn [PyStr.all_digits]; now rewrite Dx, Dr].
  apply orb_true_iff in C. destruct C as [C | C].
  - apply negb_true_iff, Ascii.eqb_neq in C. now apply nat_str_canonical.
  - apply String.eqb_eq in C. subst r.
    destruct (Ascii.eqb_spec x "0") as [-> | N]; [reflexivity |].
    now apply nat_str_canonical.
Qed.

Lemma split_sign_signed (neg : bool) (x : ascii) (r : string) :
  PyStr.is_digit x = true ->
  PyStr.split_sign ((if neg then "-" else "") ++ String x r)
  = (neg, String x r).
Proof.
  destruct neg; [reflexivity | apply split_sign_digit].
Qed.

Lemma no_space_signed (neg : bool) (s : string) :
  PyStr.no_space s = true ->
  PyStr.no_space ((if neg then "-" else "") ++ s) = true.
Proof.
  destruct neg; [| auto]. intros H. cbn [append PyStr.no_space].
  now rewrite H.
Qed.

(** The constructor reads a signed run of digits as that integer. *)
Lemma decimal_of_integer (neg : bool) (ip : string) :
  digit_run ip = true ->
  PyDecimal.of_str ((if neg then "-" else "") ++ ip)
  = Ok (PyDecimal.Finite neg (PyStr.digits_val 0 ip) 0).
Proof.
  unfold digit_run. intros H. apply andb_true_iff in H. destruct H as [D N].
  apply negb_true_iff, String.eqb_neq in N.
  destruct ip as [| x r] eqn:E; [congruence |].
  pose proof D as D'. apply all_digits_cons in D'. destruct D' as [Dx Dr].
  unfold PyDecimal.of_str.
  rewrite strip_no_space
    by (apply no_space_signed; now apply all_digits_no_space).
  rewrite split_sign_signed by assumption.
  rewrite (span_digits_all _ D). cbn [append]. rewrite append_nil_r.
  reflexivity.
Qed.

(** The constructor reads a signed positional text as its digits and the
    count of those behind the point. *)
Lemma decimal_of_pointed (neg : bool) (ip fp : string) :
  digit_run ip = true -> PyStr.all_digits fp = true ->
  PyDecimal.of_str ((if neg then "-" else "") ++ ip ++ "." ++ fp)
  = Ok (PyDecimal.Finite neg (PyStr.digits_val 0 (ip ++ fp))
                         (- PyStr.len fp)).
Proof.
  unfold digit_run. intros H Df.
  apply andb_true_iff in H. destruct H as [D N].
  apply negb_true_iff, String.eqb_neq in N.
  destruct ip as [| x r] eqn:E; [congruence |].
  pose proof D as D'. apply all_digits_cons in D'. destruct D' as [Dx Dr].
  unfold PyDecimal.of_str.
  rewrite strip_no_space.
  2:{ apply no_space_signed, no_space_append;
        [now apply all_digits_no_space |].
      cbn [append PyStr.no_space].
      now rewrite (all_digits_no_space fp Df). }
  change (String x r ++ "." ++ fp)%string
    with (String x (r ++ String "." fp))%string.
  rewrite split_sign_signed by assumption.
  change (String x (r ++ String "." fp))%string
    with (String x r ++ String "." fp)%string.
  rewrite span_digits_append by (assumption || reflexivity).
  rewrite (span_digits_all fp Df).
  cbn [PyStr.exponent_suffix].
  destruct (String x r ++ fp)%string eqn:E'; [discriminate E' |].
  rewrite <- E'. f_equal.
Qed.

(** [str] writes an integer as its sign and digits. *)
Lemma decimal_to_str_integer (ctx : PyDecimal.context) (neg : bool) (c : Z) :
  PyDecimal.to_str ctx (PyDecimal.Finite neg c 0)
  = ((if neg then "-" else "") ++ PyRepr.nat_str c)%string.
Proof.
  unfold PyDecimal.to_str, PyDecimal.coeff_str.
  set (ds := PyRepr.nat_str c).
  assert (1 <= PyStr.len ds) as L.
  { pose proof (nat_str_not_empty c) as N. fold ds in N.
    destruct ds; [congruence |]. unfold PyStr.len. cbn [String.length]. lia. }
  replace (0 + PyStr.len ds) with (PyStr.len ds) by lia.
  change (0 <=? 0) with true.
  destruct (Z.ltb_spec (-6) (PyStr.len ds)); [| lia]. cbn [andb].
  destruct (Z.leb_spec (PyStr.len ds) 0); [lia |].
  rewrite Z.leb_refl, Z.eqb_refl, Z.sub_diag.
  change (Z.to_nat 0) with 0%nat. cbn [PyStr.repeat].
  unfold PyDecimal.sign_str. now rewrite !append_nil_r.
Qed.

(** [str] writes a value with digits [ip ++ fp] and [len fp] decimals back
    as [ip.fp]. *)
Lemma decimal_to_str_plain (ctx : PyDecimal.context) (neg : bool)
    (ip fp : string) :
  plain_decimal ip fp = true ->
  PyDecimal.to_str ctx
    (PyDecimal.Finite neg (PyStr.digits_val 0 (ip ++ fp)) (- PyStr.len fp))
  = ((if neg then "-" else "") ++ ip ++ "." ++ fp)%string.
Proof.
  unfold plain_decimal. intros H.
  destruct ip as [| x r]; [discriminate H |].
  apply andb_true_iff in H. destruct H as [H Nf].
  apply andb_true_iff in H. destruct H as [H Df].
  apply andb_true_iff in H. destruct H as [H Dr].
  apply andb_true_iff in H. destruct H as [Dx Nx].
  apply negb_true_iff, Ascii.eqb_neq in Nx.
  apply negb_true_iff, String.eqb_neq in Nf.
  assert (0 < String.length fp)%nat as Lf
    by (destruct fp; simpl; [congruence | lia]).
  unfold PyDecimal.to_str, PyDecimal.coeff_str.
  change (String x r ++ fp)%string with (String x (r ++ fp)).
  rewrite nat_str_canonical
    by (assumption || now apply all_digits_append).
  change (String x (r ++ fp)) with (String x r ++ fp)%string.
  set (ip := String x r).
  unfold PyStr.len. rewrite length_append.
  replace (- Z.of_nat (String.length fp)
           + Z.of_nat (String.length ip + String.length fp))
    with (Z.of_nat (String.length ip)) by lia.
  replace (- Z.of_nat (String.length fp) <=? 0) with true
    by (symmetry; apply Z.leb_le; lia).
  replace (-6 <? Z.of_nat (String.length ip)) with true
    by (symmetry; apply Z.ltb_lt; lia).
  cbn [andb].
  replace (Z.of_nat (String.length ip) <=? 0) with false
    by (symmetry; apply Z.leb_gt; unfold ip; simpl String.length; lia).
  replace (Z.of_nat (String.length ip + String.length fp)
           <=? Z.of_nat (String.length ip)) with false
    by (symmetry; apply Z.leb_gt; lia).
  rewrite Z.eqb_refl, Nat2Z.id, take_append, drop_append.
  unfold PyDecimal.sign_str. cbn [append]. now rewrite append_nil_r.
Qed.

(** [str] writes a value below one with at most five zeros behind the
    point in positional form. *)
Lemma decimal_to_str_fraction (ctx : PyDecimal.context) (neg : bool)
    (z : nat) (c : Z) :
  (z <= 5)%nat ->
  PyDecimal.to_str ctx
    (PyDecimal.Finite neg c
       (- (Z.of_nat z + PyStr.len (PyRepr.nat_str c))))
  = ((if neg then "-" else "") ++ "0." ++ PyStr.repeat "0" z
     ++ PyRepr.nat_str c)%string.
Proof.
  intros Hz. unfold PyDecimal.to_str, PyDecimal.coeff_str.
  set (ds := PyRepr.nat_str c).
  set (n := PyStr.len ds).
  assert (1 <= n) as L.
  { pose proof (nat_str_not_empty c) as N. fold ds in N. unfold n.
    destruct ds; [congruence |]. unfold PyStr.len. cbn [String.length]. lia. }
  replace (- (Z.of_nat z + n) + n) with (- Z.of_nat z) by lia.
  replace (- (Z.of_nat z + n) <=? 0) with true
    by (symmetry; apply Z.leb_le; lia).
  replace (-6 <? - Z.of_nat z) with true
    by (symmetry; apply Z.ltb_lt; lia).
  cbn [andb].
  replace (- Z.of_nat z <=? 0) with true by (symmetry; apply Z.leb_le; lia).
  rewrite Z.eqb_refl, Z.opp_involutive, Nat2Z.id.
  unfold PyDecimal.sign_str. cbn [append]. now rewrite append_nil_r.
Qed.

Lemma typecast_decimal_text (s : string) :
  s <> "" ->
  typecast_decimal (Some s)
  = (let* d := PyDecimal.of_str s in Ok (Some d)).
Proof.
  destruct s; [congruence | reflexivity].
Qed.

Lemma signed_not_empty (neg : bool) (s : string) :
  s <> "" -> ((if neg then "-" else "") ++ s)%string <> "".
Proof.
  destruct neg; [discriminate | auto].
Qed.

(** C10, amended: "3.14" read by [typecast_decimal] and written by
    [rev_typecast_decimal] is "3.14" again, and so is every text in the
    positional form that [str] writes, whatever the decimal context: an
    optional "-" followed by an integer without a superfluous zero in
    front, or by [ip.fp] with [ip] a run of digits starting with a
    non-zero digit and [fp] a non-empty run of digits, or by "0." and a
    fraction with at most five zeros before digits without a superfluous
    zero in front. *)
Theorem decimal_round_trip (ctx : PyDecimal.context) :
  round_trips ctx "3.14" /\
  (forall (neg : bool) ip,
      canonical_digits ip = true ->
      round_trips ctx ((if neg then "-" else "") ++ ip)) /\
  (forall (neg : bool) ip fp,
      plain_decimal ip fp = true ->
      round_trips ctx ((if neg then "-" else "") ++ ip ++ "." ++ fp)) /\
  (forall (neg : bool) z r,
      (z <= 5)%nat -> canonical_digits r = true ->
      round_trips ctx
        ((if neg then "-" else "") ++ "0." ++ PyStr.repeat "0" z ++ r)).
Proof.
  assert (forall (neg : bool) ip fp,
             plain_decimal ip fp = true ->
             round_trips ctx ((if neg then "-" else "") ++ ip ++ "." ++ fp))
    as P.
  { intros neg ip fp H.
    assert (digit_run ip = true /\ PyStr.all_digits fp = true) as [Ri Df].
    { unfold plain_decimal in H. destruct ip as [| x r]; [discriminate H |].
      apply andb_true_iff in H. destruct H as [H _].
      apply andb_true_iff in H. destruct H as [H Df].
      apply andb_true_iff in H. destruct H as [H Dr].
      apply andb_true_iff in H. destruct H as [Dx _].
      split; [| exact Df]. unfold digit_run. cbn [PyStr.all_digits].
      now rewrite Dx, Dr. }
    eexists. split.
    - rewrite typecast_decimal_text.
      + rewrite (decimal_of_pointed neg ip fp Ri Df). reflexivity.
      + apply signed_not_empty, append_not_empty.
        unfold digit_run in Ri. apply andb_true_iff in Ri.
        destruct Ri as [_ N]. now apply negb_true_iff, String.eqb_neq in N.
    - unfold rev_typecast_decimal. now rewrite decimal_to_str_plain. }
  split; [exact (P false "3" "14" eq_refl) |].
  split; [| split; [exact P |]].
  - intros neg ip C.
    destruct (nat_str_canonical_digits ip C) as [Ec R].
    eexists. split.
    + rewrite typecast_decimal_text.
      * rewrite (decimal_of_integer neg ip R). reflexivity.
      * apply signed_not_empty. unfold digit_run in R.
        apply andb_true_iff in R. destruct R as [_ N].
        now apply negb_true_iff, String.eqb_neq in N.
    + unfold rev_typecast_decimal.
      now rewrite decimal_to_str_integer, Ec.
  - intros neg z r Hz C.
    destruct (nat_str_canonical_digits r C) as [Ec R].
    pose proof R as R'. unfold digit_run in R'.
    apply andb_true_iff in R'. destruct R' as [Dr _].
    set (fp := (PyStr.repeat "0" z ++ r)%string).
    assert (PyStr.all_digits fp = true) as Df
      by (apply all_digits_append; [apply repeat_zero_digits | assumption]).
    assert (PyStr.digits_val 0 ("0" ++ fp) = PyStr.digits_val 0 r) as Ev.
    { unfold fp. change ("0" ++ PyStr.repeat "0" z ++ r)%string
        with (PyStr.repeat "0" (S z) ++ r)%string.
      rewrite digits_val_append, digits_val_zeros. reflexivity. }
    assert (PyStr.len fp = Z.of_nat z + PyStr.len r) as Lf.
    { unfold fp, PyStr.len. rewrite length_append, length_repeat. lia. }
    eexists. split.
    + rewrite typecast_decimal_text by (apply signed_not_empty; discriminate).
      change ("0." ++ fp)%string with ("0" ++ "." ++ fp)%string.
      rewrite (decimal_of_pointed neg "0" fp eq_refl Df), Ev, Lf.
      reflexivity.
    + unfold rev_typecast_decimal.
      replace (PyStr.len r)
        with (PyStr.len (PyRepr.nat_str (PyStr.digits_val 0 r)))
        by now rewrite Ec.
      rewrite decimal_to_str_fraction by assumption.
      now rewrite Ec.
Qed.

(** The amended C10 at "-3.14", "42" and "-0.05". *)
Lemma decimal_round_trip_witness :
  round_trips PyDecimal.default_context "-3.14" /\
  round_trips PyDecimal.default_context "42" /\
  round_trips PyDecimal.default_context "-0.05".
Proof.
  destruct (decimal_round_trip PyDecimal.default_context)
    as (_ & A & B & C).
  split; [| split].
  - exact (B true "3"%string "14"%string eq_refl).
  - exact (A false "42"%string eq_refl).
  - exact (C true 1%nat "5"%string ltac:(lia) eq_refl).
Defined.

(** ["%.*f"] of a finite float has exactly [p] decimals when [p >= 1]. *)
Lemma format_f_fixed_decimals (p : Z) (neg : bool) (m e : Z) :
  1 <= p -> 0 <= m ->
  fixed_decimals (Z.to_nat p) (PyFloat.format_f p (PyFloat.Fin neg m e)) = true.
Proof.
  intros P M. unfold PyFloat.format_f.
  replace (Z.max 0 p) with p by lia.
  assert (0 < 10 ^ p) as T by (apply Z.pow_pos_nonneg; lia).
  pose proof (scaled_sign (m * 10 ^ p) 1 (- e) ltac:(nia) Z.lt_0_1) as S.
  destruct (PyFloat.scaled (m * 10 ^ p) 1 (- e)) as [n d].
  simpl in S. destruct S as [S1 S2].
  pose proof (div_half_even_nonneg n d S1 S2) as Q.
  set (q := PyFloat.div_half_even n d) in *.
  replace (p =? 0) with false by (symmetry; apply Z.eqb_neq; lia).
  set (ip := PyRepr.nat_str (q / 10 ^ p)).
  set (fp := PyRepr.nat_str (q mod 10 ^ p)).
  assert (PyStr.all_digits ip = true) as Di by apply nat_str_all_digits.
  assert (ip <> "") as Ni by apply nat_str_not_empty.
  assert (PyStr.all_digits fp = true) as Df by apply nat_str_all_digits.
  assert (String.length fp <= Z.to_nat p)%nat as Lf.
  { apply nat_str_length; [| lia].
    rewrite Z2Nat.id by lia. apply Z.mod_pos_bound. lia. }
  set (pad := PyStr.repeat "0" (Z.to_nat p - String.length fp)).
  assert (PyStr.all_digits (pad ++ fp) = true) as Dp
    by (apply all_digits_append; [apply repeat_zero_digits | assumption]).
  assert (String.length (pad ++ fp) = Z.to_nat p) as Lp.
  { rewrite length_append. unfold pad. rewrite length_repeat. lia. }
  assert (drop_minus ip = ip) as E.
  { destruct ip as [| x r]; [reflexivity |].
    apply all_digits_cons in Di. destruct Di as [Dx _].
    destruct x as [[] [] [] [] [] [] [] []]; vm_compute in Dx;
      try discriminate Dx; reflexivity. }
  assert (String.eqb ip "" = false) as Es by now apply String.eqb_neq.
  assert (PyStr.contains "." (pad ++ fp) = false) as Cp
    by now apply all_digits_no_point.
  assert (PyStr.contains "." ip = false) as Cs
    by now apply all_digits_no_point.
  unfold fixed_decimals.
  destruct neg.
  - change (String "-" (ip ++ "." ++ pad ++ fp))%string
      with (String "-" ip ++ String "." (pad ++ fp))%string.
    rewrite (split_at_sep "." (String "-" ip)), (split_without_sep _ _ Cp)
      by exact Cs.
    change (drop_minus (String "-" ip)) with ip.
    rewrite Dp, Lp, Di, Es, Nat.eqb_refl. reflexivity.
  - change (ip ++ "." ++ pad ++ fp)%string
      with (ip ++ String "." (pad ++ fp))%string.
    rewrite (split_at_sep "." ip _ Cs), (split_without_sep _ _ Cp).
    rewrite E, Dp, Lp, Di, Es, Nat.eqb_refl. reflexivity.
Qed.

(** X17: For a float, [format_number] ignores [max_digits] and writes the
    value with exactly [decimal_places] digits behind the point: any
    finite float, any [decimal_places] from 1 to 1000000000, however many
    digits that takes in all.  From [2^31] on the precision does not fit
    a C [int] and the call raises [OverflowError]. *)
Theorem format_number_float_places (gctx : PyDecimal.context)
    (neg : bool) (m e max_digits dp : Z) :
  0 <= m ->
  (1 <= dp <= 1000000000 ->
   exists text,
     format_number gctx (Flt (PyFloat.Fin neg m e)) max_digits dp
     = (Ok text, gctx) /\
     fixed_decimals (Z.to_nat dp) text = true /\
     (forall max_digits',
         format_number gctx (Flt (PyFloat.Fin neg m e)) max_digits' dp
         = (Ok text, gctx))) /\
  (2 ^ 31 <= dp ->
   forall value,
     format_number gctx (Flt value) max_digits dp
     = (Raise OverflowError, gctx)).
Proof.
  intros M. split.
  - intros P. exists (PyFloat.format_f dp (PyFloat.Fin neg m e)).
    assert (PyFloat.format_star_f dp (PyFloat.Fin neg m e)
            = Ok (PyFloat.format_f dp (PyFloat.Fin neg m e))) as E.
    { unfold PyFloat.format_star_f.
      destruct (Z.leb_spec (- 2 ^ 31) dp); [| lia].
      destruct (Z.ltb_spec dp (2 ^ 31)); [reflexivity | lia]. }
    cbn [format_number]. rewrite E.
    split; [reflexivity |].
    split; [apply format_f_fixed_decimals; lia | reflexivity].
  - intros P value. cbn [format_number]. unfold PyFloat.format_star_f.
    destruct (Z.ltb_spec dp (2 ^ 31)); [lia |].
    rewrite andb_false_r. reflexivity.
Qed.

Lemma format_number_float_places_witness :
  (exists text,
      format_number PyDecimal.default_context
        (Flt (PyFloat.Fin false 7074029114692207 (-51))) 3 2
      = (Ok text, PyDecimal.default_context) /\
      fixed_decimals 2 text = true) /\
  format_number PyDecimal.default_context
    (Flt (PyFloat.Fin false 7074029114692207 (-51))) 3 2147483648
  = (Raise OverflowError, PyDecimal.default_context).
Proof.
  split.
  - destruct (format_number_float_places PyDecimal.default_context false
                7074029114692207 (-51) 3 2) as [H _]; [lia |].
    destruct H as (text & E & F & _); [lia |].
    exists text. split; [exact E | exact F].
  - destruct (format_number_float_places PyDecimal.default_context false
                7074029114692207 (-51) 3 2147483648) as [_ H]; [lia |].
    apply H. lia.
Defined.

(** X14: A date-only text given to [typecast_timestamp] comes back as a date,
    not a datetime, and so without a zone tag even when [USE_TZ] is set:
    the ISO text of every valid date reads back as that date. *)
Theorem typecast_timestamp_date_only (use_tz : bool) (y m d : Z) :
  DateTime.valid_date y m d = true ->
  typecast_timestamp use_tz (Some (DateTimeText.date_str y m d))
  = Ok (Some (AsDate (DateTime.mk_date y m d))).
Proof.
  intros V. unfold typecast_timestamp.
  rewrite truthy_not_empty
    by (unfold DateTimeText.date_str; apply append_not_empty, zfill_not_empty).
  assert (PyStr.contains " " (DateTimeText.date_str y m d) = false) as ->.
  { unfold DateTimeText.date_str.
    repeat (rewrite ?contains_append; cbn [PyStr.contains]).
    rewrite !zfill_no_char by reflexivity. reflexivity. }
  cbn [negb].
  pose proof (valid_date_bounds y m d V) as B.
  unfold typecast_date.
  rewrite truthy_not_empty
    by (unfold DateTimeText.date_str; apply append_not_empty, zfill_not_empty).
  rewrite date_str_split. cbn [rmap].
  rewrite !py_int_zfill by lia. cbn [rbind DateTime.date_of_args].
  rewrite (new_date_valid y m d V). reflexivity.
Qed.

Lemma typecast_timestamp_date_only_witness :
  DateTime.valid_date 2005 7 29 = true /\
  typecast_timestamp true (Some "2005-07-29")
  = Ok (Some (AsDate (DateTime.mk_date 2005 7 29))).
Proof.
  split; [reflexivity |].
  exact (typecast_timestamp_date_only true 2005 7 29 eq_refl).
Defined.

Lemma split_join (c : ascii) (parts : list string) :
  parts <> [] ->
  Forall (fun p => PyStr.contains c p = false) parts ->
  PyStr.split c (join c parts) = parts.
Proof.
  intros N F. induction F as [| p ps Hp Hps IH]; [congruence |].
  destruct ps as [| p' ps'].
  - simpl. now apply split_without_sep.
  - change (join c (p :: p' :: ps'))
      with (p ++ String c (join c (p' :: ps')))%string.
    rewrite split_at_sep by assumption.
    rewrite IH by discriminate. reflexivity.
Qed.

Lemma rmap_py_int_digits (parts : list string) :
  Forall (fun p => digit_run p = true) parts ->
  rmap py_int parts = Ok (map (PyStr.digits_val 0) parts).
Proof.
  induction 1 as [| p ps Hp Hps IH]; [reflexivity |].
  unfold digit_run in Hp. apply andb_true_iff in Hp. destruct Hp as [D N].
  apply negb_true_iff, String.eqb_neq in N.
  cbn [rmap map]. rewrite py_int_digits, IH by assumption. reflexivity.
Qed.

Lemma short_digit_run_fits (p : string) :
  short_digit_run p = true ->
  digit_run p = true /\
  DateTime.c_int (PyStr.digits_val 0 p) = Ok (PyStr.digits_val 0 p).
Proof.
  unfold short_digit_run. intros H.
  apply andb_true_iff in H. destruct H as [R L].
  split; [exact R |].
  unfold digit_run in R. apply andb_true_iff in R. destruct R as [D _].
  apply Nat.leb_le in L.
  pose proof (digits_val_bound p 0 D ltac:(lia)) as B.
  assert (10 ^ PyStr.len p <= 10 ^ 9) as P
    by (apply Z.pow_le_mono_r; unfold PyStr.len; lia).
  apply c_int_fits. change (2 ^ 31) with 2147483648.
  change (10 ^ 9) with 1000000000 in P. lia.
Qed.

(** X15: A text of digit fields joined by "-" that has not exactly three
    fields makes [typecast_date] raise [TypeError] (the wrong number of
    arguments for [datetime.date]), not [ValueError], when each field has
    at most nine digits.  A longer field does not fit a C [int]: with
    fewer than three fields the call raises [OverflowError] for it, with
    more than three it is not looked at. *)
Theorem typecast_date_field_count :
  (forall fields,
      fields <> [] ->
      Forall (fun p => short_digit_run p = true) fields ->
      List.length fields <> 3%nat ->
      typecast_date (Some (join "-" fields)) = Raise TypeError) /\
  typecast_date (Some "99999999999-07") = Raise OverflowError /\
  typecast_date (Some "2005-99999999999") = Raise OverflowError /\
  typecast_date (Some "2005-07-29-99999999999") = Raise TypeError.
Proof.
  split; [| repeat split; reflexivity].
  intros fields N F0 L.
  assert (Forall (fun p => digit_run p = true) fields) as F.
  { eapply Forall_impl; [| exact F0]. intros p Hp.
    exact (proj1 (short_digit_run_fits p Hp)). }
  assert (Forall (fun p => PyStr.contains "-" p = false) fields) as F'.
  { eapply Forall_impl; [| exact F]. intros p Hp. unfold digit_run in Hp.
    apply andb_true_iff in Hp. destruct Hp as [D _].
    now apply all_digits_no_char. }
  assert (join "-" fields <> "") as NE.
  { destruct fields as [| p ps]; [congruence |].
    inversion F as [| ? ? Hp _]; subst.
    unfold digit_run in Hp. apply andb_true_iff in Hp. destruct Hp as [_ Np].
    apply negb_true_iff, String.eqb_neq in Np.
    destruct ps; [exact Np | now apply append_not_empty]. }
  unfold typecast_date. rewrite truthy_not_empty by exact NE.
  rewrite split_join, rmap_py_int_digits by assumption.
  cbn [rbind].
  destruct fields as [| a [| b [| c [| d r]]]].
  - congruence.
  - inversion F0 as [| ? ? Ha _]; subst.
    cbn [map DateTime.date_of_args rmap].
    rewrite (proj2 (short_digit_run_fits a Ha)). reflexivity.
  - inversion F0 as [| ? ? Ha Fb]; subst.
    inversion Fb as [| ? ? Hb _]; subst.
    cbn [map DateTime.date_of_args rmap].
    rewrite (proj2 (short_digit_run_fits a Ha)),
            (proj2 (short_digit_run_fits b Hb)). reflexivity.
  - simpl in L. congruence.
  - reflexivity.
Qed.

Lemma typecast_date_field_count_witness :
  typecast_date (Some "2005-07") = Raise TypeError /\
  typecast_date (Some "2005") = Raise TypeError /\
  typecast_date (Some "2005-07-29-01") = Raise TypeError.
Proof.
  destruct typecast_date_field_count as [T _].
  split; [| split].
  - apply (T ["2005"; "07"]%string).
    + discriminate.
    + repeat constructor.
    + simpl. lia.
  - apply (T ["2005"]%string).
    + discriminate.
    + repeat constructor.
    + simpl. lia.
  - apply (T ["2005"; "07"; "29"; "01"]%string).
    + discriminate.
    + repeat constructor.
    + simpl. lia.
Defined.

(** ** The debug wrapper on the other paths *)

Section CursorDebugPaths.

Variables driver_exc db_error : Type.
Variable translate : driver_exc -> db_error.
Variables value params : Type.
Variable params_str : params -> string.
Variable ext : Type.
Variable clock : ext -> PyFloat.t.
Variable last_executed_query : ext -> string -> option params -> string.
Variable cursor_getattr :
  string -> ext -> option (raw_attr driver_exc value params ext).

Local Abbreviation debug_execute :=
  (CursorDebugWrapper_execute translate params_str clock last_executed_query
                              cursor_getattr).

(** X5: [CursorDebugWrapper.execute] with a raw [execute] method, whatever the
    method does: it is called once, with the statement alone when [params]
    is [None]; its value comes back unchanged (an exception translated);
    the duration is the clock after the call minus the clock before it,
    and the statement logged is the one [last_executed_query] renders on
    the cursor as the call left it. *)
Theorem debug_execute_logged (sql : string) (p : option params)
    (w : world params ext)
    (m : args params -> ext -> (value + driver_exc) * ext) :
  cursor_getattr "execute" (outer w) = Some (RawMethod m) ->
  let a := match p with
           | None => [PStr sql]
           | Some p' => [PStr sql; PObj p']
           end in
  let x := snd (m a (outer w)) in
  let duration := PyFloat.sub (clock x) (clock (outer w)) in
  let sql' := last_executed_query x sql p in
  let q := mk_query sql' (PyFloat.format_f 3 duration) in
  let lr := mk_log (debug_message duration sql' (str_params params_str p))
                   duration sql' p in
  debug_execute sql p w
  = (match fst (m a (outer w)) with
     | inl v => inl v
     | inr e => inr (DatabaseError (translate e))
     end,
     mk_world true (queries w ++ [q]) (logged w ++ [lr])
              (trace w ++ [EvSetDirty; EvCall "execute" a;
                           EvQuery q; EvLog lr])
              x).
Proof.
  intros Hm a x duration sql' q lr.
  rewrite debug_execute_steps. cbv zeta.
  rewrite wrapped_body. cbn [outer]. rewrite Hm.
  cbn [fst snd dirty queries logged trace outer].
  rewrite <- !app_assoc.
  destruct p; reflexivity.
Qed.

(** X6: When the raw cursor has no [execute] at all, the debug wrapper raises
    [AttributeError], and still marks the connection dirty and logs one
    entry and one record, with the statement as [last_executed_query]
    renders it; nothing is called on the raw cursor. *)
Theorem debug_execute_without_method (sql : string) (p : option params)
    (w : world params ext) :
  cursor_getattr "execute" (outer w) = None ->
  exists q lr,
    debug_execute sql p w
    = (inr AttributeError,
       mk_world true (queries w ++ [q]) (logged w ++ [lr])
                (trace w ++ [EvSetDirty; EvQuery q; EvLog lr])
                (outer w)) /\
    q_sql q = last_executed_query (outer w) sql p /\
    lr_sql lr = last_executed_query (outer w) sql p.
Proof.
  intros Hm.
  rewrite debug_execute_steps. cbv zeta.
  rewrite wrapped_body. cbn [outer]. rewrite Hm.
  cbn [fst snd dirty queries logged trace outer].
  rewrite <- !app_assoc.
  eexists. eexists. split; [reflexivity |]. split; reflexivity.
Qed.

End CursorDebugPaths.

Lemma debug_execute_logged_witness :
  SampleDriver.cursor_getattr "execute" (outer SampleDriver.w0)
  = Some (RawMethod SampleDriver.run) /\
  fst (SampleDriver.execute "SELECT 1" None SampleDriver.w0) = inl 1 /\
  queries (snd (SampleDriver.execute "SELECT 1" None SampleDriver.w0))
  = [mk_query "SELECT 1 -- None" "0.037"].
Proof.
  split; [reflexivity |].
  pose proof (debug_execute_logged _ _ SampleDriver.translate _ _
                SampleDriver.params_str _ SampleDriver.clock
                SampleDriver.last_executed_query SampleDriver.cursor_getattr
                "SELECT 1" None SampleDriver.w0 SampleDriver.run eq_refl)
    as E.
  cbv zeta in E. unfold SampleDriver.execute. rewrite E.
  split; vm_compute; reflexivity.
Defined.

Lemma debug_execute_without_method_witness :
  BareDriver.cursor_getattr "execute" (outer SampleDriver.w0) = None /\
  fst (BareDriver.execute "SELECT 1" None SampleDriver.w0)
  = inr AttributeError /\
  dirty (snd (BareDriver.execute "SELECT 1" None SampleDriver.w0)) = true.
Proof.
  split; [reflexivity |].
  destruct (debug_execute_without_method _ _ SampleDriver.translate Z _
              SampleDriver.params_str _ SampleDriver.clock
              SampleDriver.last_executed_query BareDriver.cursor_getattr
              "SELECT 1" None SampleDriver.w0 eq_refl)
    as (q & lr & E & _ & _).
  unfold BareDriver.execute. rewrite E. split; reflexivity.
Defined.
